(** * Caudena transaction checker: a shallow embedding of [check_transaction.py]

    The development follows the source file top-down:
    - [Text]: the [str] methods the script relies on;
    - [Env]: [load_env_file] and [get_api_credentials];
    - [Json], [Py], [Fmt]: parsed response bodies, the effects of the
      script (printing, HTTP calls, exceptions, exit) and f-string
      formatting;
    - [Clock]: [format_timestamp] and the expiry computed by
      [generate_jwt_token];
    - [Report]: the three report printers;
    - [Api]: [make_api_request], the two lookup functions and [main].

    Text is modelled as [string] over ASCII characters; Python integers as
    [Z]; a parsed JSON object as an association list in insertion order. *)

From stdpp Require Import gmap strings.
From Stdlib Require Import ZArith List String Ascii Bool Lia.
From Stdlib Require Import DecimalString Floats.SpecFloat.
Import ListNotations.

Local Open Scope string_scope.
Local Open Scope Z_scope.
Set Warnings "-register-all".

(* ===================================================================== *)
(** ** Text: the [str] methods used by the script *)
(* ===================================================================== *)

Module Text.

(** [str.isspace] restricted to ASCII: TAB..CR, FS..US and the blank. *)
Definition is_space (c : ascii) : bool :=
  let n := nat_of_ascii c in
  ((9 <=? n)%nat && (n <=? 13)%nat) || ((28 <=? n)%nat && (n <=? 32)%nat).

Fixpoint lstrip (s : string) : string :=
  match s with
  | EmptyString => EmptyString
  | String c r => if is_space c then lstrip r else s
  end.

Fixpoint rstrip (s : string) : string :=
  match s with
  | EmptyString => EmptyString
  | String c r =>
      match rstrip r with
      | EmptyString => if is_space c then EmptyString else String c EmptyString
      | r' => String c r'
      end
  end.

(** [s.strip()] *)
Definition strip (s : string) : string := rstrip (lstrip s).

(** [s.startswith(p)] *)
Fixpoint startswith (p s : string) : bool :=
  match p with
  | EmptyString => true
  | String a p' =>
      match s with
      | EmptyString => false
      | String b s' => Ascii.eqb a b && startswith p' s'
      end
  end.

(** The last character of [s], if any. *)
Fixpoint last_char (s : string) : option ascii :=
  match s with
  | EmptyString => None
  | String c EmptyString => Some c
  | String _ r => last_char r
  end.

(** [s.endswith(c)] for a one-character suffix. *)
Definition endswith_char (c : ascii) (s : string) : bool :=
  match last_char s with
  | Some d => Ascii.eqb c d
  | None => false
  end.

(** [s.endswith(p)] *)
Fixpoint endswith (p s : string) : bool :=
  String.eqb p s
  || match s with
     | EmptyString => false
     | String _ r => endswith p r
     end.

(** [c in s] for a one-character needle. *)
Fixpoint contains_char (c : ascii) (s : string) : bool :=
  match s with
  | EmptyString => false
  | String d r => Ascii.eqb c d || contains_char c r
  end.

(** [s[:-1]] *)
Fixpoint drop_last (s : string) : string :=
  match s with
  | EmptyString => EmptyString
  | String _ EmptyString => EmptyString
  | String c r => String c (drop_last r)
  end.

(** [s[1:-1]] *)
Definition slice_1_m1 (s : string) : string :=
  match s with
  | EmptyString => EmptyString
  | String _ r => drop_last r
  end.

(** [s[:n]] *)
Fixpoint take (n : nat) (s : string) : string :=
  match n, s with
  | S k, String c r => String c (take k r)
  | _, _ => EmptyString
  end.

(** [s.replace(old, '')] for a non-empty [old]: a left-to-right scan that
    drops every non-overlapping occurrence.  [skip] counts the characters
    of the current occurrence still to drop. *)
Fixpoint remove_from (old : string) (skip : nat) (s : string) : string :=
  match s with
  | EmptyString => EmptyString
  | String c r =>
      match skip with
      | S k => remove_from old k r
      | O =>
          if startswith old s
          then remove_from old (Nat.pred (String.length old)) r
          else String c (remove_from old O r)
      end
  end.

Definition remove_all (old s : string) : string := remove_from old O s.

(** [s.split(sep, 1)] for a one-character separator: [None] stands for the
    one-element list returned when [sep] does not occur. *)
Fixpoint split_once (sep : ascii) (s : string) : option (string * string) :=
  match s with
  | EmptyString => None
  | String c r =>
      if Ascii.eqb sep c then Some (EmptyString, r)
      else match split_once sep r with
           | Some (a, b) => Some (String c a, b)
           | None => None
           end
  end.

Definition dquote : ascii := ascii_of_nat 34.
Definition squote : ascii := ascii_of_nat 39.
Definition newline : ascii := ascii_of_nat 10.

(** Predicates used to state properties of the operations above. *)
Fixpoint all_chars (p : ascii -> bool) (s : string) : bool :=
  match s with
  | EmptyString => true
  | String c r => p c && all_chars p r
  end.

Definition nonspace (c : ascii) : bool := negb (is_space c).

(** A string made of whitespace only. *)
Definition blank (s : string) : bool := all_chars is_space s.

(** A string that [strip] leaves alone: empty, or with a first and a last
    character that are not whitespace. *)
Definition tight (s : string) : bool :=
  match s with
  | EmptyString => true
  | String c _ =>
      negb (is_space c)
      && match last_char s with Some d => negb (is_space d) | None => true end
  end.

End Text.

(* ===================================================================== *)
(** ** Env: [load_env_file] *)
(* ===================================================================== *)

Module Env.
Import Text.

(** The choice made on line 34 of the source. *)
Definition separator_of (line : string) : option ascii :=
  if contains_char "=" line then Some "="%char
  else if contains_char ":" line then Some ":"%char
  else None.

(** Lines 43 to 46: one pair of wrapping quotes is removed. *)
Definition unquote (value : string) : string :=
  if startswith (String dquote EmptyString) value && endswith_char dquote value
  then slice_1_m1 value
  else if startswith (String squote EmptyString) value && endswith_char squote value
  then slice_1_m1 value
  else value.

(** The body of the loop of [load_env_file] on one line of the file: the
    binding the line adds to [env_vars], if any. *)
Definition parse_line (raw : string) : option (string * string) :=
  let line := strip raw in
  if (String.length line =? 0)%nat || startswith "#" line then None
  else
    match separator_of line with
    | None => None
    | Some sep =>
        let line := strip (remove_all "export " line) in
        match split_once sep line with
        | Some (k, v) => Some (strip k, unquote (strip v))
        | None => None
        end
    end.

(** [load_env_file] on the lines of an existing file. *)
Definition load_lines (lines : list string) : gmap string string :=
  fold_left
    (fun env_vars line =>
       match parse_line line with
       | Some (k, v) => <[k := v]> env_vars
       | None => env_vars
       end)
    lines ∅.

(** A file system seen through [os.path.exists] and [open]: the lines of
    the file at a path, when it exists. *)
Definition files := string -> option (list string).

Definition load_env_file (fs : files) (filepath : string) : gmap string string :=
  match fs filepath with
  | Some lines => load_lines lines
  | None => ∅
  end.

(** The reading of the specification: only a leading [export] keyword is
    removed.  Used to compare with [parse_line]. *)
Definition strip_leading_export (line : string) : string :=
  if startswith "export " line then substring 7 (String.length line - 7) line
  else line.

Definition parse_line_spec (raw : string) : option (string * string) :=
  let line := strip raw in
  if (String.length line =? 0)%nat || startswith "#" line then None
  else
    match separator_of line with
    | None => None
    | Some sep =>
        let line := strip (strip_leading_export line) in
        match split_once sep line with
        | Some (k, v) => Some (strip k, unquote (strip v))
        | None => None
        end
    end.

(** The shapes of a configuration line that the loader is meant to accept:
    optional [export ] prefix, either separator, optional quoting, any
    surrounding whitespace. *)
Inductive quoting := Bare | Single | Double.

Definition quote_with (q : quoting) (v : string) : string :=
  match q with
  | Bare => v
  | Single => String squote (v ++ String squote EmptyString)
  | Double => String dquote (v ++ String dquote EmptyString)
  end.

Definition config_line (ws1 : string) (export : bool) (k : string)
    (sep : ascii) (q : quoting) (v : string) (ws2 : string) : string :=
  ws1 ++ ((if export then "export " else "") ++ k ++ String sep (quote_with q v)) ++ ws2.

(** A configuration line with blanks around the separator as well, as in
    [KEY = value]. *)
Definition spaced_line (ws1 : string) (export : bool) (k pad1 : string)
    (sep : ascii) (pad2 : string) (q : quoting) (v : string) (ws2 : string)
    : string :=
  ws1 ++ ((if export then "export " else "") ++ k ++ pad1
          ++ String sep (pad2 ++ quote_with q v)) ++ ws2.

(** Characters of a key or value that needs no quoting: no whitespace, no
    separator, no quote. *)
Definition plain_char (c : ascii) : bool :=
  negb (is_space c) && negb (Ascii.eqb c "=") && negb (Ascii.eqb c ":")
  && negb (Ascii.eqb c dquote) && negb (Ascii.eqb c squote).

Definition plain (s : string) : bool := all_chars plain_char s.

End Env.

(* ===================================================================== *)
(** ** Json: parsed response bodies *)
(* ===================================================================== *)

Module Json.

(** What [response.json()] returns.  A float is a binary64 value in
    canonical form; an object keeps its keys in insertion order. *)
Inductive value :=
| VNone
| VBool (b : bool)
| VInt (n : Z)
| VFloat (f : spec_float)
| VStr (s : string)
| VList (l : list value)
| VDict (kv : list (string * value)).

Fixpoint assoc (k : string) (kv : list (string * value)) : option value :=
  match kv with
  | [] => None
  | (k', v) :: r => if String.eqb k k' then Some v else assoc k r
  end.

(** The value [d.get(k, default)] yields on the entries [kv] of a dict. *)
Definition lookup_or (k : string) (default : value)
    (kv : list (string * value)) : value :=
  match assoc k kv with Some x => x | None => default end.

Definition float_is_zero (f : spec_float) : bool :=
  match f with S754_zero _ => true | _ => false end.

(** [bool(v)] *)
Definition truthy (v : value) : bool :=
  match v with
  | VNone => false
  | VBool b => b
  | VInt n => negb (n =? 0)
  | VFloat f => negb (float_is_zero f)
  | VStr s => negb (String.length s =? 0)%nat
  | VList l => negb (List.length l =? 0)%nat
  | VDict kv => negb (List.length kv =? 0)%nat
  end.

(** [k in d] for a dict [d]. *)
Definition has_key (k : string) (kv : list (string * value)) : bool :=
  match assoc k kv with Some _ => true | None => false end.

(** [v == s] for a string literal [s]. *)
Definition eq_str (v : value) (s : string) : bool :=
  match v with VStr t => String.eqb t s | _ => false end.

End Json.

(* ===================================================================== *)
(** ** Py: the effects of the script *)
(* ===================================================================== *)

Module Py.
Import Json.

(** The exception classes the script can meet in its own code. *)
Inductive exn := TypeError | ValueError | AttributeError | KeyError.

Inductive http_method := GET | POST | OtherMethod (name : string).

Record request := mk_request {
  req_method : http_method;
  req_url : string;
  req_headers : list (string * string);
  req_json : option value;
  req_timeout : Z
}.

(** What the remote end does with a request: an HTTP response, with its
    status, its body parsed as JSON when it parses, and its raw text; or a
    failure of the transport (time-out, refused connection). *)
Inductive reply :=
| Response (status : Z) (json : option value) (text : string)
| TransportError (msg : string).

(** What an observer of the process sees, in order. *)
Inductive event :=
| Print (s : string)
| Stderr (s : string)
| Http (r : request).

(** How a piece of code ends: normally, by [sys.exit], or by an exception. *)
Inductive outcome (A : Type) :=
| Done (a : A)
| Exit (code : Z)
| Raise (e : exn).
Arguments Done {A} a.
Arguments Exit {A} code.
Arguments Raise {A} e.

(** A computation: the events it produced and how it ended. *)
Definition M (A : Type) : Type := list event * outcome A.

Definition ret {A} (a : A) : M A := ([], Done a).
Definition raise {A} (e : exn) : M A := ([], Raise e).
Definition sys_exit {A} (code : Z) : M A := ([], Exit code).
Definition print (s : string) : M unit := ([Print s], Done tt).

Definition bind {A B} (c : M A) (k : A -> M B) : M B :=
  match c with
  | (t, Done a) => let '(t', r) := k a in ((t ++ t')%list, r)
  | (t, Exit code) => (t, Exit code)
  | (t, Raise e) => (t, Raise e)
  end.

(** [for x in l: body x] *)
Fixpoint for_each {A} (l : list A) (body : A -> M unit) : M unit :=
  match l with
  | [] => ret tt
  | x :: r => bind (body x) (fun _ => for_each r body)
  end.

(** [enumerate(l, start)] *)
Fixpoint enumerate {A} (start : Z) (l : list A) : list (Z * A) :=
  match l with
  | [] => []
  | x :: r => (start, x) :: enumerate (start + 1) r
  end.

Definition trace {A} (c : M A) : list event := fst c.
Definition result {A} (c : M A) : outcome A := snd c.

(** The text written to standard output, one entry per [print] call. *)
Definition printed (t : list event) : list string :=
  flat_map (fun e => match e with Print s => [s] | _ => [] end) t.

(** The HTTP calls made. *)
Definition requests (t : list event) : list request :=
  flat_map (fun e => match e with Http r => [r] | _ => [] end) t.

(** A computation that makes no HTTP call. *)
Definition quiet {A} (c : M A) : Prop := requests (trace c) = [].

(** A computation that does not end by [sys.exit]. *)
Definition no_exit {A} (c : M A) : Prop := forall code, result c <> Exit code.

(** A computation that exits with status 1 or not at all. *)
Definition exits_one {A} (c : M A) : Prop :=
  forall code, result c = Exit code -> code = 1.

(** The exit status of the process when its main function ends as [r]:
    an uncaught exception ends the interpreter with status 1. *)
Definition exit_status {A} (r : outcome A) : Z :=
  match r with
  | Done _ => 0
  | Exit code => code
  | Raise _ => 1
  end.

(** The parts of the interpreter and of the libraries the script calls
    whose text or arithmetic is not that of the script: the local time
    zone, float conversions, the text of containers and of exceptions,
    base64 and the token encoder. *)
Record runtime := mk_runtime {
  utcoffset : Z -> Z;
  float_whole_seconds : spec_float -> option Z;
  float_str : spec_float -> string;
  float_grouped : spec_float -> string;
  float_fixed : nat -> spec_float -> string;
  container_str : value -> string;
  exn_str : exn -> string;
  b64decode : string -> option string;
  jwt_encode : string -> Z -> string -> string;
  (* [response.json()] on a body that is not JSON raises an error that is
     a [RequestException] (requests 2.27 and later) or a plain
     [ValueError] (before) *)
  json_error_is_request_exception : bool
}.

(** A runtime to run the model on payloads whose numbers are integers:
    the zone is given, the other parts answer with fixed texts. *)
Definition sample_runtime (zone : Z -> Z) : runtime :=
  mk_runtime zone (fun _ => None) (fun _ => "nan") (fun _ => "nan")
    (fun _ _ => "nan") (fun _ => "{...}") (fun _ => "error")
    (fun s => Some s) (fun identifier _ _ => identifier) true.

End Py.

Declare Scope py_scope.
Delimit Scope py_scope with py.
Notation "'let*' x ':=' c 'in' k" := (Py.bind c (fun x => k))
  (at level 10, x name, c at level 100, k at level 200) : py_scope.
Notation "c ';;' k" := (Py.bind c (fun _ => k))
  (at level 100, k at level 200, right associativity) : py_scope.

(* ===================================================================== *)
(** ** Fmt: [str()], format specifications, slices *)
(* ===================================================================== *)

Module Fmt.
Import Json Py.
Local Open Scope py_scope.

(** [str(n)] for an integer. *)
Definition dec (n : Z) : string := NilZero.string_of_int (Z.to_int n).

(** Insert a comma before every group of three digits. *)
Fixpoint group3 (digits : string) : string :=
  match digits with
  | EmptyString => EmptyString
  | String c r =>
      String c
        (if (0 <? String.length r)%nat && (String.length r mod 3 =? 0)%nat
         then String "," (group3 r) else group3 r)
  end.

(** [format(n, ',')] for an integer. *)
Definition grouped (n : Z) : string :=
  (if n <? 0 then "-" else "") ++ group3 (dec (Z.abs n)).

Fixpoint zeros (p : nat) : string :=
  match p with O => EmptyString | S k => String "0" (zeros k) end.

(** [str(v)], as an f-string field without format specification. *)
Definition py_str (rt : runtime) (v : value) : string :=
  match v with
  | VNone => "None"
  | VBool true => "True"
  | VBool false => "False"
  | VInt n => dec n
  | VFloat f => float_str rt f
  | VStr s => s
  | VList _ | VDict _ => container_str rt v
  end.

(** [f"{v:,}"] *)
Definition fmt_grouped (rt : runtime) (v : value) : M string :=
  match v with
  | VInt n => ret (grouped n)
  | VBool b => ret (grouped (Z.b2z b))
  | VFloat f => ret (float_grouped rt f)
  | VStr _ => raise ValueError
  | VNone | VList _ | VDict _ => raise TypeError
  end.

(** [f"{v:,.Pf}"] *)
Definition fmt_fixed (rt : runtime) (p : nat) (v : value) : M string :=
  match v with
  | VInt n => ret (grouped n ++ "." ++ zeros p)
  | VBool b => ret (grouped (Z.b2z b) ++ "." ++ zeros p)
  | VFloat f => ret (float_fixed rt p f)
  | VStr _ => raise ValueError
  | VNone | VList _ | VDict _ => raise TypeError
  end.

Definition upper_char (c : ascii) : ascii :=
  let n := nat_of_ascii c in
  if (97 <=? n)%nat && (n <=? 122)%nat then ascii_of_nat (n - 32) else c.

Fixpoint upper_string (s : string) : string :=
  match s with
  | EmptyString => EmptyString
  | String c r => String (upper_char c) (upper_string r)
  end.

(** [v.upper()] *)
Definition upper (v : value) : M string :=
  match v with
  | VStr s => ret (upper_string s)
  | _ => raise AttributeError
  end.

(** [v.get(k, default)] *)
Definition get (v : value) (k : string) (default : value) : M value :=
  match v with
  | VDict kv => ret (lookup_or k default kv)
  | _ => raise AttributeError
  end.

(** [f"{v[:n]}"]: the text of the slice. *)
Definition slice_str (rt : runtime) (n : nat) (v : value) : M string :=
  match v with
  | VStr s => ret (Text.take n s)
  | VList l => ret (py_str rt (VList (firstn n l)))
  | _ => raise TypeError
  end.

(** [len(v)] *)
Definition len (v : value) : M Z :=
  match v with
  | VStr s => ret (Z.of_nat (String.length s))
  | VList l => ret (Z.of_nat (List.length l))
  | VDict kv => ret (Z.of_nat (List.length kv))
  | _ => raise TypeError
  end.

(** The items of [v[:n]], as a [for] loop sees them. *)
Definition slice_items (n : nat) (v : value) : M (list value) :=
  match v with
  | VList l => ret (firstn n l)
  | VStr s =>
      ret (map (fun c => VStr (String c EmptyString))
             (list_ascii_of_string (Text.take n s)))
  | _ => raise TypeError
  end.

(** The items of [v], as a [for] loop sees them. *)
Definition items (v : value) : M (list value) :=
  match v with
  | VList l => ret l
  | VStr s => ret (map (fun c => VStr (String c EmptyString)) (list_ascii_of_string s))
  | VDict kv => ret (map (fun p => VStr (fst p)) kv)
  | _ => raise TypeError
  end.

(** 4.0 as a binary64 value. *)
Definition float_four : spec_float := S754_finite false 4503599627370496 (-50).

(** [v < 4] *)
Definition lt_four (v : value) : M bool :=
  match v with
  | VInt n => ret (n <? 4)
  | VBool b => ret true
  | VFloat f => ret (SFltb f float_four)
  | VNone | VStr _ | VList _ | VDict _ => raise TypeError
  end.

End Fmt.

(* ===================================================================== *)
(** ** Clock: [format_timestamp] and the token expiry *)
(* ===================================================================== *)

Module Clock.
Import Json Py Fmt.

(** A naive [datetime], to the second. *)
Record datetime := mk_datetime {
  year : Z; month : Z; day : Z; hour : Z; minute : Z; second : Z
}.

(** The proleptic Gregorian date of a day count from 1970-01-01. *)
Definition days_to_civil (z : Z) : Z * Z * Z :=
  let z := z + 719468 in
  let era := z / 146097 in
  let doe := z - era * 146097 in
  let yoe := (doe - doe / 1460 + doe / 36524 - doe / 146096) / 365 in
  let y := yoe + era * 400 in
  let doy := doe - (365 * yoe + yoe / 4 - yoe / 100) in
  let mp := (5 * doy + 2) / 153 in
  let d := doy - (153 * mp + 2) / 5 + 1 in
  let m := if mp <? 10 then mp + 3 else mp - 9 in
  (if m <=? 2 then y + 1 else y, m, d).

(** The [datetime] of a count of seconds of local civil time; the class
    only holds the years 1 to 9999. *)
Definition of_local_seconds (l : Z) : option datetime :=
  let '(y, m, d) := days_to_civil (l / 86400) in
  let r := l mod 86400 in
  if (1 <=? y) && (y <=? 9999)
  then Some (mk_datetime y m d (r / 3600) (r mod 3600 / 60) (r mod 60))
  else None.

(** Local civil seconds at the instant [u]. *)
Definition local (rt : runtime) (u : Z) : Z := u + utcoffset rt u.

(** [datetime.fromtimestamp(v)]; [None] when it raises. *)
Definition fromtimestamp (rt : runtime) (v : value) : option datetime :=
  match v with
  | VInt n => of_local_seconds (local rt n)
  | VBool b => of_local_seconds (local rt (Z.b2z b))
  | VFloat f =>
      match float_whole_seconds rt f with
      | Some n => of_local_seconds (local rt n)
      | None => None
      end
  | VNone | VStr _ | VList _ | VDict _ => None
  end.

Definition digit (n : Z) : ascii := ascii_of_nat (48 + Z.to_nat n).

(** A field printed on two digits, zero-padded. *)
Definition pad2 (n : Z) : string :=
  String (digit (n / 10)) (String (digit (n mod 10)) EmptyString).

(** [dt.strftime("%Y-%m-%d %H:%M:%S UTC")] *)
Definition strftime (dt : datetime) : string :=
  dec (year dt) ++ "-" ++ pad2 (month dt) ++ "-" ++ pad2 (day dt) ++ " "
  ++ pad2 (hour dt) ++ ":" ++ pad2 (minute dt) ++ ":" ++ pad2 (second dt)
  ++ " UTC".

Definition format_timestamp (rt : runtime) (timestamp : value) : string :=
  if negb (truthy timestamp) then "N/A"
  else
    match fromtimestamp rt timestamp with
    | Some dt => strftime dt
    | None => py_str rt timestamp
    end.

(** The shape [YYYY-MM-DD HH:MM:SS UTC]. *)
Inductive slot := Digit | Lit (c : ascii).

Definition is_digit (c : ascii) : bool :=
  let n := nat_of_ascii c in (48 <=? n)%nat && (n <=? 57)%nat.

Fixpoint matches (pat : list slot) (s : string) : bool :=
  match pat, s with
  | [], EmptyString => true
  | Digit :: pat', String c r => is_digit c && matches pat' r
  | Lit d :: pat', String c r => Ascii.eqb d c && matches pat' r
  | _, _ => false
  end.

Definition stamp_pattern : list slot :=
  [Digit; Digit; Digit; Digit; Lit "-"; Digit; Digit; Lit "-"; Digit; Digit;
   Lit " "; Digit; Digit; Lit ":"; Digit; Digit; Lit ":"; Digit; Digit;
   Lit " "; Lit "U"; Lit "T"; Lit "C"]%char.

Definition is_stamp (s : string) : bool := matches stamp_pattern s.

Definition four_digits (y : Z) : bool :=
  matches [Digit; Digit; Digit; Digit] (dec y).

(** *** The expiry of the token *)

Definition max_fold_seconds : Z := 24 * 3600.

(** [datetime.timestamp] on a naive value with [fold = 0]: the instant
    whose local civil time is [t]. *)
Definition local_to_seconds (rt : runtime) (t : Z) : Z :=
  let a := local rt t - t in
  let u1 := t - a in
  let t1 := local rt u1 in
  let b :=
    if t1 =? t
    then let u2 := u1 - max_fold_seconds in local rt u2 - u2
    else t1 - u1 in
  if (t1 =? t) && (a =? b) then u1
  else
    let u2 := t - b in
    let t2 := local rt u2 in
    if t2 =? t then u2
    else if t1 =? t then u1
    else Z.max u1 u2.

(** [int((datetime.now() + timedelta(minutes=5)).timestamp())] when the
    clock reads [now_us] microseconds since the epoch: [now()] is the local
    civil time of the reading, five minutes are added to that civil time,
    and the sum is read back as an instant. *)
Definition token_expiry (rt : runtime) (now_us : Z) : Z :=
  let u := now_us / 1000000 in
  let us := now_us mod 1000000 in
  let t := local rt u + 5 * 60 in
  Z.quot (local_to_seconds rt t * 1000000 + us) 1000000.

(** The payload signed by [generate_jwt_token]. *)
Record claims := mk_claims { kid : string; exp : Z }.

Definition jwt_payload (rt : runtime) (now_us : Z) (identifier : string) : claims :=
  mk_claims identifier (token_expiry rt now_us).

Local Open Scope py_scope.

Definition generate_jwt_token (rt : runtime) (now_us : Z)
    (identifier secret_b64 : string) : M string :=
  match b64decode rt secret_b64 with
  | None =>
      print ("❌ Errore nel decodificare il secret: " ++ exn_str rt ValueError) ;;
      sys_exit 1
  | Some secret =>
      let payload := jwt_payload rt now_us identifier in
      ret (jwt_encode rt (kid payload) (exp payload) secret)
  end.

(** A zone with a fixed offset, and the zone of New York around the end of
    daylight saving time on 2024-11-03 (06:00:00 UTC). *)
Definition fixed_zone (offset : Z) : Z -> Z := fun _ => offset.

Definition new_york_2024 : Z -> Z :=
  fun u => if (1710054000 <=? u) && (u <? 1730613600) then -14400 else -18000.

End Clock.

(* ===================================================================== *)
(** ** Report: the three report printers *)
(* ===================================================================== *)

Module Report.
Import Json Py Fmt Clock.
Local Open Scope py_scope.

Definition nl : string := String Text.newline EmptyString.

Fixpoint repeat_string (s : string) (n : nat) : string :=
  match n with O => EmptyString | S k => s ++ repeat_string s k end.

(** ["="*80] *)
Definition rule : string := repeat_string "=" 80.

(** [k in data and data[k]]: the value under [k] when it is there and
    truthy.  The printers reach this test only after [data.get] has
    succeeded, that is on a dict. *)
Definition present (data : value) (k : string) : M (option value) :=
  match data with
  | VDict kv =>
      match assoc k kv with
      | Some v => ret (if truthy v then Some v else None)
      | None => ret None
      end
  | _ => raise TypeError
  end.

(** One line of the inputs or outputs listing (lines 245 to 250 and 258 to
    263 of the source, which differ in the name of the loop variable). *)
Definition print_entry (rt : runtime) (i : Z) (inp : value) : M unit :=
  let* addr := get inp "address" (VStr "N/A") in
  let* amount := get inp "amount" (VInt 0) in
  let* amount_usd := get inp "amount_usd" (VInt 0) in
  let* score := get inp "score" (VStr "N/A") in
  let* entity := get inp "name" (VStr "Unidentified") in
  let* addr20 := slice_str rt 20 addr in
  let* s_amount := fmt_grouped rt amount in
  let* s_usd := fmt_fixed rt 2 amount_usd in
  print ("   " ++ dec i ++ ". " ++ addr20 ++ "... | " ++ s_amount ++ " | $"
         ++ s_usd ++ " | Score: " ++ py_str rt score ++ " | " ++ py_str rt entity).

(** An entry that follows the data model: an object whose address, when
    there, is a text (or a list), and whose amounts, when there, are
    numbers. *)
Definition sliceable (v : value) : bool :=
  match v with VStr _ | VList _ => true | _ => false end.

Definition numeric (v : value) : bool :=
  match v with VInt _ | VBool _ | VFloat _ => true | _ => false end.

Definition renderable_entry (inp : value) : bool :=
  match inp with
  | VDict kv =>
      sliceable (lookup_or "address" (VStr "N/A") kv)
      && numeric (lookup_or "amount" (VInt 0) kv)
      && numeric (lookup_or "amount_usd" (VInt 0) kv)
  | _ => false
  end.

Definition listing_header (title : string) (n : Z) : string :=
  nl ++ title ++ " (" ++ dec n ++ "):".

Definition listing_rest (noun : string) (n : Z) : string :=
  "   ... e altri " ++ dec (n - 3) ++ " " ++ noun.

(** The listing of the first three inputs (lines 242 to 252) or outputs
    (lines 255 to 265). *)
Definition print_listing (rt : runtime) (key title noun : string)
    (data : value) : M unit :=
  let* entries := present data key in
  match entries with
  | None => ret tt
  | Some entries =>
      let* n := len entries in
      print (listing_header title n) ;;
      let* shown := slice_items 3 entries in
      for_each (enumerate 1 shown) (fun p => print_entry rt (fst p) (snd p)) ;;
      if 3 <? n then print (listing_rest noun n) else ret tt
  end.

(** [party.get('entity', {}).get('name', 'Unidentified') if
    party.get('entity') else 'Unidentified'] *)
Definition party_entity (party : value) : M value :=
  let* e := get party "entity" VNone in
  if truthy e
  then let* e' := get party "entity" (VDict []) in
       get e' "name" (VStr "Unidentified")
  else ret (VStr "Unidentified").

(** The sender or receiver line of a token transfer. *)
Definition print_party (rt : runtime) (label : string) (party : value) : M unit :=
  let* a := get party "address" VNone in
  if truthy a
  then
    let* addr := get party "address" (VStr "N/A") in
    let* score := get party "score" (VStr "N/A") in
    let* entity := party_entity party in
    let* addr20 := slice_str rt 20 addr in
    print ("      " ++ label ++ ": " ++ addr20 ++ "... (Score: "
           ++ py_str rt score ++ ", " ++ py_str rt entity ++ ")")
  else ret tt.

Definition print_token (rt : runtime) (token : value) : M unit :=
  let* token_info := get token "token" (VDict []) in
  let* value := get token "value" (VInt 0) in
  let* usd := get token "usd" (VInt 0) in
  let* symbol := get token_info "symbol" (VStr "N/A") in
  let* name := get token_info "name" (VStr "N/A") in
  let* scam := get token_info "scam" (VBool false) in
  let* spam := get token_info "spam" (VBool false) in
  let warning := if truthy scam || truthy spam then " ⚠️  SCAM/SPAM!" else "" in
  let* s_value := fmt_grouped rt value in
  let* s_usd := fmt_fixed rt 2 usd in
  print ("   " ++ py_str rt symbol ++ " (" ++ py_str rt name ++ "): " ++ s_value
         ++ " ($" ++ s_usd ++ ")" ++ warning) ;;
  let* sender := get token "sender" (VDict []) in
  let* receiver := get token "receiver" (VDict []) in
  print_party rt "From" sender ;;
  print_party rt "To" receiver.

Definition print_tokens (rt : runtime) (data : value) : M unit :=
  let* tokens := present data "tokens" in
  match tokens with
  | None => ret tt
  | Some tokens =>
      let* n := len tokens in
      print (nl ++ "🪙 Token Transfers (" ++ dec n ++ "):") ;;
      let* shown := slice_items 5 tokens in
      for_each shown (print_token rt)
  end.

(** The two lines printed for a suspicious contract. *)
Definition contract_warning (rt : runtime) (side : string)
    (addr score entity : value) : list string :=
  [ "   ⚠️  CONTRACT SOSPETTO (" ++ side ++ "): " ++ py_str rt addr;
    "      Score: " ++ py_str rt score ++ "/10 | Entity: " ++ py_str rt entity ].

(** The body of the loops of lines 303 to 311 and 314 to 322 on one entry;
    the result tells whether the entry sets [malicious_found]. *)
Definition check_contract (rt : runtime) (side : string) (inp : value) : M bool :=
  let* c := get inp "contract" VNone in
  if truthy c
  then
    let* addr := get inp "address" (VStr "N/A") in
    let* score := get inp "score" (VStr "N/A") in
    let* entity := get inp "name" (VStr "Unidentified") in
    if truthy score
    then
      let* low := lt_four score in
      if low
      then
        for_each (contract_warning rt side addr score entity) print ;;
        ret true
      else ret false
    else ret false
  else ret false.

(** What the loop body does on an entry on which it does not fail: the
    entry is reported when it is flagged as a contract and its score is
    truthy and below 4. *)
Definition low_score (score : value) : bool :=
  match score with
  | VInt n => n <? 4
  | VBool _ => true
  | VFloat f => SFltb f float_four
  | _ => false
  end.

Definition suspicious (inp : value) : bool :=
  match inp with
  | VDict kv =>
      truthy (lookup_or "contract" VNone kv)
      && truthy (lookup_or "score" (VStr "N/A") kv)
      && low_score (lookup_or "score" (VStr "N/A") kv)
  | _ => false
  end.

(** An entry on which the loop body does not fail: an object whose score,
    when the entry is flagged as a contract, is a number or is falsy. *)
Definition scannable (inp : value) : bool :=
  match inp with
  | VDict kv =>
      negb (truthy (lookup_or "contract" VNone kv))
      || negb (truthy (lookup_or "score" (VStr "N/A") kv))
      || numeric (lookup_or "score" (VStr "N/A") kv)
  | _ => false
  end.

Definition warning_of (rt : runtime) (side : string) (inp : value) : list string :=
  match inp with
  | VDict kv =>
      contract_warning rt side (lookup_or "address" (VStr "N/A") kv)
        (lookup_or "score" (VStr "N/A") kv)
        (lookup_or "name" (VStr "Unidentified") kv)
  | _ => []
  end.

Definition warnings (rt : runtime) (side : string) (l : list value) : list string :=
  flat_map (fun inp => if suspicious inp then warning_of rt side inp else []) l.

(** A loop over the entries that carries [malicious_found]. *)
Fixpoint scan_entries (rt : runtime) (side : string) (found : bool)
    (l : list value) : M bool :=
  match l with
  | [] => ret found
  | inp :: r =>
      let* hit := check_contract rt side inp in
      scan_entries rt side (found || hit) r
  end.

Definition scan_side (rt : runtime) (key side : string) (found : bool)
    (data : value) : M bool :=
  let* entries := present data key in
  match entries with
  | None => ret found
  | Some entries =>
      let* l := items entries in
      scan_entries rt side found l
  end.

Definition no_contract_line : string := "   ✅ Nessun contract sospetto rilevato".

Definition analysis_header : string := nl ++ "⚠️  ANALISI CONTRACT:".

(** Lines 299 to 325. *)
Definition print_contract_analysis (rt : runtime) (data : value) : M unit :=
  print analysis_header ;;
  let* found := scan_side rt "inputs" "Input" false data in
  let* found := scan_side rt "outputs" "Output" found data in
  if negb found then print no_contract_line else ret tt.

(** Lines 219 to 239. *)
Definition print_transaction_head (rt : runtime) (data : value) : M unit :=
  print rule ;;
  print "📄 DETTAGLI TRANSAZIONE" ;;
  print rule ;;
  let* h := get data "hash" (VStr "N/A") in
  print (nl ++ "🔹 Hash: " ++ py_str rt h) ;;
  let* st := get data "status" VNone in
  print ("🔹 Status: " ++ (if truthy st then "✅ Confermata" else "⏳ In attesa")) ;;
  let* cur := get data "currency" (VStr "N/A") in
  let* cur_up := upper cur in
  print ("🔹 Currency: " ++ cur_up) ;;
  let* time := get data "time" (VInt 0) in
  print ("🔹 Timestamp: " ++ format_timestamp rt time) ;;
  let* height := get data "height" (VStr "N/A") in
  print ("🔹 Block Height: " ++ py_str rt height) ;;
  let* conf := get data "confirmations" (VInt 0) in
  let* s_conf := fmt_grouped rt conf in
  print ("🔹 Confirmations: " ++ s_conf) ;;
  print (nl ++ "💰 Importi:") ;;
  let* amount := get data "amount" (VStr "N/A") in
  print ("   Amount: " ++ py_str rt amount) ;;
  let* amount_usd := get data "amount_usd" (VInt 0) in
  let* s_amount_usd := fmt_fixed rt 2 amount_usd in
  print ("   Amount USD: $" ++ s_amount_usd) ;;
  let* fee := get data "fee" (VStr "N/A") in
  print ("   Fee: " ++ py_str rt fee) ;;
  let* fee_usd := get data "fee_usd" (VInt 0) in
  let* s_fee_usd := fmt_fixed rt 2 fee_usd in
  print ("   Fee USD: $" ++ s_fee_usd) ;;
  let* gas := get data "gas" VNone in
  if truthy gas
  then
    let* gas := get data "gas" (VStr "N/A") in
    print ("   Gas: " ++ py_str rt gas) ;;
    let* gas_used := get data "gas_used" (VStr "N/A") in
    print ("   Gas Used: " ++ py_str rt gas_used) ;;
    let* gas_price := get data "gas_price" (VStr "N/A") in
    print ("   Gas Price: " ++ py_str rt gas_price)
  else ret tt.

(** ["\n" + "="*80] *)
Definition closing_rule : string := nl ++ rule.

Definition print_transaction_details (rt : runtime) (data : value) : M unit :=
  print_transaction_head rt data ;;
  print_listing rt "inputs" "📥 Inputs" "input" data ;;
  print_listing rt "outputs" "📤 Outputs" "output" data ;;
  print_tokens rt data ;;
  print_contract_analysis rt data ;;
  print closing_rule.

Definition print_transaction_summary (rt : runtime) (tx : value) : M unit :=
  let* h := get tx "hash" (VStr "N/A") in
  let* h20 := slice_str rt 20 h in
  print ("Hash: " ++ h20 ++ "...") ;;
  let* time := get tx "time" (VInt 0) in
  print ("Time: " ++ format_timestamp rt time) ;;
  let* direction := get tx "direction" (VStr "N/A") in
  print ("Direction: " ++ py_str rt direction) ;;
  let* d := get tx "direction" VNone in
  let* amount :=
    get tx (if eq_str d "out" then "total_out" else "total_in") (VInt 0) in
  let* s_amount := fmt_grouped rt amount in
  print ("Amount: " ++ s_amount) ;;
  let* d := get tx "direction" VNone in
  let* usd :=
    get tx (if eq_str d "out" then "total_out_usd" else "total_in_usd") (VInt 0) in
  let* s_usd := fmt_fixed rt 2 usd in
  print ("Amount USD: $" ++ s_usd) ;;
  let* fee := get tx "fee" (VInt 0) in
  let* s_fee := fmt_grouped rt fee in
  let* fee_usd := get tx "fee_usd" (VInt 0) in
  let* s_fee_usd := fmt_fixed rt 2 fee_usd in
  print ("Fee: " ++ s_fee ++ " ($" ++ s_fee_usd ++ ")") ;;
  let* conf := get tx "confirmations" (VInt 0) in
  let* s_conf := fmt_grouped rt conf in
  print ("Confirmations: " ++ s_conf).

(** A transaction of an address listing that follows the data model: an
    object whose hash, when there, is a text and whose amounts, fees and
    confirmations, when there, are numbers. *)
Definition summarizable (tx : value) : bool :=
  match tx with
  | VDict kv =>
      let out := eq_str (lookup_or "direction" VNone kv) "out" in
      sliceable (lookup_or "hash" (VStr "N/A") kv)
      && numeric (lookup_or (if out then "total_out" else "total_in") (VInt 0) kv)
      && numeric (lookup_or (if out then "total_out_usd" else "total_in_usd")
                    (VInt 0) kv)
      && numeric (lookup_or "fee" (VInt 0) kv)
      && numeric (lookup_or "fee_usd" (VInt 0) kv)
      && numeric (lookup_or "confirmations" (VInt 0) kv)
  | _ => false
  end.

Definition print_address_stats (rt : runtime) (data : value) : M unit :=
  print rule ;;
  print "📊 STATISTICHE INDIRIZZO" ;;
  print rule ;;
  let* address := get data "address" (VStr "N/A") in
  print (nl ++ "🔹 Address: " ++ py_str rt address) ;;
  let* balance := get data "balance" (VDict []) in
  print (nl ++ "💰 Balance:") ;;
  let* b := get balance "balance" (VInt 0) in
  let* s_b := fmt_fixed rt 8 b in
  let* chain := get data "blockchain" (VStr "") in
  let* chain_up := upper chain in
  print ("   Current: " ++ s_b ++ " " ++ chain_up) ;;
  let* tin := get balance "total_in" (VInt 0) in
  let* s_tin := fmt_fixed rt 8 tin in
  print ("   Total In: " ++ s_tin) ;;
  let* tout := get balance "total_out" (VInt 0) in
  let* s_tout := fmt_fixed rt 8 tout in
  print ("   Total Out: " ++ s_tout) ;;
  let* balance_usd := get data "balance_usd" (VDict []) in
  print (nl ++ "💰 Balance USD:") ;;
  let* ub := get balance_usd "balance" (VInt 0) in
  let* s_ub := fmt_fixed rt 2 ub in
  print ("   Current: $" ++ s_ub) ;;
  let* uin := get balance_usd "total_in" (VInt 0) in
  let* s_uin := fmt_fixed rt 2 uin in
  print ("   Total In: $" ++ s_uin) ;;
  let* uout := get balance_usd "total_out" (VInt 0) in
  let* s_uout := fmt_fixed rt 2 uout in
  print ("   Total Out: $" ++ s_uout) ;;
  let* trx_count := get data "trx_count" (VDict []) in
  print (nl ++ "📊 Transazioni:") ;;
  let* cin := get trx_count "in" (VInt 0) in
  let* s_cin := fmt_grouped rt cin in
  print ("   Incoming: " ++ s_cin) ;;
  let* cout := get trx_count "out" (VInt 0) in
  let* s_cout := fmt_grouped rt cout in
  print ("   Outgoing: " ++ s_cout) ;;
  let* entity := get data "entity" VNone in
  (if truthy entity
   then
     print (nl ++ "🏢 Entity:") ;;
     let* name := get entity "name" (VStr "N/A") in
     print ("   Name: " ++ py_str rt name) ;;
     let* category := get entity "category" (VStr "N/A") in
     print ("   Category: " ++ py_str rt category)
   else ret tt) ;;
  let* score := get data "score" (VStr "N/A") in
  print (nl ++ "🔹 Score: " ++ py_str rt score ++ "/10") ;;
  let* first_seen := get data "first_seen" (VInt 0) in
  print ("🔹 First Seen: " ++ format_timestamp rt first_seen) ;;
  let* last_seen := get data "last_seen" (VInt 0) in
  print ("🔹 Last Seen: " ++ format_timestamp rt last_seen).

(** *** Payloads that follow the data model

    The shapes on which the printers do not fail, read off the operations
    they apply to each field. *)

Definition is_dict (v : value) : bool :=
  match v with VDict _ => true | _ => false end.

Definition is_text (v : value) : bool :=
  match v with VStr _ => true | _ => false end.

(** A sender or receiver of a token transfer: an object whose address,
    when truthy, can be sliced, and whose entity, when truthy, is an
    object. *)
Definition renderable_party (party : value) : bool :=
  match party with
  | VDict kv =>
      negb (truthy (lookup_or "address" VNone kv))
      || (sliceable (lookup_or "address" (VStr "N/A") kv)
          && (negb (truthy (lookup_or "entity" VNone kv))
              || is_dict (lookup_or "entity" (VDict []) kv)))
  | _ => false
  end.

(** A token transfer: an object whose [token] is an object, whose [value]
    and [usd] are numbers, and whose parties are as above. *)
Definition renderable_token (token : value) : bool :=
  match token with
  | VDict kv =>
      is_dict (lookup_or "token" (VDict []) kv)
      && numeric (lookup_or "value" (VInt 0) kv)
      && numeric (lookup_or "usd" (VInt 0) kv)
      && renderable_party (lookup_or "sender" (VDict []) kv)
      && renderable_party (lookup_or "receiver" (VDict []) kv)
  | _ => false
  end.

(** The fields of lines 223 to 239: the currency is a text, the
    confirmations and the two amounts in USD are numbers. *)
Definition renderable_head (data : value) : bool :=
  match data with
  | VDict kv =>
      is_text (lookup_or "currency" (VStr "N/A") kv)
      && numeric (lookup_or "confirmations" (VInt 0) kv)
      && numeric (lookup_or "amount_usd" (VInt 0) kv)
      && numeric (lookup_or "fee_usd" (VInt 0) kv)
  | _ => false
  end.

(** The inputs or outputs: absent, falsy, or a list whose first three
    entries can be listed and whose entries can all be scanned. *)
Definition listing_ok (key : string) (kv : list (string * value)) : bool :=
  match assoc key kv with
  | None => true
  | Some v =>
      negb (truthy v)
      || match v with
         | VList l => forallb renderable_entry (firstn 3 l) && forallb scannable l
         | _ => false
         end
  end.

(** The token transfers: absent, falsy, or a list whose first five entries
    can be printed. *)
Definition tokens_ok (kv : list (string * value)) : bool :=
  match assoc "tokens" kv with
  | None => true
  | Some v =>
      negb (truthy v)
      || match v with
         | VList l => forallb renderable_token (firstn 5 l)
         | _ => false
         end
  end.

Definition renderable_details (data : value) : bool :=
  match data with
  | VDict kv =>
      renderable_head data && listing_ok "inputs" kv && listing_ok "outputs" kv
      && tokens_ok kv
  | _ => false
  end.

(** The entries under [key], as the contract analysis walks them. *)
Definition entries_of (key : string) (kv : list (string * value)) : list value :=
  match assoc key kv with
  | Some (VList l) => l
  | _ => []
  end.

(** The inputs or outputs as the contract analysis needs them: absent,
    falsy, or a list whose entries can all be scanned. *)
Definition scan_ok (key : string) (kv : list (string * value)) : bool :=
  match assoc key kv with
  | None => true
  | Some v =>
      negb (truthy v)
      || match v with
         | VList l => forallb scannable l
         | _ => false
         end
  end.

(** An object whose three amounts are numbers. *)
Definition amounts_ok (v : value) : bool :=
  match v with
  | VDict kv =>
      numeric (lookup_or "balance" (VInt 0) kv)
      && numeric (lookup_or "total_in" (VInt 0) kv)
      && numeric (lookup_or "total_out" (VInt 0) kv)
  | _ => false
  end.

Definition counts_ok (v : value) : bool :=
  match v with
  | VDict kv =>
      numeric (lookup_or "in" (VInt 0) kv) && numeric (lookup_or "out" (VInt 0) kv)
  | _ => false
  end.

(** The statistics of an address: balances and counts are objects of
    numbers, the blockchain is a text, the entity is falsy or an object. *)
Definition renderable_stats (data : value) : bool :=
  match data with
  | VDict kv =>
      amounts_ok (lookup_or "balance" (VDict []) kv)
      && is_text (lookup_or "blockchain" (VStr "") kv)
      && amounts_ok (lookup_or "balance_usd" (VDict []) kv)
      && counts_ok (lookup_or "trx_count" (VDict []) kv)
      && (negb (truthy (lookup_or "entity" VNone kv))
          || is_dict (lookup_or "entity" VNone kv))
  | _ => false
  end.

End Report.

(* ===================================================================== *)
(** ** Api: the HTTP client, the two lookups and [main] *)
(* ===================================================================== *)

Module Api.
Import Json Py Fmt Clock Report.
Local Open Scope py_scope.

Definition API_BASE_URL : string := "https://prism-api.caudena.com".

(** The remote end: its answer to each request. *)
Definition server := request -> reply.

(** [requests.get] and [requests.post]: the call is made and answered. *)
Definition send (srv : server) (r : request) : M reply :=
  ([Http r], Done (srv r)).

(** The line printed for a response whose status is not 200: the parsed
    body when the body is JSON, the raw text otherwise. *)
Definition http_error_line (rt : runtime) (status : Z) (body : option value)
    (text : string) : string :=
  "❌ Errore HTTP " ++ dec status ++ ": "
  ++ match body with Some j => py_str rt j | None => text end.

(** Lines 136 to 153 of [make_api_request]: what becomes of the answer. *)
Definition handle_reply (rt : runtime) (r : reply) : M value :=
  match r with
  | TransportError msg =>
      print ("❌ Errore nella richiesta: " ++ msg) ;;
      sys_exit 1
  | Response status body text =>
      if negb (status =? 200)
      then
        print (http_error_line rt status body text) ;;
        sys_exit 1
      else
        match body with
        | Some j => ret j
        | None =>
            if json_error_is_request_exception rt
            then
              print ("❌ Errore nella richiesta: " ++ exn_str rt ValueError) ;;
              sys_exit 1
            else raise ValueError
        end
  end.

(** Lines 118 to 125: the headers of a request. *)
Definition headers_for (token : string) (data : value) : list (string * string) :=
  List.app
    [("Authorization", "Bearer " ++ token); ("Accept", "application/json")]
    (if truthy data then [("Content-Type", "application/json")] else []).

(** The request made by lines 129 and 131: only a [POST] carries the data. *)
Definition request_of (method : http_method) (endpoint token : string)
    (data : value) : request :=
  mk_request method (API_BASE_URL ++ endpoint) (headers_for token data)
    (match method, data with
     | POST, VNone => None
     | POST, _ => Some data
     | _, _ => None
     end)
    30.

Definition make_api_request (rt : runtime) (srv : server)
    (method : http_method) (endpoint token : string) (data : value) : M value :=
  match method with
  | GET | POST =>
      let* response := send srv (request_of method endpoint token data) in
      handle_reply rt response
  | OtherMethod _ => raise ValueError
  end.

(** The [try] statement of lines 161 to 177: [SystemExit] is passed over,
    any other exception is printed. *)
Definition catch_lookup (rt : runtime) (c : M unit) : M unit :=
  match c with
  | (t, Done a) => (t, Done a)
  | (t, Exit _) => (t, Done tt)
  | (t, Raise e) =>
      (List.app t [Print ("❌ Errore imprevisto: " ++ exn_str rt e)], Done tt)
  end.

Definition transaction_endpoint (currency tx_hash : string) : string :=
  "/v2/" ++ currency ++ "/transaction/" ++ tx_hash.

Definition check_transaction_by_hash (rt : runtime) (srv : server)
    (currency tx_hash token : string) : M unit :=
  print (nl ++ "🔍 Verifica transazione: " ++ tx_hash) ;;
  print ("   Currency: " ++ upper_string currency ++ nl) ;;
  let endpoint := transaction_endpoint currency tx_hash in
  catch_lookup rt
    (let* result := make_api_request rt srv GET endpoint token VNone in
     let* st := get result "status" VNone in
     if truthy st
     then
       let* data := get result "data" (VDict []) in
       if truthy data
       then print_transaction_details rt data
       else
         print "❌ Nessun dato nella risposta" ;;
         print ("   Risposta completa: " ++ py_str rt result)
     else
       print "❌ Transazione non trovata o errore nella risposta" ;;
       print ("   Risposta: " ++ py_str rt result)).

(** The body sent with the transactions request. *)
Definition tx_data : value :=
  VDict [("page", VInt 1); ("sort_by", VStr "time"); ("sort_order", VStr "desc")].

Definition stats_endpoint (currency address : string) : string :=
  "/v2/" ++ currency ++ "/address/stats/" ++ address.

Definition transactions_endpoint (currency address : string) : string :=
  "/v2/" ++ currency ++ "/address/transactions/" ++ address.

(** Lines 210 to 213. *)
Definition print_numbered_summary (rt : runtime) (p : Z * value) : M unit :=
  print ("--- Transazione " ++ dec (fst p) ++ " ---") ;;
  print_transaction_summary rt (snd p) ;;
  print "".

Definition total_line (rt : runtime) (total : value) : string :=
  "Totale transazioni: " ++ py_str rt total ++ nl.

(** Lines 204 to 215: what is done with the answer to the transactions
    request. *)
Definition render_transactions (rt : runtime) (tx_result : value) : M unit :=
  let* st := get tx_result "status" VNone in
  if truthy st
  then
    let* data := get tx_result "data" (VList []) in
    let* transactions := slice_items 5 data in
    let* pagination := get tx_result "pagination" (VDict []) in
    let* total := get pagination "total_entries" (VInt 0) in
    print (total_line rt total) ;;
    for_each (enumerate 1 transactions) (print_numbered_summary rt)
  else print "❌ Nessuna transazione trovata".

(** Lines 188 and 189: what is done with the answer to the stats request. *)
Definition render_stats (rt : runtime) (stats_result : value) : M unit :=
  let* st := get stats_result "status" VNone in
  if truthy st
  then
    let* data := get stats_result "data" (VDict []) in
    print_address_stats rt data
  else ret tt.

(** Lines 191 to 215: the second step of the address lookup. *)
Definition list_transactions (rt : runtime) (srv : server)
    (currency address token : string) : M unit :=
  print closing_rule ;;
  print "📋 Ultime transazioni (prime 5):" ;;
  print (rule ++ nl) ;;
  let endpoint_tx := transactions_endpoint currency address in
  let* tx_result := make_api_request rt srv POST endpoint_tx token tx_data in
  render_transactions rt tx_result.

Definition check_transaction_by_address (rt : runtime) (srv : server)
    (currency address token : string) : M unit :=
  print (nl ++ "🔍 Verifica indirizzo: " ++ address) ;;
  print ("   Currency: " ++ upper_string currency ++ nl) ;;
  let endpoint_stats := stats_endpoint currency address in
  let* stats_result := make_api_request rt srv GET endpoint_stats token VNone in
  render_stats rt stats_result ;;
  list_transactions rt srv currency address token.

(** *** Credentials and [main] *)

(** Where the process runs: its environment variables, the files it can
    read, the path of the [.env] file next to the script, its clock (in
    microseconds since the epoch) and the remote end. *)
Record host := mk_host {
  getenv : string -> option string;
  fs : Env.files;
  script_env : string;
  clock_us : Z;
  remote : server
}.

(** [bool(v)] for a value that is [None] or a string. *)
Definition is_set (v : option string) : bool :=
  match v with
  | Some s => negb (String.length s =? 0)%nat
  | None => false
  end.

(** [a or b] on such values. *)
Definition or_else (a b : option string) : option string :=
  if is_set a then a else b.

Definition text_of (v : option string) : string :=
  match v with Some s => s | None => EmptyString end.

(** The loop of lines 58 to 62: the first file that exists and yields a
    binding wins. *)
Fixpoint find_env (files : Env.files) (env_files : list string)
    (env_vars : gmap string string) : gmap string string :=
  match env_files with
  | [] => env_vars
  | env_file :: rest =>
      match files env_file with
      | Some lines =>
          let env_vars := Env.load_lines lines in
          if decide (env_vars = ∅) then find_env files rest env_vars
          else env_vars
      | None => find_env files rest env_vars
      end
  end.

Definition credential_help : list string :=
  [ "   Configura le credenziali in:";
    "   - Variabili d'ambiente: CAUDENA_KID e CAUDENA_SECRET";
    "   - File .env nella directory corrente";
    "   - File .env.local nella directory corrente" ].

Definition get_api_credentials (h : host) : M (string * string) :=
  let env_vars := find_env (fs h) [".env"; ".env.local"; script_env h] ∅ in
  let identifier :=
    or_else (getenv h "CAUDENA_KID")
      (or_else (env_vars !! "CAUDENA_KID")
         (or_else (env_vars !! "id_caudena")
            (or_else (env_vars !! "KID")
               (or_else (env_vars !! "API_KID")
                  (env_vars !! "CAUDENA_API_KID"))))) in
  let secret :=
    or_else (getenv h "CAUDENA_SECRET")
      (or_else (env_vars !! "CAUDENA_SECRET")
         (or_else (env_vars !! "secret")
            (or_else (env_vars !! "SECRET")
               (or_else (env_vars !! "API_SECRET")
                  (env_vars !! "CAUDENA_API_SECRET"))))) in
  if negb (is_set identifier)
  then
    print "❌ Errore: CAUDENA_KID non trovato" ;;
    for_each credential_help print ;;
    sys_exit 1
  else if negb (is_set secret)
  then
    print "❌ Errore: CAUDENA_SECRET non trovato" ;;
    for_each credential_help print ;;
    sys_exit 1
  else ret (text_of identifier, text_of secret).

(** The command line as [argparse] hands it over: [--hash], [--address],
    and [--currency], which [argparse] has checked against its choices and
    defaulted to [btc]. *)
Inductive currency := btc | eth | ltc | doge | trx | bnb.

Definition currency_name (c : currency) : string :=
  match c with
  | btc => "btc" | eth => "eth" | ltc => "ltc"
  | doge => "doge" | trx => "trx" | bnb => "bnb"
  end.

Record args := mk_args {
  arg_hash : option string;
  arg_address : option string;
  arg_currency : currency
}.

(** [parser.error(msg)]: the message goes to standard error and the
    process exits with status 2. *)
Definition parser_error {A} (msg : string) : M A :=
  ([Stderr msg], Exit 2).

Definition main (rt : runtime) (h : host) (a : args) : M unit :=
  if negb (is_set (arg_hash a)) && negb (is_set (arg_address a))
  then parser_error "Devi fornire --hash o --address"
  else if is_set (arg_hash a) && is_set (arg_address a)
  then parser_error "Fornisci solo --hash O --address, non entrambi"
  else
    print "🔐 Autenticazione..." ;;
    let* cred := get_api_credentials h in
    let* token := generate_jwt_token rt (clock_us h) (fst cred) (snd cred) in
    print ("✅ Token generato con successo" ++ nl) ;;
    if is_set (arg_hash a)
    then check_transaction_by_hash rt (remote h)
           (currency_name (arg_currency a)) (text_of (arg_hash a)) token
    else if is_set (arg_address a)
    then check_transaction_by_address rt (remote h)
           (currency_name (arg_currency a)) (text_of (arg_address a)) token
    else ret tt.

(** What the process shows and its exit status. *)
Definition run (rt : runtime) (h : host) (a : args) : list event * Z :=
  let c := main rt h a in (trace c, exit_status (result c)).

(** The host yields credentials from which [token] is made. *)
Definition ready (rt : runtime) (h : host) (token : string) : Prop :=
  exists cred key,
    get_api_credentials h = ret cred
    /\ b64decode rt (snd cred) = Some key
    /\ jwt_encode rt (fst cred) (token_expiry rt (clock_us h)) key = token.

(** The lines printed by [main] before the lookup. *)
Definition preamble : list event :=
  [Print "🔐 Autenticazione..."; Print ("✅ Token generato con successo" ++ nl)].

(** *** Sample hosts, to run the model *)

Definition sample_env (name : string) : option string :=
  if String.eqb name "CAUDENA_KID" then Some "key-1"
  else if String.eqb name "CAUDENA_SECRET" then Some "c2VjcmV0"
  else None.

Definition sample_host (srv : server) : host :=
  mk_host sample_env (fun _ => None) "/opt/tool/.env" 1730613480000000 srv.

Definition hash_args (tx_hash : string) : args := mk_args (Some tx_hash) None btc.
Definition address_args (address : string) : args := mk_args None (Some address) btc.

(** A remote end that answers every request with the same reply. *)
Definition always (r : reply) : server := fun _ => r.

(** A remote end that answers the [GET] with [stats] and the [POST] with
    [txs]. *)
Definition by_method (stats txs : reply) : server :=
  fun r => match req_method r with POST => txs | _ => stats end.

Definition not_found : reply :=
  Response 404 (Some (VDict [("error", VStr "not found")])) "{...}".

Definition ok (body : value) : reply := Response 200 (Some body) "{...}".

End Api.

(* ===================================================================== *)
(** * Properties *)
(* ===================================================================== *)

(** ** Text operations *)

Module TextFacts.
Import Text.

Lemma all_chars_app p a b :
  all_chars p (a ++ b) = all_chars p a && all_chars p b.
Proof.
  induction a as [|c a IH]; simpl; [reflexivity|].
  rewrite IH. apply andb_assoc.
Qed.

Lemma lstrip_blank_app ws s : blank ws = true -> lstrip (ws ++ s) = lstrip s.
Proof.
  induction ws as [|c ws IH]; simpl; intros H; [reflexivity|].
  apply andb_true_iff in H as [Hc Hws]. rewrite Hc. apply IH, Hws.
Qed.

Lemma lstrip_blank ws : blank ws = true -> lstrip ws = EmptyString.
Proof.
  induction ws as [|c ws IH]; simpl; intros H; [reflexivity|].
  apply andb_true_iff in H as [Hc Hws]. rewrite Hc. apply IH, Hws.
Qed.

Lemma rstrip_blank ws : blank ws = true -> rstrip ws = EmptyString.
Proof.
  induction ws as [|c ws IH]; simpl; intros H; [reflexivity|].
  apply andb_true_iff in H as [Hc Hws]. rewrite (IH Hws), Hc. reflexivity.
Qed.

Lemma last_char_some c s : exists d, last_char (String c s) = Some d.
Proof.
  revert c. induction s as [|e s IH]; intros c.
  - exists c. reflexivity.
  - destruct (IH e) as [d Hd]. exists d. exact Hd.
Qed.

Lemma last_char_cons c s :
  last_char (String c s)
  = match last_char s with Some d => Some d | None => Some c end.
Proof.
  destruct s as [|e s]; [reflexivity|].
  destruct (last_char_some e s) as [d Hd]. rewrite Hd.
  change (last_char (String c (String e s))) with (last_char (String e s)).
  exact Hd.
Qed.

Lemma last_char_none s : last_char s = None -> s = EmptyString.
Proof.
  destruct s as [|c s]; [reflexivity|]. rewrite last_char_cons.
  destruct (last_char s); discriminate.
Qed.

Lemma rstrip_last s d :
  last_char s = Some d -> is_space d = false -> rstrip s = s.
Proof.
  induction s as [|c s IH]; intros Hl Hd; [discriminate|].
  rewrite last_char_cons in Hl. simpl.
  destruct (last_char s) as [e|] eqn:E.
  - injection Hl as ->. rewrite (IH eq_refl Hd).
    destruct s; [discriminate|reflexivity].
  - injection Hl as ->. apply last_char_none in E. subst s. simpl.
    rewrite Hd. reflexivity.
Qed.

Lemma rstrip_app_blank s ws :
  blank ws = true -> rstrip (s ++ ws) = rstrip s.
Proof.
  intros H. induction s as [|c s IH]; simpl.
  - apply rstrip_blank, H.
  - rewrite IH. reflexivity.
Qed.

Lemma strip_tight s : tight s = true -> strip s = s.
Proof.
  unfold strip, tight. destruct s as [|c s]; [reflexivity|].
  intros H. apply andb_true_iff in H as [Hc Hl].
  apply negb_true_iff in Hc. cbn [lstrip]. rewrite Hc.
  destruct (last_char (String c s)) as [d|] eqn:E.
  - apply negb_true_iff in Hl. apply rstrip_last with d; assumption.
  - apply last_char_none in E. discriminate.
Qed.

(** [strip] removes exactly the surrounding whitespace of a tight core. *)
Lemma strip_padded ws1 s ws2 :
  blank ws1 = true -> blank ws2 = true -> tight s = true ->
  strip (ws1 ++ s ++ ws2) = s.
Proof.
  intros H1 H2 Hs. unfold strip. rewrite lstrip_blank_app by exact H1.
  destruct s as [|c s].
  - simpl. rewrite lstrip_blank by exact H2. reflexivity.
  - pose proof Hs as Hs'. unfold tight in Hs.
    apply andb_true_iff in Hs as [Hc _]. apply negb_true_iff in Hc.
    change (String c s ++ ws2) with (String c (s ++ ws2)).
    cbn [lstrip]. rewrite Hc.
    change (String c (s ++ ws2)) with (String c s ++ ws2).
    rewrite rstrip_app_blank by exact H2.
    apply strip_tight in Hs'. unfold strip in Hs'. cbn [lstrip] in Hs'.
    rewrite Hc in Hs'. exact Hs'.
Qed.

End TextFacts.

(** ** The credential file loader *)

Module EnvFacts.
Import Text TextFacts Env.

Lemma append_cons c s t : String c s ++ t = String c (s ++ t).
Proof. reflexivity. Qed.

Lemma append_assoc (a b c : string) : (a ++ b) ++ c = a ++ (b ++ c).
Proof.
  induction a as [|x a IH]; [reflexivity|].
  rewrite !append_cons, IH. reflexivity.
Qed.

Lemma append_nil_r (a : string) : a ++ "" = a.
Proof. induction a as [|x a IH]; [reflexivity|]. rewrite append_cons, IH. reflexivity. Qed.

Lemma contains_char_app c a b :
  contains_char c (a ++ b) = contains_char c a || contains_char c b.
Proof.
  induction a as [|x a IH]; [reflexivity|].
  rewrite append_cons. cbn [contains_char]. rewrite IH. apply orb_assoc.
Qed.

(** A character rejected by [p] does not occur in a string of [p]-characters. *)
Lemma all_chars_not_contains p c s :
  p c = false -> all_chars p s = true -> contains_char c s = false.
Proof.
  intros Hc. induction s as [|x s IH]; [reflexivity|].
  cbn [all_chars contains_char]. intros H.
  apply andb_true_iff in H as [Hx Hs]. rewrite (IH Hs), orb_false_r.
  destruct (Ascii.eqb_spec c x) as [->|]; [congruence|reflexivity].
Qed.

Lemma all_chars_impl (p q : ascii -> bool) s :
  (forall c, p c = true -> q c = true) ->
  all_chars p s = true -> all_chars q s = true.
Proof.
  intros Hpq. induction s as [|x s IH]; [reflexivity|].
  cbn [all_chars]. intros H. apply andb_true_iff in H as [Hx Hs].
  rewrite (Hpq _ Hx), (IH Hs). reflexivity.
Qed.

Lemma contains_char_lstrip c s :
  is_space c = false -> contains_char c (lstrip s) = contains_char c s.
Proof.
  intros Hc. induction s as [|x s IH]; [reflexivity|].
  cbn [lstrip]. destruct (is_space x) eqn:Hx; [|reflexivity].
  rewrite IH. cbn [contains_char].
  destruct (Ascii.eqb_spec c x) as [->|]; [congruence|reflexivity].
Qed.

Lemma contains_char_rstrip c s :
  is_space c = false -> contains_char c (rstrip s) = contains_char c s.
Proof.
  intros Hc. induction s as [|x s IH]; [reflexivity|].
  cbn [rstrip contains_char]. rewrite <- IH.
  destruct (rstrip s) as [|y r].
  - destruct (is_space x) eqn:Hx; cbn [contains_char].
    + destruct (Ascii.eqb_spec c x) as [->|]; [congruence|reflexivity].
    + reflexivity.
  - reflexivity.
Qed.

Lemma contains_char_strip c s :
  is_space c = false -> contains_char c (strip s) = contains_char c s.
Proof.
  intros Hc. unfold strip.
  rewrite contains_char_rstrip, contains_char_lstrip by exact Hc. reflexivity.
Qed.

Lemma split_once_key sep s a b :
  split_once sep s = Some (a, b) -> contains_char sep a = false.
Proof.
  revert a b. induction s as [|x s IH]; intros a b; [discriminate|].
  cbn [split_once]. destruct (Ascii.eqb sep x) eqn:E.
  - intros [= <- <-]. reflexivity.
  - destruct (split_once sep s) as [[a' b']|]; [|discriminate].
    intros [= <- <-]. cbn [contains_char]. rewrite E. apply (IH a' b' eq_refl).
Qed.

Lemma split_once_app sep k rest :
  contains_char sep k = false ->
  split_once sep (k ++ String sep rest) = Some (k, rest).
Proof.
  induction k as [|x k IH]; intros H.
  - change ("" ++ String sep rest) with (String sep rest).
    cbn [split_once]. rewrite Ascii.eqb_refl. reflexivity.
  - rewrite append_cons. cbn [split_once contains_char] in *.
    apply orb_false_iff in H as [Hx Hk]. rewrite Hx, (IH Hk). reflexivity.
Qed.

(** An occurrence of [export ] needs a blank. *)
Lemma prefix_export_blank s :
  startswith "export " s = true -> contains_char " " s = true.
Proof.
  intros H.
  do 7 (destruct s as [|? s]; cbn [startswith] in H; [discriminate H|];
        apply andb_true_iff in H as [E H];
        apply Ascii.eqb_eq in E; subst).
  reflexivity.
Qed.

Lemma remove_all_no_blank s :
  contains_char " " s = false -> remove_all "export " s = s.
Proof.
  unfold remove_all. induction s as [|x s IH]; intros H; [reflexivity|].
  cbn [remove_from].
  destruct (startswith "export " (String x s)) eqn:E.
  - apply prefix_export_blank in E. congruence.
  - cbn [contains_char] in H. apply orb_false_iff in H as [_ Hs].
    rewrite (IH Hs). reflexivity.
Qed.

Lemma remove_all_leading s :
  remove_all "export " ("export " ++ s) = remove_all "export " s.
Proof. reflexivity. Qed.

Lemma all_chars_last p s d :
  all_chars p s = true -> last_char s = Some d -> p d = true.
Proof.
  induction s as [|x s IH]; [discriminate|].
  cbn [all_chars]. intros H. apply andb_true_iff in H as [Hx Hs].
  rewrite last_char_cons. destruct (last_char s) as [e|] eqn:E.
  - intros [= <-]. apply IH; [exact Hs|reflexivity].
  - intros [= <-]. exact Hx.
Qed.

Lemma last_char_app a b : b <> "" -> last_char (a ++ b) = last_char b.
Proof.
  intros Hb. induction a as [|x a IH]; [reflexivity|].
  rewrite append_cons, last_char_cons, IH.
  destruct (last_char b) eqn:E; [reflexivity|].
  apply last_char_none in E. contradiction.
Qed.

Lemma nonspace_tight s : all_chars nonspace s = true -> tight s = true.
Proof.
  intros H. destruct s as [|c s]; [reflexivity|].
  unfold tight. pose proof H as H'. cbn [all_chars] in H'.
  apply andb_true_iff in H' as [Hc _]. unfold nonspace in Hc. rewrite Hc.
  destruct (last_char (String c s)) as [d|] eqn:E; [|reflexivity].
  apply (all_chars_last _ _ _ H E).
Qed.

Lemma plain_nonspace s : plain s = true -> all_chars nonspace s = true.
Proof.
  apply all_chars_impl. intros c. unfold plain_char, nonspace.
  rewrite !andb_true_iff. tauto.
Qed.

Lemma plain_no (c : ascii) s :
  plain_char c = false -> plain s = true -> contains_char c s = false.
Proof. apply all_chars_not_contains. Qed.

Lemma drop_last_snoc s c : drop_last (s ++ String c "") = s.
Proof.
  induction s as [|x s IH]; [reflexivity|].
  rewrite append_cons. cbn [drop_last]. rewrite IH.
  destruct s; reflexivity.
Qed.

Lemma startswith_char_plain (c : ascii) s :
  plain_char c = false -> plain s = true ->
  startswith (String c "") s = false.
Proof.
  intros Hc. destruct s as [|x s]; [reflexivity|].
  cbn [plain all_chars startswith]. intros H.
  apply andb_true_iff in H as [Hx _].
  destruct (Ascii.eqb_spec c x) as [->|]; [congruence|reflexivity].
Qed.

Lemma unquote_quote_with q v : plain v = true -> unquote (quote_with q v) = v.
Proof.
  intros Hv. destruct q; unfold unquote, quote_with.
  - rewrite !startswith_char_plain by (exact Hv || reflexivity). reflexivity.
  - change (startswith (String dquote "") (String squote (v ++ String squote "")))
      with false.
    cbn [andb].
    change (startswith (String squote "") (String squote (v ++ String squote "")))
      with true.
    unfold endswith_char.
    change (String squote (v ++ String squote ""))
      with (String squote v ++ String squote "") at 1.
    rewrite last_char_app by discriminate. cbn [last_char andb].
    rewrite Ascii.eqb_refl. cbn [slice_1_m1]. apply drop_last_snoc.
  - change (startswith (String dquote "") (String dquote (v ++ String dquote "")))
      with true.
    unfold endswith_char.
    change (String dquote (v ++ String dquote ""))
      with (String dquote v ++ String dquote "") at 1.
    rewrite last_char_app by discriminate. cbn [last_char andb].
    rewrite Ascii.eqb_refl. cbn [slice_1_m1]. apply drop_last_snoc.
Qed.

Lemma quote_with_nonspace q v :
  plain v = true -> all_chars nonspace (quote_with q v) = true.
Proof.
  intros Hv. apply plain_nonspace in Hv.
  destruct q; unfold quote_with; [exact Hv| |];
    cbn [all_chars]; rewrite all_chars_app, Hv; reflexivity.
Qed.

Lemma quote_with_no_sep (c : ascii) q v :
  plain v = true -> c = "="%char \/ c = ":"%char ->
  contains_char c (quote_with q v) = false.
Proof.
  intros Hv Hc.
  assert (Hp : plain_char c = false) by (destruct Hc; subst; reflexivity).
  pose proof (plain_no c v Hp Hv) as Hn.
  destruct q; unfold quote_with; [exact Hn| |];
    cbn [contains_char]; rewrite contains_char_app, Hn;
    destruct Hc; subst; reflexivity.
Qed.

(** The core of a configuration line, once padding and [export ] are gone. *)
Lemma core_nonspace k (sep : ascii) q v :
  plain k = true -> plain v = true -> sep = "="%char \/ sep = ":"%char ->
  all_chars nonspace (k ++ String sep (quote_with q v)) = true.
Proof.
  intros Hk Hv Hs. rewrite all_chars_app. cbn [all_chars].
  rewrite (plain_nonspace _ Hk), (quote_with_nonspace q _ Hv).
  destruct Hs; subst; reflexivity.
Qed.

Lemma nonspace_no_blank s :
  all_chars nonspace s = true -> contains_char " " s = false.
Proof. apply all_chars_not_contains. reflexivity. Qed.

Lemma separator_of_core (ex : bool) k (sep : ascii) q v :
  plain k = true -> plain v = true -> sep = "="%char \/ sep = ":"%char ->
  separator_of ((if ex then "export " else "") ++ k ++ String sep (quote_with q v))
  = Some sep.
Proof.
  intros Hk Hv Hs. unfold separator_of.
  rewrite !contains_char_app. cbn [contains_char].
  rewrite !(plain_no _ k) by (exact Hk || reflexivity).
  rewrite !(quote_with_no_sep _ q v Hv) by tauto.
  destruct Hs; subst; destruct ex; reflexivity.
Qed.

Lemma parse_config_line ws1 ws2 (ex : bool) k (sep : ascii) q v :
  blank ws1 = true -> blank ws2 = true ->
  plain k = true -> plain v = true ->
  sep = "="%char \/ sep = ":"%char ->
  startswith "#" k = false ->
  parse_line (config_line ws1 ex k sep q v ws2) = Some (k, v).
Proof.
  intros H1 H2 Hk Hv Hs Hh.
  pose proof (core_nonspace k sep q v Hk Hv Hs) as Hcore.
  set (core := k ++ String sep (quote_with q v)) in *.
  assert (Hne : core <> "").
  { unfold core. destruct k; discriminate. }
  assert (Hbody : tight ((if ex then "export " else "") ++ core) = true).
  { destruct ex; [|apply nonspace_tight, Hcore].
    unfold tight. rewrite !append_cons. cbn [negb is_space andb].
    change (String "e" (String "x" (String "p" (String "o" (String "r"
              (String "t" (String " " ("" ++ core))))))))
      with ("export " ++ core).
    rewrite last_char_app by exact Hne.
    destruct (last_char core) as [d|] eqn:E; [|reflexivity].
    apply (all_chars_last _ _ _ Hcore E). }
  unfold parse_line, config_line. cbv zeta. fold core.
  rewrite strip_padded by assumption.
  assert (Hlen : (String.length ((if ex then "export " else "") ++ core) =? 0)%nat = false).
  { destruct ex; [reflexivity|]. destruct core; [contradiction|reflexivity]. }
  assert (Hcomment : startswith "#" ((if ex then "export " else "") ++ core) = false).
  { destruct ex; [reflexivity|]. unfold core.
    destruct k as [|c k]; [destruct Hs; subst; reflexivity|].
    rewrite append_cons. cbn [startswith] in *. exact Hh. }
  rewrite Hlen, Hcomment. cbn [orb].
  unfold core at 1. rewrite separator_of_core by assumption.
  assert (Hrm : remove_all "export " ((if ex then "export " else "") ++ core) = core).
  { destruct ex; [rewrite remove_all_leading|];
      apply remove_all_no_blank, nonspace_no_blank, Hcore. }
  rewrite Hrm, (strip_tight core) by (apply nonspace_tight, Hcore).
  unfold core. rewrite split_once_app.
  - rewrite (strip_tight k) by (apply nonspace_tight, plain_nonspace, Hk).
    rewrite strip_tight by (apply nonspace_tight, quote_with_nonspace, Hv).
    rewrite unquote_quote_with by exact Hv. reflexivity.
  - apply plain_no; [destruct Hs; subst; reflexivity|exact Hk].
Qed.

(** *** Blanks around the separator *)

Lemma remove_from_blank_app ws s :
  blank ws = true ->
  remove_from "export " 0 (ws ++ s) = ws ++ remove_from "export " 0 s.
Proof.
  induction ws as [|c ws IH]; intros H; [reflexivity|].
  cbn [blank all_chars] in H. apply andb_true_iff in H as [Hc Hws].
  rewrite !append_cons. cbn [remove_from startswith].
  destruct (Ascii.eqb_spec "e" c) as [<-|_]; [discriminate Hc|].
  cbn [andb]. rewrite (IH Hws). reflexivity.
Qed.

(** No occurrence of [export ] starts inside a key that does not end with
    [export]. *)
Lemma startswith_export_key k c r :
  plain k = true -> (k =? "export")%string = false ->
  is_space c = true \/ c = "="%char \/ c = ":"%char ->
  startswith "export " (k ++ String c r) = false.
Proof.
  intros Hk Hne Hc.
  destruct (startswith "export " (k ++ String c r)) eqn:E; [|reflexivity].
  exfalso.
  do 6 (destruct k as [|? k];
        [ cbn [append startswith] in E;
          apply andb_true_iff in E as [E _]; apply Ascii.eqb_eq in E; subst c;
          destruct Hc as [Hc|[Hc|Hc]]; discriminate Hc
        | rewrite append_cons in E; cbn [startswith] in E;
          apply andb_true_iff in E as [E1 E]; apply Ascii.eqb_eq in E1;
          subst ]).
  destruct k as [|x k]; [discriminate Hne|].
  rewrite append_cons in E. cbn [startswith] in E.
  apply andb_true_iff in E as [E1 _]. apply Ascii.eqb_eq in E1. subst x.
  discriminate Hk.
Qed.

Lemma endswith_cons p c s :
  endswith p (String c s) = false ->
  (String c s =? p)%string = false /\ endswith p s = false.
Proof.
  cbn [endswith]. intros H. apply orb_false_iff in H as [H1 H2].
  rewrite String.eqb_sym. split; assumption.
Qed.

Lemma remove_from_key k c r :
  plain k = true -> endswith "export" k = false ->
  is_space c = true \/ c = "="%char \/ c = ":"%char ->
  remove_from "export " 0 (k ++ String c r)
  = k ++ remove_from "export " 0 (String c r).
Proof.
  intros Hk He Hc. induction k as [|x k IH]; [reflexivity|].
  apply endswith_cons in He as [Hne He].
  pose proof Hk as Hk'. cbn [plain all_chars] in Hk'.
  apply andb_true_iff in Hk' as [_ Hk'].
  rewrite !append_cons.
  change (remove_from "export " 0 (String x (k ++ String c r)))
    with (if startswith "export " (String x (k ++ String c r))
          then remove_from "export " 6 (k ++ String c r)
          else String x (remove_from "export " 0 (k ++ String c r))).
  rewrite <- append_cons, (startswith_export_key _ c r Hk Hne Hc).
  rewrite (IH Hk' He). reflexivity.
Qed.


Lemma blank_no (c : ascii) ws :
  is_space c = false -> blank ws = true -> contains_char c ws = false.
Proof. intros Hc. apply all_chars_not_contains. exact Hc. Qed.

Lemma quote_with_nonempty q v : v <> "" -> quote_with q v <> "".
Proof. destruct q; [auto|discriminate|discriminate]. Qed.

Lemma remove_from_rest pad1 (sep : ascii) pad2 q v :
  blank pad1 = true -> blank pad2 = true -> plain v = true ->
  sep = "="%char \/ sep = ":"%char ->
  remove_from "export " 0 (pad1 ++ String sep (pad2 ++ quote_with q v))
  = pad1 ++ String sep (pad2 ++ quote_with q v).
Proof.
  intros H1 H2 Hv Hs. rewrite remove_from_blank_app by exact H1.
  assert (E : remove_from "export " 0 (String sep (pad2 ++ quote_with q v))
              = String sep (remove_from "export " 0 (pad2 ++ quote_with q v))).
  { destruct Hs; subst; reflexivity. }
  rewrite E, remove_from_blank_app by exact H2.
  fold (remove_all "export " (quote_with q v)).
  rewrite remove_all_no_blank
    by (apply nonspace_no_blank, quote_with_nonspace, Hv).
  reflexivity.
Qed.

Lemma last_char_spaced k pad1 (sep : ascii) pad2 qv :
  qv <> "" ->
  last_char (k ++ pad1 ++ String sep (pad2 ++ qv)) = last_char qv.
Proof.
  intros Hq.
  assert (Hz : pad2 ++ qv <> "").
  { destruct pad2; [exact Hq|discriminate]. }
  rewrite last_char_app by (destruct pad1; discriminate).
  rewrite last_char_app by discriminate.
  rewrite last_char_cons, (last_char_app pad2 qv Hq).
  destruct (last_char qv) eqn:E; [reflexivity|].
  apply last_char_none in E. contradiction.
Qed.

Lemma tight_ends c r d :
  is_space c = false -> last_char (String c r) = Some d ->
  is_space d = false -> tight (String c r) = true.
Proof. unfold tight. intros Hc El Hd. rewrite Hc, El, Hd. reflexivity. Qed.

Lemma tight_spaced (pre : string) k pad1 (sep : ascii) pad2 q v :
  plain k = true -> plain v = true -> k <> "" -> v <> "" ->
  pre = "" \/ pre = "export " ->
  tight (pre ++ k ++ pad1 ++ String sep (pad2 ++ quote_with q v)) = true.
Proof.
  intros Hk Hv Hk0 Hv0 Hpre.
  pose proof (quote_with_nonempty q v Hv0) as Hq.
  destruct (last_char (quote_with q v)) as [d|] eqn:Ed;
    [|apply last_char_none in Ed; contradiction].
  assert (Hd : is_space d = false).
  { apply negb_true_iff.
    apply (all_chars_last nonspace _ _ (quote_with_nonspace q v Hv) Ed). }
  pose proof (last_char_spaced k pad1 sep pad2 _ Hq) as Hlast.
  rewrite Ed in Hlast.
  destruct k as [|x k]; [contradiction|].
  assert (Hx : is_space x = false).
  { cbn [plain all_chars] in Hk. apply andb_true_iff in Hk as [Hx _].
    unfold plain_char in Hx. rewrite !andb_true_iff in Hx.
    apply negb_true_iff. tauto. }
  destruct Hpre as [-> | ->].
  - change ("" ++ ?s) with s. rewrite append_cons in *.
    apply tight_ends with d; assumption.
  - change ("export " ++ ?s) with (String "e" ("xport " ++ s)).
    apply tight_ends with d; [reflexivity| |exact Hd].
    change (String "e" ("xport " ++ ?s)) with ("export " ++ s).
    rewrite last_char_app by discriminate. exact Hlast.
Qed.

Lemma parse_spaced_line ws1 ws2 pad1 pad2 (ex : bool) k (sep : ascii) q v :
  blank ws1 = true -> blank ws2 = true ->
  blank pad1 = true -> blank pad2 = true ->
  plain k = true -> plain v = true ->
  k <> "" -> v <> "" ->
  sep = "="%char \/ sep = ":"%char ->
  startswith "#" k = false ->
  endswith "export" k = false ->
  parse_line (spaced_line ws1 ex k pad1 sep pad2 q v ws2) = Some (k, v).
Proof.
  intros H1 H2 Hp1 Hp2 Hk Hv Hk0 Hv0 Hs Hh He.
  set (qv := quote_with q v).
  set (core := k ++ pad1 ++ String sep (pad2 ++ qv)).
  set (pre := if ex then "export " else "").
  assert (Hpre : pre = "" \/ pre = "export ") by (destruct ex; auto).
  pose proof (tight_spaced pre k pad1 sep pad2 q v Hk Hv Hk0 Hv0 Hpre) as Hbody.
  pose proof (tight_spaced "" k pad1 sep pad2 q v Hk Hv Hk0 Hv0 (or_introl eq_refl))
    as Hcore.
  change ("" ++ ?s) with s in Hcore. fold qv core in Hbody, Hcore.
  unfold parse_line, spaced_line. cbv zeta. fold qv core pre.
  rewrite strip_padded by assumption.
  assert (Hlen : (String.length (pre ++ core) =? 0)%nat = false).
  { destruct ex; [reflexivity|]. unfold pre, core.
    destruct k; [contradiction|reflexivity]. }
  assert (Hcomment : startswith "#" (pre ++ core) = false).
  { destruct ex; [reflexivity|]. unfold pre, core.
    destruct k as [|c k]; [contradiction|].
    rewrite append_cons. cbn [startswith] in *. exact Hh. }
  rewrite Hlen, Hcomment. cbn [orb].
  assert (Hsep : separator_of (pre ++ core) = Some sep).
  { unfold separator_of, core. rewrite !contains_char_app. cbn [contains_char].
    rewrite !contains_char_app.
    rewrite !(plain_no _ k) by (exact Hk || reflexivity).
    rewrite !(blank_no _ pad1) by (exact Hp1 || reflexivity).
    rewrite !(blank_no _ pad2) by (exact Hp2 || reflexivity).
    unfold qv. rewrite !(quote_with_no_sep _ q v Hv) by tauto.
    destruct Hs; subst; destruct ex; reflexivity. }
  rewrite Hsep.
  assert (Hrm : remove_all "export " (pre ++ core) = core).
  { assert (Hc : remove_all "export " core = core).
    { unfold remove_all, core.
      pose proof (remove_from_rest pad1 sep pad2 q v Hp1 Hp2 Hv Hs) as Hr.
      fold qv in Hr.
      destruct pad1 as [|c pad1].
      - change ("" ++ ?s) with s in *.
        rewrite remove_from_key by tauto. rewrite Hr. reflexivity.
      - rewrite append_cons in *. cbn [blank all_chars] in Hp1.
        apply andb_true_iff in Hp1 as [Hc _].
        rewrite remove_from_key by tauto. rewrite Hr. reflexivity. }
    destruct ex; unfold pre; [rewrite remove_all_leading|]; exact Hc. }
  rewrite Hrm, (strip_tight core Hcore).
  unfold core. rewrite <- append_assoc, split_once_app.
  - change (strip (k ++ pad1)) with (strip ("" ++ k ++ pad1)).
    rewrite (strip_padded "" k pad1)
      by (reflexivity || assumption || apply nonspace_tight, plain_nonspace, Hk).
    rewrite <- (append_nil_r qv) at 1.
    rewrite (strip_padded pad2 qv "")
      by (reflexivity || assumption || apply nonspace_tight, quote_with_nonspace, Hv).
    unfold qv. rewrite unquote_quote_with by exact Hv. reflexivity.
  - rewrite contains_char_app, (blank_no _ pad1) by
      (exact Hp1 || destruct Hs; subst; reflexivity).
    rewrite orb_false_r.
    apply plain_no; [destruct Hs; subst; reflexivity|exact Hk].
Qed.

Lemma parse_blank raw : blank raw = true -> parse_line raw = None.
Proof.
  intros H. unfold parse_line, strip.
  rewrite (lstrip_blank _ H). reflexivity.
Qed.

Lemma startswith_rstrip (c : ascii) s :
  is_space c = false ->
  startswith (String c "") (rstrip s) = startswith (String c "") s.
Proof.
  intros Hc. destruct s as [|x s]; [reflexivity|]. cbn [rstrip].
  destruct (rstrip s).
  - destruct (is_space x) eqn:Hx; [|reflexivity]. cbn [startswith].
    destruct (Ascii.eqb_spec c x) as [->|]; [congruence|reflexivity].
  - reflexivity.
Qed.

Lemma parse_comment ws rest :
  blank ws = true -> parse_line (ws ++ String "#" rest) = None.
Proof.
  intros H. unfold parse_line, strip.
  rewrite lstrip_blank_app by exact H. cbn [lstrip is_space].
  change (is_space "#") with false. cbv iota.
  rewrite startswith_rstrip by reflexivity.
  cbn [startswith]. rewrite Ascii.eqb_refl. cbn [andb].
  rewrite orb_true_r. reflexivity.
Qed.

(** When both separators occur the line is cut at its first [=]. *)
Lemma parse_prefers_equals raw k v :
  contains_char "=" raw = true -> parse_line raw = Some (k, v) ->
  contains_char "=" k = false.
Proof.
  intros He. unfold parse_line.
  destruct (_ || _); [discriminate|].
  unfold separator_of. rewrite contains_char_strip, He by reflexivity.
  destruct (split_once "=" _) as [[a b]|] eqn:E; [|discriminate].
  intros [= <- <-]. rewrite contains_char_strip by reflexivity.
  apply (split_once_key _ _ _ _ E).
Qed.

(** What the loop body computes on a line that is not skipped. *)
Lemma parse_line_fields raw k v :
  parse_line raw = Some (k, v) ->
  exists sep a b,
    separator_of (strip raw) = Some sep
    /\ split_once sep (strip (remove_all "export " (strip raw))) = Some (a, b)
    /\ k = strip a /\ v = unquote (strip b).
Proof.
  unfold parse_line. destruct (_ || _); [discriminate|].
  destruct (separator_of (strip raw)) as [sep|]; [|discriminate].
  destruct (split_once sep _) as [[a b]|] eqn:E; [|discriminate].
  intros [= <- <-]. exists sep, a, b. auto.
Qed.

End EnvFacts.

Lemma load_lines_snoc lines line :
  Env.load_lines (lines ++ [line])
  = match Env.parse_line line with
    | Some (k, v) => <[k := v]> (Env.load_lines lines)
    | None => Env.load_lines lines
    end.
Proof. unfold Env.load_lines. rewrite fold_left_app. reflexivity. Qed.

(** A later line of the file overrides an earlier binding of its key. *)
Lemma load_lines_last_wins lines line k v :
  Env.parse_line line = Some (k, v) ->
  Env.load_lines (lines ++ [line]) !! k = Some v.
Proof. intros H. rewrite load_lines_snoc, H. apply lookup_insert_eq. Qed.

Lemma load_lines_skipped lines line :
  Env.parse_line line = None ->
  Env.load_lines (lines ++ [line]) = Env.load_lines lines.
Proof. intros H. rewrite load_lines_snoc, H. reflexivity. Qed.




(** The text [export ] is dropped wherever it stands on the line, not
    only in front of the key. *)
Example inner_export_removed :
  Env.parse_line "NOTE=do not export this" = Some ("NOTE", "do not this")
  /\ Env.parse_line_spec "NOTE=do not export this"
     = Some ("NOTE", "do not export this").
Proof. vm_compute. split; reflexivity. Qed.

(** For the same reason a key that ends with [export] loses its tail when a
    blank follows it. *)
Example key_tail_export_removed :
  Env.parse_line "reexport = yes" = Some ("re", "yes")
  /\ Env.parse_line "reexport=yes" = Some ("reexport", "yes").
Proof. vm_compute. split; reflexivity. Qed.

(** ** Timestamps *)

Module ClockFacts.
Import Json Py Fmt Clock.

Lemma civil_month_day z :
  let '(y, m, d) := days_to_civil z in 1 <= m <= 12 /\ 1 <= d <= 31.
Proof.
  unfold days_to_civil. cbv zeta.
  set (z' := z + 719468).
  set (era := z' / 146097).
  set (doe := z' - era * 146097).
  assert (Hdoe : 0 <= doe < 146097)
    by (unfold doe, era; Z.div_mod_to_equations; lia).
  clearbody doe. clear z' era z.
  set (yoe := (doe - doe / 1460 + doe / 36524 - doe / 146096) / 365).
  assert (Hyoe : 0 <= yoe <= 399) by (unfold yoe; Z.div_mod_to_equations; lia).
  set (doy := doe - (365 * yoe + yoe / 4 - yoe / 100)).
  assert (Hdoy : 0 <= doy <= 365)
    by (unfold doy, yoe; Z.div_mod_to_equations; lia).
  clearbody doy.
  set (mp := (5 * doy + 2) / 153).
  assert (Hmp : 0 <= mp <= 11) by (unfold mp; Z.div_mod_to_equations; lia).
  assert (Hd : 1 <= doy - (153 * mp + 2) / 5 + 1 <= 31)
    by (unfold mp; Z.div_mod_to_equations; lia).
  destruct (mp <? 10) eqn:E; [apply Z.ltb_lt in E|apply Z.ltb_ge in E]; lia.
Qed.

(** From 1969-12-31 to 9999-12-31 the year has four digits. *)
Lemma civil_year z :
  -1 <= z < 2932897 ->
  let '(y, m, d) := days_to_civil z in 1600 <= y <= 9999.
Proof.
  intros Hz. unfold days_to_civil. cbv zeta.
  set (z' := z + 719468).
  assert (Hz' : 719467 <= z' < 3652365) by (unfold z'; lia).
  clearbody z'. clear z Hz.
  set (era := z' / 146097).
  assert (Hera : 4 <= era <= 24) by (unfold era; Z.div_mod_to_equations; lia).
  set (doe := z' - era * 146097).
  assert (Hdoe : 0 <= doe < 146097)
    by (unfold doe, era; Z.div_mod_to_equations; lia).
  assert (Hlast : era = 24 -> doe < 146037) by (unfold doe; lia).
  clearbody doe. clearbody era. clear z' Hz'.
  set (yoe := (doe - doe / 1460 + doe / 36524 - doe / 146096) / 365).
  assert (Hyoe : 0 <= yoe <= 399) by (unfold yoe; Z.div_mod_to_equations; lia).
  set (doy := doe - (365 * yoe + yoe / 4 - yoe / 100)).
  assert (Hdoy : 0 <= doy <= 365)
    by (unfold doy, yoe; Z.div_mod_to_equations; lia).
  set (mp := (5 * doy + 2) / 153).
  assert (Hmp : 0 <= mp <= 11) by (unfold mp; Z.div_mod_to_equations; lia).
  assert (Hjan : era = 24 -> yoe = 399 -> mp < 10).
  { intros He Hy. specialize (Hlast He). unfold mp, doy. rewrite Hy.
    unfold yoe in Hy. Z.div_mod_to_equations. lia. }
  destruct (mp <? 10) eqn:E; [apply Z.ltb_lt in E|apply Z.ltb_ge in E].
  - replace (mp + 3 <=? 2) with false by (symmetry; apply Z.leb_gt; lia).
    lia.
  - destruct (mp - 9 <=? 2); lia.
Qed.

Lemma four_digits_check :
  forallb (fun n => four_digits (1000 + Z.of_nat n)) (seq 0 (Z.to_nat 9000))
  = true.
Proof. vm_compute. reflexivity. Qed.

Lemma dec_four_digits y : 1000 <= y <= 9999 -> four_digits y = true.
Proof.
  intros Hy. pose proof four_digits_check as H.
  rewrite forallb_forall in H.
  specialize (H (Z.to_nat (y - 1000))).
  replace (1000 + Z.of_nat (Z.to_nat (y - 1000))) with y in H by lia.
  apply H. apply in_seq. lia.
Qed.

Lemma digit_is_digit k : 0 <= k <= 9 -> is_digit (digit k) = true.
Proof.
  intros H.
  assert (E : k = 0 \/ k = 1 \/ k = 2 \/ k = 3 \/ k = 4 \/ k = 5 \/ k = 6
              \/ k = 7 \/ k = 8 \/ k = 9) by lia.
  repeat (destruct E as [->|E]; [reflexivity|]). subst. reflexivity.
Qed.

Lemma pad2_digits n : 0 <= n <= 99 -> matches [Digit; Digit] (pad2 n) = true.
Proof.
  intros H. unfold pad2. cbn [matches].
  rewrite !digit_is_digit by (Z.div_mod_to_equations; lia). reflexivity.
Qed.

Lemma matches_app p1 p2 s1 s2 :
  matches p1 s1 = true -> matches p2 s2 = true ->
  matches (p1 ++ p2)%list (s1 ++ s2) = true.
Proof.
  revert s1. induction p1 as [|x p1 IH]; intros s1 H1 H2.
  - destruct s1; [exact H2|discriminate].
  - destruct s1 as [|c s1]; [destruct x; discriminate|].
    change (String c s1 ++ s2) with (String c (s1 ++ s2)).
    destruct x; cbn [matches app] in *;
      apply andb_true_iff in H1 as [Hc H1]; rewrite Hc, (IH _ H1 H2);
      reflexivity.
Qed.

Lemma strftime_is_stamp dt :
  1000 <= year dt <= 9999 ->
  0 <= month dt <= 99 -> 0 <= day dt <= 99 ->
  0 <= hour dt <= 99 -> 0 <= minute dt <= 99 -> 0 <= second dt <= 99 ->
  is_stamp (strftime dt) = true.
Proof.
  intros Hy Hm Hd Hh Hmi Hs. unfold is_stamp, strftime.
  change stamp_pattern with
    ([Digit; Digit; Digit; Digit] ++ [Lit "-"%char] ++ [Digit; Digit]
     ++ [Lit "-"%char] ++ [Digit; Digit] ++ [Lit " "%char] ++ [Digit; Digit]
     ++ [Lit ":"%char] ++ [Digit; Digit] ++ [Lit ":"%char] ++ [Digit; Digit]
     ++ [Lit " "; Lit "U"; Lit "T"; Lit "C"]%char)%list.
  repeat (apply matches_app;
          [first [apply dec_four_digits; assumption
                 | apply pad2_digits; assumption
                 | reflexivity]|]).
  reflexivity.
Qed.

Lemma of_local_seconds_valid l :
  -86400 <= l < 253402300800 ->
  exists dt, of_local_seconds l = Some dt /\ is_stamp (strftime dt) = true.
Proof.
  intros Hl. unfold of_local_seconds.
  pose proof (civil_year (l / 86400)) as Hy.
  pose proof (civil_month_day (l / 86400)) as Hmd.
  destruct (days_to_civil (l / 86400)) as [[y m] d].
  assert (Hy' : 1600 <= y <= 9999)
    by (apply Hy; Z.div_mod_to_equations; lia).
  replace ((1 <=? y) && (y <=? 9999)) with true
    by (symmetry; apply andb_true_iff; split; apply Z.leb_le; lia).
  eexists. split; [reflexivity|].
  apply strftime_is_stamp; cbn [year month day hour minute second];
    try lia; Z.div_mod_to_equations; lia.
Qed.

Lemma format_timestamp_falsy rt ts :
  truthy ts = false -> format_timestamp rt ts = "N/A".
Proof. intros H. unfold format_timestamp. rewrite H. reflexivity. Qed.

Lemma format_timestamp_unparseable rt ts :
  truthy ts = true -> fromtimestamp rt ts = None ->
  format_timestamp rt ts = py_str rt ts.
Proof. intros H1 H2. unfold format_timestamp. rewrite H1, H2. reflexivity. Qed.

Lemma format_timestamp_valid rt n :
  0 < n -> -86400 <= utcoffset rt n ->
  n + utcoffset rt n < 253402300800 ->
  is_stamp (format_timestamp rt (VInt n)) = true.
Proof.
  intros Hn Hlo Hhi. unfold format_timestamp. cbn [truthy].
  replace (n =? 0) with false by (symmetry; apply Z.eqb_neq; lia).
  cbn [negb fromtimestamp]. unfold local.
  destruct (of_local_seconds_valid (n + utcoffset rt n)) as (dt & -> & Hdt);
    [lia|exact Hdt].
Qed.

End ClockFacts.

(** C5, as amended.  The timestamp formatter yields the literal [N/A] for
    0 and for an absent value ([None]), and for any other falsy value; for
    a value that [datetime.fromtimestamp] rejects it yields the text of the
    value itself, not the placeholder; and for a positive Unix timestamp
    whose local date is not after the year 9999 it yields a text of the
    shape [YYYY-MM-DD HH:MM:SS UTC]. *)
Theorem C5_format_timestamp :
  forall rt : Py.runtime,
    Clock.format_timestamp rt (Json.VInt 0) = "N/A"
    /\ Clock.format_timestamp rt Json.VNone = "N/A"
    /\ (forall ts, Json.truthy ts = false -> Clock.format_timestamp rt ts = "N/A")
    /\ (forall ts,
          Json.truthy ts = true -> Clock.fromtimestamp rt ts = None ->
          Clock.format_timestamp rt ts = Fmt.py_str rt ts)
    /\ (forall n,
          0 < n -> -86400 <= Py.utcoffset rt n ->
          n + Py.utcoffset rt n < 253402300800 ->
          Clock.is_stamp (Clock.format_timestamp rt (Json.VInt n)) = true).
Proof.
  intros rt. repeat split.
  - apply ClockFacts.format_timestamp_falsy.
  - apply ClockFacts.format_timestamp_unparseable.
  - apply ClockFacts.format_timestamp_valid.
Qed.

Lemma C5_format_timestamp_witness :
  Clock.is_stamp
    (Clock.format_timestamp (Py.sample_runtime (Clock.fixed_zone 3600))
       (Json.VInt 1730613480)) = true.
Proof.
  apply (proj2 (proj2 (proj2 (proj2
           (C5_format_timestamp (Py.sample_runtime (Clock.fixed_zone 3600)))))));
    unfold Py.sample_runtime, Clock.fixed_zone; simpl; lia.
Defined.

(** C5 as stated fails: a value that cannot be parsed as a timestamp comes
    back as its own text, not as [N/A]. *)
Lemma C5_unparseable_not_placeholder :
  Clock.format_timestamp (Py.sample_runtime (Clock.fixed_zone 0))
    (Json.VStr "soon") = "soon"
  /\ Clock.format_timestamp (Py.sample_runtime (Clock.fixed_zone 0))
       (Json.VInt 1000000000000000000) = "1000000000000000000"
  /\ Clock.format_timestamp (Py.sample_runtime (Clock.fixed_zone 0))
       (Json.VStr "soon") <> "N/A".
Proof. vm_compute. repeat split. discriminate. Qed.

Example format_timestamp_sample :
  Clock.format_timestamp (Py.sample_runtime (Clock.new_york_2024))
    (Json.VInt 1) = "1969-12-31 19:00:01 UTC".
Proof. vm_compute. reflexivity. Qed.

(** ** The expiry of the token *)

Module ExpiryFacts.
Import Json Py Fmt Clock.

(** Where the zone keeps one offset around a civil time, the civil time is
    read back as the instant it came from. *)
Lemma local_to_seconds_steady rt t off :
  utcoffset rt t = off ->
  utcoffset rt (t - off) = off ->
  utcoffset rt (t - off - max_fold_seconds) = off ->
  local_to_seconds rt t = t - off.
Proof.
  intros H1 H2 H3. unfold local_to_seconds, local. cbv zeta.
  rewrite H1. replace (t + off - t) with off by lia.
  rewrite H2. replace (t - off + off =? t) with true
    by (symmetry; apply Z.eqb_eq; lia).
  rewrite H3.
  replace (t - off - max_fold_seconds + off - (t - off - max_fold_seconds))
    with off by lia.
  rewrite Z.eqb_refl. reflexivity.
Qed.

(** In a zone whose offset does not change within two days of the clock
    reading, the token expires 300 seconds after the second of the
    reading. *)
Lemma token_expiry_steady rt now_us off :
  0 <= now_us ->
  -86400 <= off <= 86400 ->
  (forall v, now_us / 1000000 - 172800 <= v <= now_us / 1000000 + 172800 ->
             utcoffset rt v = off) ->
  token_expiry rt now_us = now_us / 1000000 + 300.
Proof.
  intros Hnow Hoff Hzone. unfold token_expiry. cbv zeta.
  set (u := now_us / 1000000) in *.
  assert (Hu : 0 <= u) by (unfold u; Z.div_mod_to_equations; lia).
  unfold local at 1. rewrite (Hzone u) by lia.
  rewrite (local_to_seconds_steady rt (u + off + 5 * 60) off).
  - pose proof (Z.mod_pos_bound now_us 1000000 ltac:(lia)) as Hus.
    set (us := now_us mod 1000000) in *.
    replace ((u + off + 5 * 60 - off) * 1000000 + us)
      with (us + (u + 300) * 1000000) by lia.
    rewrite Z.quot_div_nonneg by lia.
    rewrite Z.div_add by lia. rewrite Z.div_small by lia. lia.
  - apply Hzone. lia.
  - apply Hzone. lia.
  - apply Hzone. unfold max_fold_seconds. lia.
Qed.

Lemma token_expiry_steady_window rt now_us off :
  0 <= now_us ->
  -86400 <= off <= 86400 ->
  (forall v, now_us / 1000000 - 172800 <= v <= now_us / 1000000 + 172800 ->
             utcoffset rt v = off) ->
  299 * 1000000 < token_expiry rt now_us * 1000000 - now_us <= 300 * 1000000.
Proof.
  intros Hnow Hoff Hzone.
  rewrite (token_expiry_steady rt now_us off Hnow Hoff Hzone).
  Z.div_mod_to_equations. lia.
Qed.

Lemma jwt_payload_kid rt now_us identifier :
  kid (jwt_payload rt now_us identifier) = identifier.
Proof. reflexivity. Qed.

End ExpiryFacts.

(** C9, at the failing input.  The identifier is carried over unchanged,
    but with the clock at 2024-11-03 05:58:00 UTC in the zone of New York
    (01:58 local time, two minutes before clocks are set back an hour) the
    expiry lies 3900 seconds after the generation time, not 300: five
    minutes are added to the local civil time, and 02:03 is then read as
    standard time. *)
Theorem C9_expiry_across_clock_change :
  Clock.kid (Clock.jwt_payload (Py.sample_runtime Clock.new_york_2024)
               1730613480000000 "key-1") = "key-1"
  /\ Clock.exp (Clock.jwt_payload (Py.sample_runtime Clock.new_york_2024)
                  1730613480000000 "key-1") = 1730613480 + 3900.
Proof. vm_compute. split; reflexivity. Qed.

(** ** The effects monad *)

Module PyFacts.
Import Json Py.

Lemma bind_pure_done {A B} (a : A) (k : A -> M B) : bind ([], Done a) k = k a.
Proof. unfold bind. destruct (k a). reflexivity. Qed.

Lemma bind_done_pair {A B} t (a : A) (k : A -> M B) :
  bind (t, Done a) k = ((t ++ trace (k a))%list, result (k a)).
Proof. unfold bind, trace, result. destruct (k a). reflexivity. Qed.

Lemma bind_ret {A B} (a : A) (k : A -> M B) : bind (ret a) k = k a.
Proof. apply bind_pure_done. Qed.

Lemma bind_raise {A B} (e : exn) (k : A -> M B) : bind (raise e) k = raise e.
Proof. reflexivity. Qed.

Lemma bind_exit {A B} (c : Z) (k : A -> M B) : bind (sys_exit c) k = sys_exit c.
Proof. reflexivity. Qed.

Lemma bind_print {B} (s : string) (k : unit -> M B) :
  bind (print s) k = (Print s :: trace (k tt), result (k tt)).
Proof. unfold bind, print, trace, result. destruct (k tt). reflexivity. Qed.

Lemma bind_assoc {A B C} (c : M A) (k : A -> M B) (k' : B -> M C) :
  bind (bind c k) k' = bind c (fun a => bind (k a) k').
Proof.
  destruct c as [t [a| |]]; cbn; try reflexivity.
  destruct (k a) as [t1 [b| |]]; cbn; try reflexivity.
  destruct (k' b) as [t2 r]. rewrite app_assoc. reflexivity.
Qed.

Lemma trace_bind {A B} (c : M A) (k : A -> M B) :
  trace (bind c k)
  = match result c with
    | Done a => (trace c ++ trace (k a))%list
    | _ => trace c
    end.
Proof.
  destruct c as [t [a| |]]; cbn; try reflexivity. destruct (k a); reflexivity.
Qed.

Lemma result_bind {A B} (c : M A) (k : A -> M B) :
  result (bind c k)
  = match result c with
    | Done a => result (k a)
    | Exit code => Exit code
    | Raise e => Raise e
    end.
Proof.
  destruct c as [t [a| |]]; cbn; try reflexivity. destruct (k a); reflexivity.
Qed.

Lemma surjective_M {A} (c : M A) : c = (trace c, result c).
Proof. destruct c; reflexivity. Qed.

Lemma printed_app t1 t2 : printed (t1 ++ t2) = (printed t1 ++ printed t2)%list.
Proof. apply flat_map_app. Qed.

Lemma requests_app t1 t2 : requests (t1 ++ t2) = (requests t1 ++ requests t2)%list.
Proof. apply flat_map_app. Qed.

(** What a loop that ends normally has printed. *)
Lemma for_each_done {A} (body : A -> M unit) (l : list A) :
  result (for_each l body) = Done tt ->
  Forall (fun x => result (body x) = Done tt) l
  /\ trace (for_each l body) = flat_map (fun x => trace (body x)) l.
Proof.
  induction l as [|x l IH]; cbn [for_each flat_map]; intros H.
  - split; [constructor|reflexivity].
  - rewrite result_bind in H. rewrite trace_bind.
    destruct (result (body x)) as [[]| |] eqn:E; try discriminate.
    destruct (IH H) as [IH1 IH2]. split.
    + constructor; assumption.
    + rewrite IH2. reflexivity.
Qed.

Lemma for_each_all_done {A} (body : A -> M unit) (l : list A) :
  Forall (fun x => result (body x) = Done tt) l ->
  result (for_each l body) = Done tt.
Proof.
  induction 1 as [|x l Hx Hl IH]; cbn [for_each]; [reflexivity|].
  rewrite result_bind, Hx. exact IH.
Qed.

Lemma enumerate_length {A} (start : Z) (l : list A) :
  List.length (enumerate start l) = List.length l.
Proof.
  revert start. induction l as [|x l IH]; intros start; cbn; [reflexivity|].
  rewrite IH. reflexivity.
Qed.

End PyFacts.

(** ** The report printers *)

Module ReportFacts.
Import Json Py Fmt Clock Report PyFacts.

Ltac pure_step :=
  rewrite ?bind_ret, ?bind_raise;
  cbn [get slice_str fmt_grouped fmt_fixed len slice_items items lt_four upper].

Lemma print_entry_done rt i inp :
  result (print_entry rt i inp) = Done tt ->
  exists s, print_entry rt i inp = ([Print s], Done tt).
Proof.
  unfold print_entry. destruct inp; try discriminate.
  pure_step.
  destruct (lookup_or "address" _ kv); pure_step; try discriminate;
  destruct (lookup_or "amount" _ kv); pure_step; try discriminate;
  destruct (lookup_or "amount_usd" _ kv); pure_step; try discriminate;
  intros _; eexists; reflexivity.
Qed.

Lemma print_entry_renderable rt i inp :
  renderable_entry inp = true -> result (print_entry rt i inp) = Done tt.
Proof.
  unfold print_entry, renderable_entry. destruct inp; try discriminate.
  pure_step.
  destruct (lookup_or "address" _ kv); try discriminate;
  destruct (lookup_or "amount" _ kv); try discriminate;
  destruct (lookup_or "amount_usd" _ kv); try discriminate;
  intros _; pure_step; reflexivity.
Qed.

Lemma entries_done rt (l : list (Z * value)) :
  Forall (fun p => result (print_entry rt (fst p) (snd p)) = Done tt) l ->
  exists lines,
    Forall2 (fun p s => print_entry rt (fst p) (snd p) = ([Print s], Done tt))
      l lines
    /\ flat_map (fun p => trace (print_entry rt (fst p) (snd p))) l
       = map Print lines.
Proof.
  induction 1 as [|p l Hp Hl (lines & IH1 & IH2)].
  - exists []. split; [constructor|reflexivity].
  - destruct (print_entry_done rt _ _ Hp) as [s Hs].
    exists (s :: lines). split; [constructor; assumption|].
    cbn [flat_map map]. rewrite IH2, Hs. reflexivity.
Qed.

Lemma printed_map_print lines : printed (map Print lines) = lines.
Proof. induction lines as [|s l IH]; cbn; [reflexivity|]. f_equal. exact IH. Qed.

Lemma Forall2_length_eq {A B} (R : A -> B -> Prop) l1 l2 :
  Forall2 R l1 l2 -> List.length l1 = List.length l2.
Proof. induction 1; cbn; congruence. Qed.

Lemma enumerate_renderable rt start l :
  forallb renderable_entry l = true ->
  Forall (fun p => result (print_entry rt (fst p) (snd p)) = Done tt)
    (enumerate start l).
Proof.
  revert start. induction l as [|x l IH]; intros start H; cbn [enumerate].
  - constructor.
  - cbn [forallb] in H. apply andb_true_iff in H as [Hx Hl].
    constructor; [apply print_entry_renderable; exact Hx|apply IH; exact Hl].
Qed.

(** The listing of a non-empty list, step by step. *)
Lemma print_listing_cons rt key title noun kv x l :
  assoc key kv = Some (VList (x :: l)) ->
  let n := Z.of_nat (List.length (x :: l)) in
  let rest :=
    bind (for_each (enumerate 1 (firstn 3 (x :: l)))
            (fun p => print_entry rt (fst p) (snd p))) (fun _ =>
    if 3 <? n then print (listing_rest noun n) else ret tt) in
  print_listing rt key title noun (VDict kv)
  = (Print (listing_header title n) :: trace rest, result rest).
Proof.
  intros H. unfold print_listing, present. rewrite H.
  cbn [truthy List.length Nat.eqb negb]. repeat (progress pure_step).
  rewrite bind_print. cbv beta. repeat (progress pure_step). reflexivity.
Qed.

Lemma print_listing_nil rt key title noun kv :
  assoc key kv = Some (VList []) ->
  print_listing rt key title noun (VDict kv) = ret tt.
Proof.
  intros H. unfold print_listing, present. rewrite H. reflexivity.
Qed.

Lemma listing_first_three rt key title noun kv l :
  assoc key kv = Some (VList l) ->
  let c := print_listing rt key title noun (VDict kv) in
  let n := Z.of_nat (List.length l) in
  (forallb renderable_entry (firstn 3 l) = true -> result c = Done tt)
  /\ (result c = Done tt ->
      exists lines,
        List.length lines = Nat.min (List.length l) 3
        /\ Forall2
             (fun p s => print_entry rt (fst p) (snd p) = ([Print s], Done tt))
             (enumerate 1 (firstn 3 l)) lines
        /\ printed (trace c)
           = if (List.length l =? 0)%nat then []
             else (listing_header title n :: lines
                   ++ (if 3 <? n then [listing_rest noun n] else []))%list).
Proof.
  intros H c n. destruct l as [|x l].
  - subst c. rewrite (print_listing_nil _ _ _ _ _ H). split; [reflexivity|].
    intros _. exists []. repeat split. constructor.
  - subst c. rewrite (print_listing_cons _ _ _ _ _ _ _ H). cbv zeta. fold n.
    set (shown := enumerate 1 (firstn 3 (x :: l))).
    set (body := fun p : Z * value => print_entry rt (fst p) (snd p)).
    split.
    + intros Hr. cbn [result snd].
      rewrite result_bind.
      rewrite (for_each_all_done body shown)
        by (apply enumerate_renderable; exact Hr).
      destruct (3 <? n); reflexivity.
    + cbn [result trace fst snd].
      rewrite result_bind, trace_bind.
      destruct (result (for_each shown body)) as [[]| |] eqn:E; try discriminate.
      intros Hrest.
      destruct (for_each_done body shown E) as [Hall Htr].
      destruct (entries_done rt shown Hall) as (lines & Hl1 & Hl2).
      exists lines. split; [|split; [exact Hl1|]].
      * rewrite <- (Forall2_length_eq _ _ _ Hl1). unfold shown.
        rewrite enumerate_length, length_firstn. apply Nat.min_comm.
      * cbn [printed flat_map]. change (flat_map _ ?t) with (printed t).
        rewrite printed_app, Htr. unfold body. rewrite Hl2, printed_map_print.
        cbn [List.length Nat.eqb app]. f_equal. f_equal.
        destruct (3 <? n); reflexivity.
Qed.

Lemma seq_done (c k : M unit) :
  result (bind c (fun _ => k)) = Done tt ->
  result c = Done tt /\ result k = Done tt
  /\ trace (bind c (fun _ => k)) = (trace c ++ trace k)%list.
Proof.
  rewrite result_bind, trace_bind.
  destruct (result c) as [[]| |]; try discriminate. auto.
Qed.

(** A transaction detail that completes is made of its six parts. *)
Lemma details_printed rt data :
  result (print_transaction_details rt data) = Done tt ->
  printed (trace (print_transaction_details rt data))
  = (printed (trace (print_transaction_head rt data))
     ++ printed (trace (print_listing rt "inputs" "📥 Inputs" "input" data))
     ++ printed (trace (print_listing rt "outputs" "📤 Outputs" "output" data))
     ++ printed (trace (print_tokens rt data))
     ++ printed (trace (print_contract_analysis rt data))
     ++ [closing_rule])%list.
Proof.
  unfold print_transaction_details. intros H.
  apply seq_done in H as (_ & H & ->). rewrite printed_app. f_equal.
  apply seq_done in H as (_ & H & ->). rewrite printed_app. f_equal.
  apply seq_done in H as (_ & H & ->). rewrite printed_app. f_equal.
  apply seq_done in H as (_ & H & ->). rewrite printed_app. f_equal.
  apply seq_done in H as (_ & H & ->). rewrite printed_app. reflexivity.
Qed.

End ReportFacts.




Example listing_of_four :
  Py.printed
    (Py.trace
       (Report.print_listing (Py.sample_runtime (Clock.fixed_zone 0))
          "inputs" "📥 Inputs" "input"
          (Json.VDict
             [("inputs",
               Json.VList
                 [Json.VDict [("address", Json.VStr "bc1qa")];
                  Json.VDict [("amount", Json.VInt 1234567)];
                  Json.VDict []; Json.VDict []])])))
  = [ Report.nl ++ "📥 Inputs (4):";
      "   1. bc1qa... | 0 | $0.00 | Score: N/A | Unidentified";
      "   2. N/A... | 1,234,567 | $0.00 | Score: N/A | Unidentified";
      "   3. N/A... | 0 | $0.00 | Score: N/A | Unidentified";
      "   ... e altri 1 input" ].
Proof. vm_compute. reflexivity. Qed.

(** ** The contract analysis *)

Module ScanFacts.
Import Json Py Fmt Clock Report PyFacts ReportFacts.

Lemma check_contract_scannable rt side inp :
  scannable inp = true ->
  check_contract rt side inp
  = (map Print (if suspicious inp then warning_of rt side inp else []),
     Done (suspicious inp)).
Proof.
  unfold check_contract, scannable, suspicious, warning_of.
  destruct inp; try discriminate. repeat (progress pure_step).
  destruct (truthy (lookup_or "contract" VNone kv)); [|reflexivity].
  repeat (progress pure_step).
  destruct (truthy (lookup_or "score" (VStr "N/A") kv)) eqn:Ht; [|reflexivity].
  cbn [negb orb andb].
  destruct (lookup_or "score" (VStr "N/A") kv) eqn:Es; try discriminate;
    intros _; repeat (progress pure_step); cbn [low_score andb];
    try match goal with
        | |- context [if ?b then _ else _] => destruct b
        end; reflexivity.
Qed.

Lemma scan_entries_all rt side found l :
  forallb scannable l = true ->
  scan_entries rt side found l
  = (map Print (warnings rt side l), Done (found || existsb suspicious l)).
Proof.
  revert found. induction l as [|x l IH]; intros found H.
  - cbn. rewrite orb_false_r. reflexivity.
  - cbn [forallb] in H. apply andb_true_iff in H as [Hx Hl].
    cbn [scan_entries]. rewrite (check_contract_scannable _ _ _ Hx).
    unfold bind. rewrite (IH _ Hl). unfold warnings. cbn [flat_map existsb].
    rewrite map_app, orb_assoc. reflexivity.
Qed.

(** A contract with score 0 is never reported. *)
Lemma zero_score_not_suspicious kv :
  lookup_or "score" (VStr "N/A") kv = VInt 0 -> suspicious (VDict kv) = false.
Proof.
  intros H. unfold suspicious. rewrite H. cbn.
  rewrite andb_false_r. reflexivity.
Qed.

Lemma scan_side_list rt key side found kv l :
  assoc key kv = Some (VList l) ->
  forallb scannable l = true ->
  scan_side rt key side found (VDict kv)
  = (map Print (warnings rt side l), Done (found || existsb suspicious l)).
Proof.
  intros H Hl. unfold scan_side, present. rewrite H.
  destruct l as [|x l].
  - cbn. rewrite orb_false_r. reflexivity.
  - cbn [truthy List.length Nat.eqb negb]. repeat (progress pure_step).
    apply scan_entries_all. exact Hl.
Qed.

(** The contract analysis of a transaction whose inputs and outputs can be
    scanned: every entry of both lists is looked at, two lines are printed
    for each suspicious one, and the closing line is printed when there is
    none. *)
Lemma contract_analysis_lists rt kv ins outs :
  assoc "inputs" kv = Some (VList ins) ->
  assoc "outputs" kv = Some (VList outs) ->
  forallb scannable ins = true -> forallb scannable outs = true ->
  print_contract_analysis rt (VDict kv)
  = (map Print
       (analysis_header
          :: warnings rt "Input" ins ++ warnings rt "Output" outs
          ++ (if existsb suspicious ins || existsb suspicious outs
              then [] else [no_contract_line]))%list,
     Done tt).
Proof.
  intros Hi Ho Hsi Hso. unfold print_contract_analysis.
  rewrite bind_print. cbv beta.
  rewrite (scan_side_list _ _ _ _ _ _ Hi Hsi), bind_done_pair.
  cbn [trace result fst snd orb].
  rewrite (scan_side_list _ _ _ _ _ _ Ho Hso), bind_done_pair.
  cbn [trace result fst snd].
  destruct (existsb suspicious ins || existsb suspicious outs);
    cbn [negb print ret trace result fst snd map];
    rewrite !map_app; reflexivity.
Qed.

End ScanFacts.


(** C2, at the failing input.  An input flagged as a contract whose score
    is the number 0, which is below 4, draws no warning: the analysis
    prints its header and the line saying that no suspicious contract was
    found. *)
Theorem C2_zero_score_contract_not_reported :
  Report.print_contract_analysis (Py.sample_runtime (Clock.fixed_zone 0))
    (Json.VDict
       [("inputs",
         Json.VList
           [Json.VDict
              [("address", Json.VStr "0xdead"); ("contract", Json.VBool true);
               ("score", Json.VInt 0)]])])
  = ([Py.Print Report.analysis_header; Py.Print Report.no_contract_line],
     Py.Done tt).
Proof. vm_compute. reflexivity. Qed.

(** The same entry with score 1 is reported. *)
Example low_score_contract_reported :
  Py.printed
    (Py.trace
       (Report.print_contract_analysis (Py.sample_runtime (Clock.fixed_zone 0))
          (Json.VDict
             [("inputs",
               Json.VList
                 [Json.VDict
                    [("address", Json.VStr "0xdead");
                     ("contract", Json.VBool true); ("score", Json.VInt 1)]])])))
  = [ Report.analysis_header;
      "   ⚠️  CONTRACT SOSPETTO (Input): 0xdead";
      "      Score: 1/10 | Entity: Unidentified" ].
Proof. vm_compute. reflexivity. Qed.

(** C3, at the failing input.  A transaction with an input flagged as a
    contract and no score field is not rendered in full: the comparison of
    the placeholder text with 4 raises [TypeError], after the header of the
    contract analysis and before the closing rule. *)
Theorem C3_contract_without_score_aborts :
  Py.result
    (Report.print_transaction_details (Py.sample_runtime (Clock.fixed_zone 0))
       (Json.VDict
          [("hash", Json.VStr "ab12");
           ("inputs",
            Json.VList
              [Json.VDict
                 [("address", Json.VStr "0xdead");
                  ("contract", Json.VBool true)]])]))
  = Py.Raise Py.TypeError
  /\ List.last
       (Py.printed
          (Py.trace
             (Report.print_transaction_details
                (Py.sample_runtime (Clock.fixed_zone 0))
                (Json.VDict
                   [("hash", Json.VStr "ab12");
                    ("inputs",
                     Json.VList
                       [Json.VDict
                          [("address", Json.VStr "0xdead");
                           ("contract", Json.VBool true)]])]))))
       ""
     = Report.analysis_header.
Proof. vm_compute. split; reflexivity. Qed.

(** Every other absent field renders as a placeholder: the detail of an
    empty transaction. *)
Example empty_transaction_renders :
  Py.printed
    (Py.trace
       (Report.print_transaction_details
          (Py.sample_runtime (Clock.fixed_zone 0)) (Json.VDict [])))
  = [ Report.rule; "📄 DETTAGLI TRANSAZIONE"; Report.rule;
      Report.nl ++ "🔹 Hash: N/A"; "🔹 Status: ⏳ In attesa";
      "🔹 Currency: N/A"; "🔹 Timestamp: N/A"; "🔹 Block Height: N/A";
      "🔹 Confirmations: 0"; Report.nl ++ "💰 Importi:"; "   Amount: N/A";
      "   Amount USD: $0.00"; "   Fee: N/A"; "   Fee USD: $0.00";
      Report.analysis_header; Report.no_contract_line; Report.closing_rule ].
Proof. vm_compute. reflexivity. Qed.

(** ** The printers make no HTTP call *)

Module QuietFacts.
Import Json Py Fmt Clock Report PyFacts.

Lemma quiet_ret {A} (a : A) : quiet (ret a).
Proof. reflexivity. Qed.

Lemma quiet_raise {A} (e : exn) : quiet (@raise A e).
Proof. reflexivity. Qed.

Lemma quiet_exit {A} (code : Z) : quiet (@sys_exit A code).
Proof. reflexivity. Qed.

Lemma quiet_print s : quiet (print s).
Proof. reflexivity. Qed.

Lemma quiet_bind {A B} (c : M A) (k : A -> M B) :
  quiet c -> (forall a, quiet (k a)) -> quiet (bind c k).
Proof.
  unfold quiet. intros Hc Hk. rewrite trace_bind.
  destruct (result c); [|exact Hc..].
  rewrite requests_app, Hc, Hk. reflexivity.
Qed.

Lemma quiet_for_each {A} (l : list A) (body : A -> M unit) :
  (forall x, quiet (body x)) -> quiet (for_each l body).
Proof.
  intros H. induction l as [|x l IH]; cbn [for_each].
  - apply quiet_ret.
  - apply quiet_bind; [apply H|intros _; exact IH].
Qed.

Lemma quiet_get v k d : quiet (get v k d).
Proof. destruct v; reflexivity. Qed.

Lemma quiet_upper v : quiet (upper v).
Proof. destruct v; reflexivity. Qed.

Lemma quiet_len v : quiet (len v).
Proof. destruct v; reflexivity. Qed.

Lemma quiet_lt_four v : quiet (lt_four v).
Proof. destruct v; reflexivity. Qed.

Lemma quiet_items v : quiet (items v).
Proof. destruct v; reflexivity. Qed.

Lemma quiet_slice_items n v : quiet (slice_items n v).
Proof. destruct v; reflexivity. Qed.

Lemma quiet_slice_str rt n v : quiet (slice_str rt n v).
Proof. destruct v; reflexivity. Qed.

Lemma quiet_fmt_grouped rt v : quiet (fmt_grouped rt v).
Proof. destruct v; reflexivity. Qed.

Lemma quiet_fmt_fixed rt p v : quiet (fmt_fixed rt p v).
Proof. destruct v; reflexivity. Qed.

Lemma quiet_present v k : quiet (present v k).
Proof. destruct v; try reflexivity. cbn. destruct (assoc k kv); reflexivity. Qed.

Create HintDb quiet.
#[export] Hint Resolve quiet_ret quiet_raise quiet_exit quiet_print quiet_get
  quiet_upper quiet_len quiet_lt_four quiet_items quiet_slice_items
  quiet_slice_str quiet_fmt_grouped quiet_fmt_fixed quiet_present : quiet.

Ltac quiet_step :=
  match goal with
  | |- quiet (bind _ _) => apply quiet_bind; [|intros]
  | |- quiet (for_each _ _) => apply quiet_for_each; intros
  | |- quiet (if ?b then _ else _) => destruct b
  | |- quiet (match ?x with _ => _ end) => destruct x
  | |- quiet _ => solve [auto with quiet]
  end.

Ltac quiet := repeat quiet_step.

Lemma quiet_print_entry rt i inp : quiet (print_entry rt i inp).
Proof. unfold print_entry. quiet. Qed.

Lemma quiet_print_listing rt key title noun data :
  quiet (print_listing rt key title noun data).
Proof. unfold print_listing. quiet. apply quiet_print_entry. Qed.

Lemma quiet_party_entity party : quiet (party_entity party).
Proof. unfold party_entity. quiet. Qed.

Lemma quiet_print_party rt label party : quiet (print_party rt label party).
Proof. unfold print_party. quiet. apply quiet_party_entity. Qed.

Lemma quiet_print_token rt token : quiet (print_token rt token).
Proof. unfold print_token. quiet; apply quiet_print_party. Qed.

Lemma quiet_print_tokens rt data : quiet (print_tokens rt data).
Proof. unfold print_tokens. quiet. apply quiet_print_token. Qed.

Lemma quiet_check_contract rt side inp : quiet (check_contract rt side inp).
Proof. unfold check_contract. quiet. Qed.

Lemma quiet_scan_entries rt side found l : quiet (scan_entries rt side found l).
Proof.
  revert found. induction l as [|x l IH]; intros found; cbn [scan_entries].
  - apply quiet_ret.
  - apply quiet_bind; [apply quiet_check_contract|intros; apply IH].
Qed.

Lemma quiet_scan_side rt key side found data :
  quiet (scan_side rt key side found data).
Proof. unfold scan_side. quiet. apply quiet_scan_entries. Qed.

Lemma quiet_print_contract_analysis rt data :
  quiet (print_contract_analysis rt data).
Proof. unfold print_contract_analysis. quiet; apply quiet_scan_side. Qed.

Lemma quiet_print_transaction_head rt data :
  quiet (print_transaction_head rt data).
Proof. unfold print_transaction_head. quiet. Qed.

Lemma quiet_print_transaction_details rt data :
  quiet (print_transaction_details rt data).
Proof.
  unfold print_transaction_details. quiet;
    auto using quiet_print_transaction_head, quiet_print_listing,
      quiet_print_tokens, quiet_print_contract_analysis.
Qed.

Lemma quiet_print_transaction_summary rt tx :
  quiet (print_transaction_summary rt tx).
Proof. unfold print_transaction_summary. quiet. Qed.

Lemma quiet_print_address_stats rt data : quiet (print_address_stats rt data).
Proof. unfold print_address_stats. quiet. Qed.

End QuietFacts.

(** ** The client, the lookups and [main] *)

Module ApiFacts.
Import Json Py Fmt Clock Report Api PyFacts ReportFacts QuietFacts.

Lemma result_bind_print {B} s (k : unit -> M B) :
  result (bind (print s) k) = result (k tt).
Proof. rewrite bind_print. reflexivity. Qed.

Lemma fmt_grouped_numeric rt v :
  numeric v = true -> exists s, fmt_grouped rt v = ret s.
Proof. destruct v; try discriminate; intros _; eexists; reflexivity. Qed.

Lemma fmt_fixed_numeric rt p v :
  numeric v = true -> exists s, fmt_fixed rt p v = ret s.
Proof. destruct v; try discriminate; intros _; eexists; reflexivity. Qed.

Lemma slice_str_sliceable rt n v :
  sliceable v = true -> exists s, slice_str rt n v = ret s.
Proof. destruct v; try discriminate; intros _; eexists; reflexivity. Qed.

Ltac run_model :=
  repeat
    (first
       [ rewrite bind_ret
       | rewrite result_bind_print
       | match goal with
         | Hn : numeric ?v = true |- context [bind (fmt_grouped ?rt ?v) _] =>
             let s := fresh "s" in
             destruct (fmt_grouped_numeric rt v Hn) as [s ->]
         | Hn : numeric ?v = true |- context [bind (fmt_fixed ?rt ?p ?v) _] =>
             let s := fresh "s" in
             destruct (fmt_fixed_numeric rt p v Hn) as [s ->]
         | Hn : sliceable ?v = true |- context [bind (slice_str ?rt ?n ?v) _] =>
             let s := fresh "s" in
             destruct (slice_str_sliceable rt n v Hn) as [s ->]
         end ];
     cbv beta).

Lemma summary_summarizable rt tx :
  summarizable tx = true -> result (print_transaction_summary rt tx) = Done tt.
Proof.
  unfold summarizable, print_transaction_summary.
  destruct tx; try discriminate. cbv zeta. intros H.
  repeat (apply andb_true_iff in H as [H ?]).
  cbn [get]. run_model. reflexivity.
Qed.

(** *** The HTTP client *)

Lemma make_api_request_unfold rt srv method endpoint token data :
  method = GET \/ method = POST ->
  make_api_request rt srv method endpoint token data
  = (Http (request_of method endpoint token data)
       :: trace (handle_reply rt (srv (request_of method endpoint token data))),
     result (handle_reply rt (srv (request_of method endpoint token data)))).
Proof.
  intros [-> | ->]; unfold make_api_request, send;
    rewrite bind_done_pair; reflexivity.
Qed.

Lemma handle_reply_not_ok rt status body text :
  status <> 200 ->
  handle_reply rt (Response status body text)
  = ([Print (http_error_line rt status body text)], Exit 1).
Proof.
  intros H. unfold handle_reply.
  replace (status =? 200) with false by (symmetry; apply Z.eqb_neq; exact H).
  reflexivity.
Qed.

Lemma handle_reply_ok rt body text :
  handle_reply rt (Response 200 (Some body) text) = ret body.
Proof. reflexivity. Qed.

Lemma quiet_handle_reply rt r : quiet (handle_reply rt r).
Proof. unfold handle_reply. quiet. Qed.

(** A call answered with a status other than 200 prints the error body and
    asks for exit status 1. *)
Lemma make_api_request_not_ok rt srv method endpoint token data status body text :
  method = GET \/ method = POST ->
  srv (request_of method endpoint token data) = Response status body text ->
  status <> 200 ->
  make_api_request rt srv method endpoint token data
  = ([Http (request_of method endpoint token data);
      Print (http_error_line rt status body text)],
     Exit 1).
Proof.
  intros Hm Hr Hs. rewrite make_api_request_unfold by exact Hm.
  rewrite Hr, handle_reply_not_ok by exact Hs. reflexivity.
Qed.

(** *** The lookup by hash *)

Lemma result_catch_lookup rt c : result (catch_lookup rt c) = Done tt.
Proof. destruct c as [t [[]| |]]; reflexivity. Qed.

Lemma hash_lookup_returns rt srv currency tx_hash token :
  result (check_transaction_by_hash rt srv currency tx_hash token) = Done tt.
Proof.
  unfold check_transaction_by_hash.
  rewrite !result_bind_print. apply result_catch_lookup.
Qed.

Lemma hash_lookup_not_ok rt srv currency tx_hash token status body text :
  srv (request_of GET (transaction_endpoint currency tx_hash) token VNone)
  = Response status body text ->
  status <> 200 ->
  check_transaction_by_hash rt srv currency tx_hash token
  = ([Print (nl ++ "🔍 Verifica transazione: " ++ tx_hash);
      Print ("   Currency: " ++ upper_string currency ++ nl);
      Http (request_of GET (transaction_endpoint currency tx_hash) token VNone);
      Print (http_error_line rt status body text)],
     Done tt).
Proof.
  intros Hr Hs. unfold check_transaction_by_hash.
  rewrite (make_api_request_not_ok _ _ _ _ _ _ _ _ _ (or_introl eq_refl) Hr Hs).
  reflexivity.
Qed.

(** *** The lookup by address *)

Lemma quiet_render_stats rt stats : quiet (render_stats rt stats).
Proof. unfold render_stats. quiet. apply quiet_print_address_stats. Qed.

Lemma quiet_print_numbered_summary rt p : quiet (print_numbered_summary rt p).
Proof. unfold print_numbered_summary. quiet. apply quiet_print_transaction_summary. Qed.

Lemma quiet_render_transactions rt tx_result :
  quiet (render_transactions rt tx_result).
Proof. unfold render_transactions. quiet. apply quiet_print_numbered_summary. Qed.

Lemma list_transactions_unfold rt srv currency address token :
  let post_req :=
    request_of POST (transactions_endpoint currency address) token tx_data in
  let answer := bind (handle_reply rt (srv post_req)) (render_transactions rt) in
  list_transactions rt srv currency address token
  = (Print closing_rule :: Print "📋 Ultime transazioni (prime 5):"
       :: Print (rule ++ nl) :: Http post_req :: trace answer,
     result answer).
Proof.
  cbv zeta. unfold list_transactions.
  rewrite !bind_print. cbv beta.
  rewrite make_api_request_unfold by (right; reflexivity).
  cbn [trace result fst snd].
  set (r := handle_reply rt _).
  rewrite !trace_bind, !result_bind. cbn [trace result fst snd].
  destruct (result r); reflexivity.
Qed.

Lemma requests_list_transactions rt srv currency address token :
  requests (trace (list_transactions rt srv currency address token))
  = [request_of POST (transactions_endpoint currency address) token tx_data].
Proof.
  rewrite list_transactions_unfold. cbn [trace fst requests flat_map app].
  f_equal. apply quiet_bind; [apply quiet_handle_reply|].
  intros a. apply quiet_render_transactions.
Qed.

Lemma address_lookup_unfold rt srv currency address token :
  let get_req := request_of GET (stats_endpoint currency address) token VNone in
  let rest :=
    bind (handle_reply rt (srv get_req)) (fun stats =>
    bind (render_stats rt stats) (fun _ =>
    list_transactions rt srv currency address token)) in
  check_transaction_by_address rt srv currency address token
  = (Print (nl ++ "🔍 Verifica indirizzo: " ++ address)
       :: Print ("   Currency: " ++ upper_string currency ++ nl)
       :: Http get_req :: trace rest,
     result rest).
Proof.
  cbv zeta. unfold check_transaction_by_address.
  rewrite !bind_print. cbv beta.
  rewrite make_api_request_unfold by (left; reflexivity).
  cbn [trace result fst snd].
  set (r := handle_reply rt _).
  rewrite !trace_bind, !result_bind. cbn [trace result fst snd].
  destruct (result r); reflexivity.
Qed.

(** The calls of an address lookup: the stats request, then the
    transactions request when the first was answered and its rendering
    completed. *)
Lemma address_lookup_requests rt srv currency address token :
  let get_req := request_of GET (stats_endpoint currency address) token VNone in
  let post_req :=
    request_of POST (transactions_endpoint currency address) token tx_data in
  requests (trace (check_transaction_by_address rt srv currency address token))
  = get_req
      :: match result (handle_reply rt (srv get_req)) with
         | Done stats =>
             match result (render_stats rt stats) with
             | Done _ => [post_req]
             | _ => []
             end
         | _ => []
         end.
Proof.
  cbv zeta. rewrite address_lookup_unfold.
  cbn [trace fst requests flat_map app]. f_equal.
  change (flat_map _ ?t) with (requests t).
  rewrite trace_bind.
  pose proof (quiet_handle_reply rt
    (srv (request_of GET (stats_endpoint currency address) token VNone))) as Hq.
  destruct (result (handle_reply rt _)) as [stats| |]; try exact Hq.
  rewrite requests_app, Hq. cbn [app]. rewrite trace_bind.
  pose proof (quiet_render_stats rt stats) as Hs.
  destruct (result (render_stats rt stats)); try exact Hs.
  rewrite requests_app, Hs. apply requests_list_transactions.
Qed.

(** *** The rendering of the transactions of an address *)

Lemma render_transactions_true rt kv txs pg :
  truthy (lookup_or "status" VNone kv) = true ->
  lookup_or "data" (VList []) kv = VList txs ->
  lookup_or "pagination" (VDict []) kv = VDict pg ->
  render_transactions rt (VDict kv)
  = (Print (total_line rt (lookup_or "total_entries" (VInt 0) pg))
       :: trace (for_each (enumerate 1 (firstn 5 txs)) (print_numbered_summary rt)),
     result (for_each (enumerate 1 (firstn 5 txs)) (print_numbered_summary rt))).
Proof.
  intros Hs Hd Hp. unfold render_transactions.
  cbn [get]. rewrite bind_ret, Hs. rewrite bind_ret, Hd.
  cbn [slice_items]. rewrite bind_ret, bind_ret, Hp.
  cbn [get]. rewrite bind_ret, bind_print. reflexivity.
Qed.

Lemma numbered_summary_summarizable rt start txs :
  forallb summarizable txs = true ->
  Forall (fun p => result (print_numbered_summary rt p) = Done tt)
    (enumerate start txs).
Proof.
  revert start. induction txs as [|tx txs IH]; intros start H; cbn [enumerate].
  - constructor.
  - cbn [forallb] in H. apply andb_true_iff in H as [Hx Hl].
    constructor; [|apply IH; exact Hl].
    unfold print_numbered_summary. rewrite result_bind_print.
    cbn [snd]. rewrite result_bind, (summary_summarizable rt tx Hx).
    reflexivity.
Qed.

(** *** [main] *)

Lemma main_lookup rt h a cred key :
  xorb (is_set (arg_hash a)) (is_set (arg_address a)) = true ->
  get_api_credentials h = ret cred ->
  b64decode rt (snd cred) = Some key ->
  let token := jwt_encode rt (fst cred) (token_expiry rt (clock_us h)) key in
  let lookup :=
    if is_set (arg_hash a)
    then check_transaction_by_hash rt (remote h)
           (currency_name (arg_currency a)) (text_of (arg_hash a)) token
    else check_transaction_by_address rt (remote h)
           (currency_name (arg_currency a)) (text_of (arg_address a)) token in
  main rt h a
  = (Print "🔐 Autenticazione..."
       :: Print ("✅ Token generato con successo" ++ nl) :: trace lookup,
     result lookup).
Proof.
  intros Hx Hc Hk. cbv zeta. unfold main.
  destruct (is_set (arg_hash a)) eqn:Eh; destruct (is_set (arg_address a)) eqn:Ea;
    try discriminate; cbn [negb andb];
    rewrite bind_print; cbv beta; rewrite Hc, bind_ret;
    unfold generate_jwt_token; rewrite Hk; cbn [jwt_payload kid exp];
    rewrite bind_ret, bind_print; reflexivity.
Qed.

End ApiFacts.


(** The same answer in address mode ends the process with exit status 1. *)
Example address_lookup_error_exits_one :
  Api.run (Py.sample_runtime (Clock.fixed_zone 0))
    (Api.sample_host (Api.always Api.not_found)) (Api.address_args "bc1qa")
  = ([ Py.Print "🔐 Autenticazione...";
       Py.Print ("✅ Token generato con successo" ++ Report.nl);
       Py.Print (Report.nl ++ "🔍 Verifica indirizzo: bc1qa");
       Py.Print ("   Currency: BTC" ++ Report.nl);
       Py.Http
         (Api.request_of Py.GET (Api.stats_endpoint "btc" "bc1qa")
            "key-1" Json.VNone);
       Py.Print "❌ Errore HTTP 404: {...}" ],
     1).
Proof. vm_compute. reflexivity. Qed.

(** C4, at the failing input.  In address mode, stats whose balance is
    [null] make the formatting of the balance raise [TypeError]; nothing
    catches it: the lookup ends with the exception, no line reports it and
    the process ends with exit status 1. *)
Theorem C4_address_lookup_error_propagates :
  Py.result
    (Api.check_transaction_by_address (Py.sample_runtime (Clock.fixed_zone 0))
       (Api.always
          (Api.ok
             (Json.VDict
                [("status", Json.VBool true);
                 ("data",
                  Json.VDict
                    [("address", Json.VStr "bc1qa");
                     ("balance", Json.VDict [("balance", Json.VNone)])])])))
       "btc" "bc1qa" "token")
  = Py.Raise Py.TypeError
  /\ snd (Api.run (Py.sample_runtime (Clock.fixed_zone 0))
            (Api.sample_host
               (Api.always
                  (Api.ok
                     (Json.VDict
                        [("status", Json.VBool true);
                         ("data",
                          Json.VDict
                            [("address", Json.VStr "bc1qa");
                             ("balance",
                              Json.VDict [("balance", Json.VNone)])])]))))
            (Api.address_args "bc1qa"))
     = 1
  /\ List.last
       (Py.printed
          (Py.trace
             (Api.check_transaction_by_address
                (Py.sample_runtime (Clock.fixed_zone 0))
                (Api.always
                   (Api.ok
                      (Json.VDict
                         [("status", Json.VBool true);
                          ("data",
                           Json.VDict
                             [("address", Json.VStr "bc1qa");
                              ("balance",
                               Json.VDict [("balance", Json.VNone)])])])))
                "btc" "bc1qa" "token")))
       ""
     = Report.nl ++ "💰 Balance:".
Proof. vm_compute. repeat split; reflexivity. Qed.

(** In hash mode the same kind of error is caught and printed. *)
Example hash_lookup_error_caught :
  Api.check_transaction_by_hash (Py.sample_runtime (Clock.fixed_zone 0))
    (Api.always
       (Api.ok
          (Json.VDict
             [("status", Json.VBool true);
              ("data", Json.VDict [("currency", Json.VNone)])])))
    "btc" "ab12" "token"
  = ([ Py.Print (Report.nl ++ "🔍 Verifica transazione: ab12");
       Py.Print ("   Currency: BTC" ++ Report.nl);
       Py.Http
         (Api.request_of Py.GET (Api.transaction_endpoint "btc" "ab12")
            "token" Json.VNone);
       Py.Print Report.rule; Py.Print "📄 DETTAGLI TRANSAZIONE";
       Py.Print Report.rule; Py.Print (Report.nl ++ "🔹 Hash: N/A");
       Py.Print "🔹 Status: ⏳ In attesa";
       Py.Print "❌ Errore imprevisto: error" ],
     Py.Done tt).
Proof. vm_compute. reflexivity. Qed.

(** ** The address lookup *)

Module AddressFacts.
Import Json Py Fmt Clock Report Api PyFacts ReportFacts QuietFacts ApiFacts.

Lemma address_calls_prefix rt srv currency address token :
  let get_req := request_of GET (stats_endpoint currency address) token VNone in
  let post_req :=
    request_of POST (transactions_endpoint currency address) token tx_data in
  let c := check_transaction_by_address rt srv currency address token in
  requests (trace c) = [get_req] \/ requests (trace c) = [get_req; post_req].
Proof.
  cbv zeta. rewrite address_lookup_requests.
  destruct (result (handle_reply rt _)) as [stats| |]; auto.
  destruct (result (render_stats rt stats)); auto.
Qed.

Lemma address_calls_both rt srv currency address token stats text :
  let get_req := request_of GET (stats_endpoint currency address) token VNone in
  let post_req :=
    request_of POST (transactions_endpoint currency address) token tx_data in
  srv get_req = Response 200 (Some stats) text ->
  result (render_stats rt stats) = Done tt ->
  requests (trace (check_transaction_by_address rt srv currency address token))
  = [get_req; post_req].
Proof.
  cbv zeta. intros Hg Hs. rewrite address_lookup_requests, Hg.
  rewrite handle_reply_ok. cbn [result ret snd]. rewrite Hs. reflexivity.
Qed.

(** When both calls are answered with status 200 the lookup ends with the
    rendering of the transactions. *)
Lemma address_lookup_ends_with_transactions
    rt srv currency address token stats text tx_result text' :
  let get_req := request_of GET (stats_endpoint currency address) token VNone in
  let post_req :=
    request_of POST (transactions_endpoint currency address) token tx_data in
  let c := check_transaction_by_address rt srv currency address token in
  srv get_req = Response 200 (Some stats) text ->
  result (render_stats rt stats) = Done tt ->
  srv post_req = Response 200 (Some tx_result) text' ->
  trace c
  = ([Print (nl ++ "🔍 Verifica indirizzo: " ++ address);
      Print ("   Currency: " ++ upper_string currency ++ nl); Http get_req]
     ++ trace (render_stats rt stats)
     ++ [Print closing_rule; Print "📋 Ultime transazioni (prime 5):";
         Print (rule ++ nl); Http post_req]
     ++ trace (render_transactions rt tx_result))%list
  /\ result c = result (render_transactions rt tx_result).
Proof.
  cbv zeta. intros Hg Hs Hp. rewrite address_lookup_unfold. cbv zeta.
  rewrite Hg, handle_reply_ok, bind_ret.
  rewrite trace_bind, result_bind, Hs.
  rewrite list_transactions_unfold. cbv zeta.
  rewrite Hp, handle_reply_ok, bind_ret.
  cbn [trace result fst snd app]. split; reflexivity.
Qed.

Lemma render_stats_false rt skv :
  truthy (lookup_or "status" VNone skv) = false ->
  render_stats rt (VDict skv) = ret tt.
Proof.
  intros H. unfold render_stats. cbn [get]. rewrite bind_ret, H. reflexivity.
Qed.

(** Stats answered with status 200 and a falsy [status] field: nothing is
    printed for them and the transactions are asked for. *)
Lemma address_lookup_stats_false rt srv currency address token skv text :
  let get_req := request_of GET (stats_endpoint currency address) token VNone in
  let post_req :=
    request_of POST (transactions_endpoint currency address) token tx_data in
  let answer := bind (handle_reply rt (srv post_req)) (render_transactions rt) in
  srv get_req = Response 200 (Some (VDict skv)) text ->
  truthy (lookup_or "status" VNone skv) = false ->
  check_transaction_by_address rt srv currency address token
  = (Print (nl ++ "🔍 Verifica indirizzo: " ++ address)
       :: Print ("   Currency: " ++ upper_string currency ++ nl)
       :: Http get_req
       :: Print closing_rule :: Print "📋 Ultime transazioni (prime 5):"
       :: Print (rule ++ nl) :: Http post_req :: trace answer,
     result answer).
Proof.
  cbv zeta. intros Hg Hs. rewrite address_lookup_unfold. cbv zeta.
  rewrite Hg, handle_reply_ok, bind_ret.
  rewrite (render_stats_false rt skv Hs), bind_ret.
  rewrite list_transactions_unfold. reflexivity.
Qed.

Lemma transactions_rendered rt kv txs pg :
  truthy (lookup_or "status" VNone kv) = true ->
  lookup_or "data" (VList []) kv = VList txs ->
  lookup_or "pagination" (VDict []) kv = VDict pg ->
  let r := render_transactions rt (VDict kv) in
  let shown := enumerate 1 (firstn 5 txs) in
  (forallb summarizable (firstn 5 txs) = true -> result r = Done tt)
  /\ (result r = Done tt ->
      printed (trace r)
      = total_line rt (lookup_or "total_entries" (VInt 0) pg)
          :: flat_map (fun p => printed (trace (print_numbered_summary rt p)))
               shown)
  /\ List.length shown = Nat.min (List.length txs) 5.
Proof.
  intros Hs Hd Hp r shown. subst r.
  rewrite (render_transactions_true rt kv txs pg Hs Hd Hp).
  cbn [trace result fst snd]. fold shown. split; [|split].
  - intros H. apply for_each_all_done.
    apply numbered_summary_summarizable. exact H.
  - intros H. destruct (for_each_done _ _ H) as [_ ->].
    cbn [printed flat_map app]. f_equal.
    change (flat_map _ ?t) with (printed t) at 1.
    clear. induction shown as [|p l IH]; [reflexivity|].
    cbn [flat_map]. rewrite printed_app, IH. reflexivity.
  - unfold shown. rewrite enumerate_length, length_firstn.
    apply Nat.min_comm.
Qed.

End AddressFacts.

(** ** The process: exit status of a lookup *)

Module ProcessFacts.
Import Json Py Fmt Clock Report Api PyFacts ReportFacts QuietFacts ApiFacts
  AddressFacts.

Lemma run_hash rt h a token :
  ready rt h token ->
  is_set (arg_hash a) = true -> is_set (arg_address a) = false ->
  let lookup :=
    check_transaction_by_hash rt (remote h) (currency_name (arg_currency a))
      (text_of (arg_hash a)) token in
  run rt h a = ((preamble ++ trace lookup)%list, exit_status (result lookup)).
Proof.
  intros (cred & key & Hc & Hk & Ht) Hh Ha. cbv zeta. unfold run.
  rewrite (main_lookup rt h a cred key) by (rewrite ?Hh, ?Ha; auto).
  cbv zeta. rewrite Hh, Ht. reflexivity.
Qed.

Lemma run_address rt h a token :
  ready rt h token ->
  is_set (arg_hash a) = false -> is_set (arg_address a) = true ->
  let lookup :=
    check_transaction_by_address rt (remote h) (currency_name (arg_currency a))
      (text_of (arg_address a)) token in
  run rt h a = ((preamble ++ trace lookup)%list, exit_status (result lookup)).
Proof.
  intros (cred & key & Hc & Hk & Ht) Hh Ha. cbv zeta. unfold run.
  rewrite (main_lookup rt h a cred key) by (rewrite ?Hh, ?Ha; auto).
  cbv zeta. rewrite Hh, Ht. reflexivity.
Qed.

Lemma address_lookup_stats_not_ok rt srv currency address token status body text :
  let get_req := request_of GET (stats_endpoint currency address) token VNone in
  srv get_req = Response status body text ->
  status <> 200 ->
  check_transaction_by_address rt srv currency address token
  = ([Print (nl ++ "🔍 Verifica indirizzo: " ++ address);
      Print ("   Currency: " ++ upper_string currency ++ nl);
      Http get_req; Print (http_error_line rt status body text)],
     Exit 1).
Proof.
  cbv zeta. intros Hg Hs. rewrite address_lookup_unfold. cbv zeta.
  rewrite Hg, handle_reply_not_ok by exact Hs. reflexivity.
Qed.

Lemma address_lookup_transactions_not_ok
    rt srv currency address token stats text0 status body text :
  let get_req := request_of GET (stats_endpoint currency address) token VNone in
  let post_req :=
    request_of POST (transactions_endpoint currency address) token tx_data in
  srv get_req = Response 200 (Some stats) text0 ->
  result (render_stats rt stats) = Done tt ->
  srv post_req = Response status body text ->
  status <> 200 ->
  check_transaction_by_address rt srv currency address token
  = (([Print (nl ++ "🔍 Verifica indirizzo: " ++ address);
       Print ("   Currency: " ++ upper_string currency ++ nl); Http get_req]
      ++ trace (render_stats rt stats)
      ++ [Print closing_rule; Print "📋 Ultime transazioni (prime 5):";
          Print (rule ++ nl); Http post_req;
          Print (http_error_line rt status body text)])%list,
     Exit 1).
Proof.
  cbv zeta. intros Hg Hr Hp Hs. rewrite address_lookup_unfold. cbv zeta.
  rewrite Hg, handle_reply_ok, bind_ret.
  rewrite trace_bind, result_bind, Hr.
  rewrite list_transactions_unfold. cbv zeta.
  rewrite Hp, handle_reply_not_ok by exact Hs.
  reflexivity.
Qed.

End ProcessFacts.






(** The scenario of the specification: seven transactions and a total of
    42 show the total and five summaries. *)
Example seven_transactions_show_five :
  let tx := Json.VDict [("hash", Json.VStr "ab12")] in
  let r :=
    Api.render_transactions (Py.sample_runtime (Clock.fixed_zone 0))
      (Json.VDict
         [("status", Json.VBool true);
          ("data", Json.VList [tx; tx; tx; tx; tx; tx; tx]);
          ("pagination", Json.VDict [("total_entries", Json.VInt 42)])]) in
  List.hd "" (Py.printed (Py.trace r)) = "Totale transazioni: 42" ++ Report.nl
  /\ List.filter (Text.startswith "--- Transazione") (Py.printed (Py.trace r))
     = [ "--- Transazione 1 ---"; "--- Transazione 2 ---";
         "--- Transazione 3 ---"; "--- Transazione 4 ---";
         "--- Transazione 5 ---" ]
  /\ Py.result r = Py.Done tt.
Proof. vm_compute. repeat split; reflexivity. Qed.



(* ===================================================================== *)
(** * Further properties of the code *)
(* ===================================================================== *)

(** ** The loader *)

Module LoaderFacts.
Import Text TextFacts Env EnvFacts.

Lemma load_lines_app_other lines more k :
  Forall (fun l => forall k' v', parse_line l = Some (k', v') -> k' <> k) more ->
  load_lines (lines ++ more) !! k = load_lines lines !! k.
Proof.
  induction more as [|line more IH] using rev_ind; intros H.
  - rewrite app_nil_r. reflexivity.
  - apply Forall_app in H as [Hmore Hline].
    apply Forall_inv in Hline.
    rewrite app_assoc, load_lines_snoc.
    destruct (parse_line line) as [[k' v']|] eqn:E; [|apply IH, Hmore].
    rewrite lookup_insert_ne by (apply (Hline k' v' eq_refl)).
    apply IH, Hmore.
Qed.

(** Every binding of the result was read from a line of the file. *)
Lemma load_lines_provenance lines k v :
  load_lines lines !! k = Some v ->
  exists line, In line lines /\ parse_line line = Some (k, v).
Proof.
  induction lines as [|line lines IH] using rev_ind.
  - unfold load_lines. cbn [fold_left]. rewrite lookup_empty. discriminate.
  - rewrite load_lines_snoc.
    destruct (parse_line line) as [[k' v']|] eqn:E.
    + destruct (decide (k' = k)) as [->|Hne].
      * rewrite lookup_insert_eq. intros [= ->].
        exists line. split; [apply in_or_app; right; left; reflexivity|exact E].
      * rewrite lookup_insert_ne by exact Hne. intros H.
        destruct (IH H) as (l & Hin & Hl). exists l.
        split; [apply in_or_app; left; exact Hin|exact Hl].
    + intros H. destruct (IH H) as (l & Hin & Hl). exists l.
      split; [apply in_or_app; left; exact Hin|exact Hl].
Qed.

Lemma lstrip_head s c r : lstrip s = String c r -> is_space c = false.
Proof.
  induction s as [|x s IH]; [discriminate|].
  cbn [lstrip]. destruct (is_space x) eqn:E; [exact IH|].
  intros [= <- <-]. exact E.
Qed.

Lemma rstrip_head c r :
  is_space c = false -> exists r', rstrip (String c r) = String c r'.
Proof.
  intros Hc. cbn [rstrip]. destruct (rstrip r) as [|y r'].
  - rewrite Hc. eauto.
  - eauto.
Qed.

Lemma rstrip_last_nonspace s d :
  last_char (rstrip s) = Some d -> is_space d = false.
Proof.
  induction s as [|c s IH]; [discriminate|].
  cbn [rstrip]. destruct (rstrip s) as [|y r'] eqn:E.
  - destruct (is_space c) eqn:Hc; [discriminate|].
    intros [= <-]. exact Hc.
  - rewrite last_char_cons. destruct (last_char (String y r')) as [e|] eqn:El.
    + intros [= <-]. apply IH. reflexivity.
    + apply last_char_none in El. discriminate.
Qed.

(** What [strip] returns has no whitespace at either end. *)
Lemma strip_is_tight s : tight (strip s) = true.
Proof.
  unfold strip. destruct (lstrip s) as [|c r] eqn:E; [reflexivity|].
  pose proof (lstrip_head _ _ _ E) as Hc.
  destruct (rstrip_head c r Hc) as [r' Hr].
  pose proof (rstrip_last_nonspace (String c r)) as Hl.
  rewrite Hr in *. unfold tight. rewrite Hc. cbn [negb andb].
  destruct (last_char (String c r')) as [d|]; [|reflexivity].
  rewrite (Hl d eq_refl). reflexivity.
Qed.

Lemma contains_char_remove_from c old n s :
  contains_char c (remove_from old n s) = true -> contains_char c s = true.
Proof.
  revert n. induction s as [|x s IH]; intros n; [discriminate|].
  cbn [remove_from contains_char]. destruct n as [|n].
  - destruct (startswith old (String x s)).
    + intros H. rewrite (IH _ H). apply orb_true_r.
    + cbn [contains_char]. intros H. apply orb_true_iff in H as [H|H].
      * rewrite H. reflexivity.
      * rewrite (IH _ H). apply orb_true_r.
  - intros H. rewrite (IH _ H). apply orb_true_r.
Qed.

Lemma split_once_left c sep s a b :
  split_once sep s = Some (a, b) ->
  contains_char c a = true -> contains_char c s = true.
Proof.
  revert a b. induction s as [|x s IH]; intros a b; [discriminate|].
  cbn [split_once]. destruct (Ascii.eqb sep x).
  - intros [= <- <-]. discriminate.
  - destruct (split_once sep s) as [[a' b']|]; [|discriminate].
    intros [= <- <-]. cbn [contains_char]. intros H.
    apply orb_true_iff in H as [H|H].
    + rewrite H. reflexivity.
    + rewrite (IH a' b' eq_refl H). apply orb_true_r.
Qed.

Lemma parse_line_key raw k v :
  parse_line raw = Some (k, v) ->
  tight k = true /\ contains_char "=" k = false.
Proof.
  intros H. destruct (parse_line_fields raw k v H) as (sep & a & b & Hs & Hsp & -> & _).
  split; [apply strip_is_tight|].
  rewrite contains_char_strip by reflexivity.
  unfold separator_of in Hs.
  destruct (contains_char "=" (strip raw)) eqn:He.
  - injection Hs as <-. apply (split_once_key _ _ _ _ Hsp).
  - destruct (contains_char "=" a) eqn:Ha; [|reflexivity].
    apply (split_once_left "=" _ _ _ _ Hsp) in Ha.
    rewrite contains_char_strip in Ha by reflexivity.
    apply contains_char_remove_from in Ha. congruence.
Qed.

Lemma parse_no_separator raw :
  contains_char "=" raw = false -> contains_char ":" raw = false ->
  parse_line raw = None.
Proof.
  intros He Hc. unfold parse_line. cbv zeta.
  destruct (_ || _); [reflexivity|].
  unfold separator_of.
  rewrite !contains_char_strip, He, Hc by reflexivity. reflexivity.
Qed.

Lemma unquote_quoted q v : q <> Bare -> unquote (quote_with q v) = v.
Proof.
  intros Hq. destruct q; [contradiction| |]; unfold unquote, quote_with.
  - change (startswith (String dquote "") (String squote (v ++ String squote "")))
      with false.
    cbn [andb].
    change (startswith (String squote "") (String squote (v ++ String squote "")))
      with true.
    unfold endswith_char.
    change (String squote (v ++ String squote ""))
      with (String squote v ++ String squote "") at 1.
    rewrite last_char_app by discriminate. cbn [last_char andb].
    rewrite Ascii.eqb_refl. cbn [slice_1_m1]. apply drop_last_snoc.
  - change (startswith (String dquote "") (String dquote (v ++ String dquote "")))
      with true.
    unfold endswith_char.
    change (String dquote (v ++ String dquote ""))
      with (String dquote v ++ String dquote "") at 1.
    rewrite last_char_app by discriminate. cbn [last_char andb].
    rewrite Ascii.eqb_refl. cbn [slice_1_m1]. apply drop_last_snoc.
Qed.

Lemma unquote_bare v :
  startswith (String dquote "") v = false ->
  startswith (String squote "") v = false ->
  unquote v = v.
Proof. intros H1 H2. unfold unquote. rewrite H1, H2. reflexivity. Qed.

Lemma quote_with_tight q v :
  all_chars nonspace v = true -> all_chars nonspace (quote_with q v) = true.
Proof.
  intros Hv. destruct q; unfold quote_with; [exact Hv| |];
    cbn [all_chars]; rewrite all_chars_app, Hv; reflexivity.
Qed.

Lemma parse_equals_line ws1 ws2 (ex : bool) k q v :
  blank ws1 = true -> blank ws2 = true ->
  plain k = true -> all_chars nonspace v = true ->
  startswith "#" k = false ->
  unquote (quote_with q v) = v ->
  parse_line (config_line ws1 ex k "=" q v ws2) = Some (k, v).
Proof.
  intros H1 H2 Hk Hv Hh Hq.
  assert (Hcore : all_chars nonspace (k ++ String "=" (quote_with q v)) = true).
  { rewrite all_chars_app. cbn [all_chars].
    rewrite (plain_nonspace _ Hk), (quote_with_tight q _ Hv). reflexivity. }
  set (core := k ++ String "=" (quote_with q v)) in *.
  assert (Hne : core <> "").
  { unfold core. destruct k; discriminate. }
  assert (Hbody : tight ((if ex then "export " else "") ++ core) = true).
  { destruct ex; [|apply nonspace_tight, Hcore].
    unfold tight. rewrite !append_cons. cbn [negb is_space andb].
    change (String "e" (String "x" (String "p" (String "o" (String "r"
              (String "t" (String " " ("" ++ core))))))))
      with ("export " ++ core).
    rewrite last_char_app by exact Hne.
    destruct (last_char core) as [d|] eqn:E; [|reflexivity].
    apply (all_chars_last _ _ _ Hcore E). }
  unfold parse_line, config_line. cbv zeta. fold core.
  rewrite strip_padded by assumption.
  assert (Hlen : (String.length ((if ex then "export " else "") ++ core) =? 0)%nat = false).
  { destruct ex; [reflexivity|]. destruct core; [contradiction|reflexivity]. }
  assert (Hcomment : startswith "#" ((if ex then "export " else "") ++ core) = false).
  { destruct ex; [reflexivity|]. unfold core.
    destruct k as [|c k]; [reflexivity|].
    rewrite append_cons. cbn [startswith] in *. exact Hh. }
  rewrite Hlen, Hcomment. cbn [orb].
  assert (Hsep : separator_of ((if ex then "export " else "") ++ core) = Some "="%char).
  { unfold separator_of, core. rewrite !contains_char_app. cbn [contains_char].
    rewrite Ascii.eqb_refl. cbn [orb]. rewrite !orb_true_r. reflexivity. }
  rewrite Hsep.
  assert (Hrm : remove_all "export " ((if ex then "export " else "") ++ core) = core).
  { destruct ex; [rewrite remove_all_leading|];
      apply remove_all_no_blank, nonspace_no_blank, Hcore. }
  rewrite Hrm, (strip_tight core) by (apply nonspace_tight, Hcore).
  unfold core. rewrite split_once_app.
  - rewrite (strip_tight k) by (apply nonspace_tight, plain_nonspace, Hk).
    rewrite strip_tight by (apply nonspace_tight, quote_with_tight, Hv).
    rewrite Hq. reflexivity.
  - apply plain_no; [reflexivity|exact Hk].
Qed.

End LoaderFacts.

(** X1.  The binding of a key after [load_env_file] is that of the last
    line of the file that binds it: a line that binds [k] to [v], followed
    only by lines that bind other keys or none, leaves [k] bound to [v],
    whatever came before.  And every binding of the result was read from
    a line of the file. *)
Theorem X1_last_line_of_key_wins :
  (forall before line after k v,
     Env.parse_line line = Some (k, v) ->
     Forall (fun l => forall k' v', Env.parse_line l = Some (k', v') -> k' <> k)
       after ->
     Env.load_lines (before ++ line :: after) !! k = Some v)
  /\ (forall lines k v,
        Env.load_lines lines !! k = Some v ->
        exists line, In line lines /\ Env.parse_line line = Some (k, v)).
Proof.
  split.
  - intros before line after k v Hline Hafter.
    change (before ++ line :: after)%list with (before ++ [line] ++ after)%list.
    rewrite app_assoc, (LoaderFacts.load_lines_app_other _ _ _ Hafter).
    apply load_lines_last_wins, Hline.
  - apply LoaderFacts.load_lines_provenance.
Qed.

Lemma X1_last_line_of_key_wins_witness :
  Env.load_lines
    (["CAUDENA_KID=old"; "# rotated"] ++ "CAUDENA_KID=new" :: ["CAUDENA_SECRET=c2Vj"])
    !! "CAUDENA_KID" = Some "new".
Proof.
  apply (proj1 X1_last_line_of_key_wins ["CAUDENA_KID=old"; "# rotated"]
           "CAUDENA_KID=new" ["CAUDENA_SECRET=c2Vj"] "CAUDENA_KID" "new").
  - vm_compute. reflexivity.
  - repeat constructor. intros k' v' H. vm_compute in H.
    injection H as <- _. discriminate.
Defined.

(** X2.  A line that holds neither [=] nor [:] adds no binding, and a file
    made of such lines only yields the empty dictionary, as a file that
    does not exist does. *)
Theorem X2_lines_without_separator :
  forall fs path lines,
    fs path = Some lines ->
    Forall (fun l => Text.contains_char "=" l = false
                     /\ Text.contains_char ":" l = false) lines ->
    Forall (fun l => Env.parse_line l = None) lines
    /\ Env.load_env_file fs path = ∅.
Proof.
  intros fs path lines Hp H.
  assert (Hnone : Forall (fun l => Env.parse_line l = None) lines).
  { eapply Forall_impl; [|exact H]. intros l [He Hc].
    apply LoaderFacts.parse_no_separator; assumption. }
  split; [exact Hnone|].
  unfold Env.load_env_file. rewrite Hp. clear H Hp.
  induction lines as [|line lines IH] using rev_ind; [reflexivity|].
  apply Forall_app in Hnone as [Hl Hline]. apply Forall_inv in Hline.
  rewrite load_lines_skipped by exact Hline. apply IH, Hl.
Qed.

Lemma X2_lines_without_separator_witness :
  Forall (fun l => Env.parse_line l = None) ["CAUDENA_KID abc123"; "just a note"]
  /\ Env.load_env_file (fun _ => Some ["CAUDENA_KID abc123"; "just a note"]) ".env"
     = ∅.
Proof.
  apply (X2_lines_without_separator
           (fun _ => Some ["CAUDENA_KID abc123"; "just a note"]) ".env"
           ["CAUDENA_KID abc123"; "just a note"]).
  - reflexivity.
  - repeat constructor.
Defined.

(** X3.  Every key that [load_env_file] stores has no whitespace at either
    end and holds no [=]. *)
Theorem X3_loaded_keys_are_trimmed :
  forall fs path k v,
    Env.load_env_file fs path !! k = Some v ->
    Text.tight k = true /\ Text.contains_char "=" k = false.
Proof.
  intros fs path k v. unfold Env.load_env_file.
  destruct (fs path) as [lines|]; [|rewrite lookup_empty; discriminate].
  intros H. apply LoaderFacts.load_lines_provenance in H as (line & _ & Hl).
  apply (LoaderFacts.parse_line_key _ _ _ Hl).
Qed.

Lemma X3_loaded_keys_are_trimmed_witness :
  Text.tight "KID" = true /\ Text.contains_char "=" "KID" = false.
Proof.
  apply (X3_loaded_keys_are_trimmed
           (fun _ => Some ["  export KID : 'abc'  "]) ".env" "KID" "abc").
  vm_compute. reflexivity.
Defined.



(** ** The credentials *)

Module CredentialFacts.
Import Json Py Fmt Clock Report Api PyFacts.

Lemma is_set_text v : is_set v = true -> text_of v <> "".
Proof. destruct v as [[|c s]|]; cbn; intros H; congruence. Qed.

Lemma or_else_set a b : is_set a = true -> or_else a b = a.
Proof. intros H. unfold or_else. rewrite H. reflexivity. Qed.

(** How [get_api_credentials] ends. *)
Lemma credentials_cases h :
  (exists identifier secret,
     get_api_credentials h = ret (identifier, secret)
     /\ identifier <> "" /\ secret <> "")
  \/ get_api_credentials h
     = (map Print ("❌ Errore: CAUDENA_KID non trovato" :: credential_help), Exit 1)
  \/ get_api_credentials h
     = (map Print ("❌ Errore: CAUDENA_SECRET non trovato" :: credential_help),
        Exit 1).
Proof.
  unfold get_api_credentials. cbv zeta.
  set (identifier := or_else (getenv h "CAUDENA_KID") _).
  set (secret := or_else (getenv h "CAUDENA_SECRET") _).
  destruct (is_set identifier) eqn:Ei; cbn [negb].
  - destruct (is_set secret) eqn:Es; cbn [negb].
    + left. exists (text_of identifier), (text_of secret).
      split; [reflexivity|]. split; apply is_set_text; assumption.
    + right. right. reflexivity.
  - right. left. reflexivity.
Qed.

Lemma find_env_first fs a rest lines :
  fs a = Some lines -> Env.load_lines lines <> ∅ ->
  find_env fs (a :: rest) ∅ = Env.load_lines lines.
Proof.
  intros Ha Hne. cbn [find_env]. rewrite Ha.
  destruct (decide (Env.load_lines lines = ∅)); [contradiction|reflexivity].
Qed.

Lemma find_env_skip fs a rest :
  Env.load_env_file fs a = ∅ ->
  find_env fs (a :: rest) ∅ = find_env fs rest ∅.
Proof.
  unfold Env.load_env_file. intros H. cbn [find_env].
  destruct (fs a) as [lines|]; [|reflexivity].
  rewrite H. destruct (decide (∅ = ∅)) as [_|n]; [reflexivity|].
  exfalso. apply n. reflexivity.
Qed.

(** The credentials depend on the files through the dictionary of the
    loop of lines 58 to 62 only. *)
Lemma credentials_ext h h' :
  (forall name, getenv h name = getenv h' name) ->
  find_env (fs h) [".env"; ".env.local"; script_env h] ∅
  = find_env (fs h') [".env"; ".env.local"; script_env h'] ∅ ->
  get_api_credentials h = get_api_credentials h'.
Proof.
  intros Hg Hf. unfold get_api_credentials. cbv zeta.
  rewrite Hf, !Hg. reflexivity.
Qed.

End CredentialFacts.




(** X7.  The files are not merged: the first of [.env], [.env.local] and
    the [.env] next to the script that exists and yields a binding is the
    only one used.  Once [.env] yields a binding, the credentials do not
    depend on the other two files; and when [.env] yields none and
    [.env.local] yields one, they do not depend on the third. *)
Theorem X7_first_file_with_a_binding_wins :
  forall h h' : Api.host,
    (forall name, Api.getenv h name = Api.getenv h' name) ->
    Api.fs h ".env" = Api.fs h' ".env" ->
    (Env.load_env_file (Api.fs h) ".env" <> ∅ ->
     Api.get_api_credentials h = Api.get_api_credentials h')
    /\ (Env.load_env_file (Api.fs h) ".env" = ∅ ->
        Api.fs h ".env.local" = Api.fs h' ".env.local" ->
        Env.load_env_file (Api.fs h) ".env.local" <> ∅ ->
        Api.get_api_credentials h = Api.get_api_credentials h').
Proof.
  intros h h' Hg Hf. split.
  - intros Hne. apply CredentialFacts.credentials_ext; [exact Hg|].
    unfold Env.load_env_file in Hne.
    destruct (Api.fs h ".env") as [lines|] eqn:E; [|contradiction Hne; reflexivity].
    rewrite (CredentialFacts.find_env_first _ _ _ lines E Hne).
    symmetry in Hf.
    rewrite (CredentialFacts.find_env_first _ _ _ lines Hf Hne). reflexivity.
  - intros He Hf2 Hne. apply CredentialFacts.credentials_ext; [exact Hg|].
    assert (He' : Env.load_env_file (Api.fs h') ".env" = ∅).
    { unfold Env.load_env_file in *. rewrite <- Hf. exact He. }
    rewrite (CredentialFacts.find_env_skip _ _ _ He),
            (CredentialFacts.find_env_skip _ _ _ He').
    unfold Env.load_env_file in Hne.
    destruct (Api.fs h ".env.local") as [lines|] eqn:E;
      [|contradiction Hne; reflexivity].
    rewrite (CredentialFacts.find_env_first _ _ _ lines E Hne).
    symmetry in Hf2.
    rewrite (CredentialFacts.find_env_first _ _ _ lines Hf2 Hne). reflexivity.
Qed.

Lemma X7_first_file_with_a_binding_wins_witness :
  Api.get_api_credentials
    (Api.mk_host (fun _ => None)
       (fun path =>
          if String.eqb path ".env" then Some ["LOG_LEVEL=debug"]
          else Some ["CAUDENA_KID=key-1"; "CAUDENA_SECRET=c2VjcmV0"])
       "/opt/tool/.env" 0 (Api.always Api.not_found))
  = Api.get_api_credentials
      (Api.mk_host (fun _ => None)
         (fun path => if String.eqb path ".env" then Some ["LOG_LEVEL=debug"] else None)
         "/opt/tool/.env" 0 (Api.always Api.not_found)).
Proof.
  apply (proj1 (X7_first_file_with_a_binding_wins
                  (Api.mk_host (fun _ => None)
                     (fun path =>
                        if String.eqb path ".env" then Some ["LOG_LEVEL=debug"]
                        else Some ["CAUDENA_KID=key-1"; "CAUDENA_SECRET=c2VjcmV0"])
                     "/opt/tool/.env" 0 (Api.always Api.not_found))
                  (Api.mk_host (fun _ => None)
                     (fun path =>
                        if String.eqb path ".env" then Some ["LOG_LEVEL=debug"]
                        else None)
                     "/opt/tool/.env" 0 (Api.always Api.not_found))
                  (fun _ => eq_refl) eq_refl)).
  intros H. apply (f_equal (fun m => m !! "LOG_LEVEL")) in H.
  vm_compute in H. discriminate H.
Defined.

(** ** The printers do not exit *)

Module ExitFacts.
Import Json Py Fmt Clock Report Api PyFacts.

Lemma no_exit_ret {A} (a : A) : no_exit (ret a).
Proof. intros code. discriminate. Qed.

Lemma no_exit_raise {A} (e : exn) : no_exit (@raise A e).
Proof. intros code. discriminate. Qed.

Lemma no_exit_print s : no_exit (print s).
Proof. intros code. discriminate. Qed.

Lemma no_exit_bind {A B} (c : M A) (k : A -> M B) :
  no_exit c -> (forall a, no_exit (k a)) -> no_exit (bind c k).
Proof.
  unfold no_exit. intros Hc Hk code. rewrite result_bind.
  destruct (result c) as [a|code'|e] eqn:E.
  - apply Hk.
  - exfalso. apply (Hc code'). reflexivity.
  - discriminate.
Qed.

Lemma no_exit_for_each {A} (l : list A) (body : A -> M unit) :
  (forall x, no_exit (body x)) -> no_exit (for_each l body).
Proof.
  intros H. induction l as [|x l IH]; cbn [for_each].
  - apply no_exit_ret.
  - apply no_exit_bind; [apply H|intros _; exact IH].
Qed.

Lemma no_exit_get v k d : no_exit (get v k d).
Proof. destruct v; intros code; discriminate. Qed.

Lemma no_exit_upper v : no_exit (upper v).
Proof. destruct v; intros code; discriminate. Qed.

Lemma no_exit_len v : no_exit (len v).
Proof. destruct v; intros code; discriminate. Qed.

Lemma no_exit_lt_four v : no_exit (lt_four v).
Proof. destruct v; intros code; discriminate. Qed.

Lemma no_exit_items v : no_exit (items v).
Proof. destruct v; intros code; discriminate. Qed.

Lemma no_exit_slice_items n v : no_exit (slice_items n v).
Proof. destruct v; intros code; discriminate. Qed.

Lemma no_exit_slice_str rt n v : no_exit (slice_str rt n v).
Proof. destruct v; intros code; discriminate. Qed.

Lemma no_exit_fmt_grouped rt v : no_exit (fmt_grouped rt v).
Proof. destruct v; intros code; discriminate. Qed.

Lemma no_exit_fmt_fixed rt p v : no_exit (fmt_fixed rt p v).
Proof. destruct v; intros code; discriminate. Qed.

Lemma no_exit_present v k : no_exit (present v k).
Proof.
  destruct v; try (intros code; discriminate).
  cbn. destruct (assoc k kv); intros code; discriminate.
Qed.

Create HintDb no_exit.
#[export] Hint Resolve no_exit_ret no_exit_raise no_exit_print no_exit_get
  no_exit_upper no_exit_len no_exit_lt_four no_exit_items no_exit_slice_items
  no_exit_slice_str no_exit_fmt_grouped no_exit_fmt_fixed no_exit_present
  : no_exit.

Ltac no_exit_step :=
  match goal with
  | |- no_exit (bind _ _) => apply no_exit_bind; [|intros]
  | |- no_exit (for_each _ _) => apply no_exit_for_each; intros
  | |- no_exit (if ?b then _ else _) => destruct b
  | |- no_exit (match ?x with _ => _ end) => destruct x
  | |- no_exit _ => solve [auto with no_exit]
  end.

Ltac no_exit := repeat no_exit_step.

Lemma no_exit_print_entry rt i inp : no_exit (print_entry rt i inp).
Proof. unfold print_entry. no_exit. Qed.

Lemma no_exit_print_listing rt key title noun data :
  no_exit (print_listing rt key title noun data).
Proof. unfold print_listing. no_exit. apply no_exit_print_entry. Qed.

Lemma no_exit_party_entity party : no_exit (party_entity party).
Proof. unfold party_entity. no_exit. Qed.

Lemma no_exit_print_party rt label party : no_exit (print_party rt label party).
Proof. unfold print_party. no_exit. apply no_exit_party_entity. Qed.

Lemma no_exit_print_token rt token : no_exit (print_token rt token).
Proof. unfold print_token. no_exit; apply no_exit_print_party. Qed.

Lemma no_exit_print_tokens rt data : no_exit (print_tokens rt data).
Proof. unfold print_tokens. no_exit. apply no_exit_print_token. Qed.

Lemma no_exit_check_contract rt side inp : no_exit (check_contract rt side inp).
Proof. unfold check_contract. no_exit. Qed.

Lemma no_exit_scan_entries rt side found l :
  no_exit (scan_entries rt side found l).
Proof.
  revert found. induction l as [|x l IH]; intros found; cbn [scan_entries].
  - apply no_exit_ret.
  - apply no_exit_bind; [apply no_exit_check_contract|intros; apply IH].
Qed.

Lemma no_exit_scan_side rt key side found data :
  no_exit (scan_side rt key side found data).
Proof. unfold scan_side. no_exit. apply no_exit_scan_entries. Qed.

Lemma no_exit_print_contract_analysis rt data :
  no_exit (print_contract_analysis rt data).
Proof. unfold print_contract_analysis. no_exit; apply no_exit_scan_side. Qed.

Lemma no_exit_print_transaction_head rt data :
  no_exit (print_transaction_head rt data).
Proof. unfold print_transaction_head. no_exit. Qed.

Lemma no_exit_print_transaction_details rt data :
  no_exit (print_transaction_details rt data).
Proof.
  unfold print_transaction_details. no_exit;
    auto using no_exit_print_transaction_head, no_exit_print_listing,
      no_exit_print_tokens, no_exit_print_contract_analysis.
Qed.

Lemma no_exit_print_transaction_summary rt tx :
  no_exit (print_transaction_summary rt tx).
Proof. unfold print_transaction_summary. no_exit. Qed.

Lemma no_exit_print_address_stats rt data : no_exit (print_address_stats rt data).
Proof. unfold print_address_stats. no_exit. Qed.

Lemma no_exit_render_stats rt stats : no_exit (render_stats rt stats).
Proof. unfold render_stats. no_exit. apply no_exit_print_address_stats. Qed.

Lemma no_exit_render_transactions rt tx_result :
  no_exit (render_transactions rt tx_result).
Proof.
  unfold render_transactions. no_exit. unfold print_numbered_summary.
  no_exit. apply no_exit_print_transaction_summary.
Qed.

Lemma no_exit_exits_one {A} (c : M A) : no_exit c -> exits_one c.
Proof. intros H code E. exfalso. apply (H code E). Qed.

Lemma exits_one_bind {A B} (c : M A) (k : A -> M B) :
  exits_one c -> (forall a, exits_one (k a)) -> exits_one (bind c k).
Proof.
  unfold exits_one. intros Hc Hk code. rewrite result_bind.
  destruct (result c) as [a|code'|e] eqn:E.
  - apply Hk.
  - intros [= <-]. apply Hc. reflexivity.
  - discriminate.
Qed.

Lemma exits_one_handle_reply rt r : exits_one (handle_reply rt r).
Proof.
  intros code. destruct r as [status body text|msg]; cbn.
  - destruct (negb (status =? 200)); cbn; [intros [= <-]; reflexivity|].
    destruct body; cbn; [discriminate|].
    destruct (json_error_is_request_exception rt); cbn;
      [intros [= <-]; reflexivity|discriminate].
  - intros [= <-]. reflexivity.
Qed.

Lemma exits_one_make_api_request rt srv method endpoint token data :
  exits_one (make_api_request rt srv method endpoint token data).
Proof.
  destruct method; [| |intros code; discriminate];
    (rewrite ApiFacts.make_api_request_unfold by auto);
    apply exits_one_handle_reply.
Qed.

Lemma exits_one_address_lookup rt srv currency address token :
  exits_one (check_transaction_by_address rt srv currency address token).
Proof.
  unfold check_transaction_by_address.
  apply exits_one_bind; [apply no_exit_exits_one, no_exit_print|intros _].
  apply exits_one_bind; [apply no_exit_exits_one, no_exit_print|intros _].
  apply exits_one_bind; [apply exits_one_make_api_request|intros stats].
  apply exits_one_bind; [apply no_exit_exits_one, no_exit_render_stats|intros _].
  unfold list_transactions.
  do 3 (apply exits_one_bind; [apply no_exit_exits_one, no_exit_print|intros _]).
  apply exits_one_bind; [apply exits_one_make_api_request|intros txs].
  apply no_exit_exits_one, no_exit_render_transactions.
Qed.

End ExitFacts.

(** ** The process *)

Module RunFacts.
Import Json Py Fmt Clock Report Api PyFacts QuietFacts ApiFacts.

Lemma requests_catch_lookup rt c :
  requests (trace (catch_lookup rt c)) = requests (trace c).
Proof.
  destruct c as [t [[]| |]]; cbn [catch_lookup trace fst]; try reflexivity.
  rewrite requests_app. cbn. apply app_nil_r.
Qed.

(** The one call of a lookup by hash. *)
Lemma hash_lookup_requests rt srv currency tx_hash token :
  requests (trace (check_transaction_by_hash rt srv currency tx_hash token))
  = [request_of GET (transaction_endpoint currency tx_hash) token VNone].
Proof.
  unfold check_transaction_by_hash. rewrite !bind_print. cbv beta zeta.
  cbn [trace fst requests flat_map app].
  change (flat_map _ ?t) with (requests t).
  rewrite requests_catch_lookup, trace_bind.
  rewrite make_api_request_unfold by (left; reflexivity).
  cbn [trace result fst snd].
  pose proof (quiet_handle_reply rt
    (srv (request_of GET (transaction_endpoint currency tx_hash) token VNone)))
    as Hq.
  set (r := handle_reply rt _) in *.
  assert (Hk : forall result0 : value,
             quiet (let* st := get result0 "status" VNone in
                    if truthy st
                    then let* data := get result0 "data" (VDict []) in
                         if truthy data
                         then print_transaction_details rt data
                         else print "❌ Nessun dato nella risposta" ;;
                              print ("   Risposta completa: " ++ py_str rt result0)
                    else print "❌ Transazione non trovata o errore nella risposta" ;;
                         print ("   Risposta: " ++ py_str rt result0))%py).
  { intros result0. quiet. apply quiet_print_transaction_details. }
  destruct (result r) as [j| |].
  - cbn [requests flat_map app]. change (flat_map _ ?t) with (requests t).
    rewrite requests_app, Hq, (Hk j). reflexivity.
  - cbn [requests flat_map app]. change (flat_map _ ?t) with (requests t).
    rewrite Hq. reflexivity.
  - cbn [requests flat_map app]. change (flat_map _ ?t) with (requests t).
    rewrite Hq. reflexivity.
Qed.

Lemma main_usage rt h a :
  is_set (arg_hash a) = is_set (arg_address a) ->
  exists msg, main rt h a = ([Stderr msg], Exit 2).
Proof.
  intros H. unfold main. rewrite H.
  destruct (is_set (arg_address a)); cbn [negb andb]; eexists; reflexivity.
Qed.

(** [main] up to the lookup. *)
Lemma main_unfold rt h a :
  xorb (is_set (arg_hash a)) (is_set (arg_address a)) = true ->
  main rt h a
  = (print "🔐 Autenticazione..." ;;
     let* cred := get_api_credentials h in
     let* token := generate_jwt_token rt (clock_us h) (fst cred) (snd cred) in
     print ("✅ Token generato con successo" ++ nl) ;;
     if is_set (arg_hash a)
     then check_transaction_by_hash rt (remote h)
            (currency_name (arg_currency a)) (text_of (arg_hash a)) token
     else check_transaction_by_address rt (remote h)
            (currency_name (arg_currency a)) (text_of (arg_address a)) token)%py.
Proof.
  intros Hx. unfold main.
  destruct (is_set (arg_hash a)) eqn:Eh; destruct (is_set (arg_address a)) eqn:Ea;
    try discriminate; reflexivity.
Qed.

Lemma main_no_credentials rt h a t :
  xorb (is_set (arg_hash a)) (is_set (arg_address a)) = true ->
  get_api_credentials h = (t, Exit 1) ->
  main rt h a = (Print "🔐 Autenticazione..." :: t, Exit 1).
Proof.
  intros Hx Hc. rewrite main_unfold by exact Hx.
  rewrite bind_print. cbv beta. rewrite Hc. reflexivity.
Qed.

Lemma main_bad_secret rt h a cred :
  xorb (is_set (arg_hash a)) (is_set (arg_address a)) = true ->
  get_api_credentials h = ret cred ->
  b64decode rt (snd cred) = None ->
  main rt h a
  = ([Print "🔐 Autenticazione...";
      Print ("❌ Errore nel decodificare il secret: " ++ exn_str rt ValueError)],
     Exit 1).
Proof.
  intros Hx Hc Hk. rewrite main_unfold by exact Hx.
  rewrite bind_print. cbv beta. rewrite Hc, bind_ret.
  unfold generate_jwt_token. rewrite Hk. reflexivity.
Qed.

(** Either a token is made, or [main] ends with exit status 1 before any
    call. *)
Lemma main_token_or_exit rt h a :
  xorb (is_set (arg_hash a)) (is_set (arg_address a)) = true ->
  (exists token, ready rt h token)
  \/ (result (main rt h a) = Exit 1 /\ requests (trace (main rt h a)) = []).
Proof.
  intros Hx.
  destruct (CredentialFacts.credentials_cases h) as [(i & s & Hc & _)|[Hc|Hc]].
  - destruct (b64decode rt s) as [key|] eqn:Ek.
    + left. exists (jwt_encode rt i (token_expiry rt (clock_us h)) key).
      exists (i, s), key. auto.
    + right. rewrite (main_bad_secret rt h a (i, s) Hx Hc Ek). split; reflexivity.
  - right. rewrite (main_no_credentials rt h a _ Hx Hc). split; reflexivity.
  - right. rewrite (main_no_credentials rt h a _ Hx Hc). split; reflexivity.
Qed.

Lemma ready_unique rt h token token' :
  ready rt h token -> ready rt h token' -> token = token'.
Proof.
  intros (c & k & Hc & Hk & <-) (c' & k' & Hc' & Hk' & <-).
  rewrite Hc in Hc'. injection Hc' as <-. congruence.
Qed.

(** [main] once a token is made. *)
Lemma main_ready rt h a token :
  xorb (is_set (arg_hash a)) (is_set (arg_address a)) = true ->
  ready rt h token ->
  let lookup :=
    if is_set (arg_hash a)
    then check_transaction_by_hash rt (remote h)
           (currency_name (arg_currency a)) (text_of (arg_hash a)) token
    else check_transaction_by_address rt (remote h)
           (currency_name (arg_currency a)) (text_of (arg_address a)) token in
  main rt h a = ((preamble ++ trace lookup)%list, result lookup).
Proof.
  intros Hx (cred & key & Hc & Hk & <-). cbv zeta.
  rewrite (main_lookup rt h a cred key Hx Hc Hk). reflexivity.
Qed.

End RunFacts.



(** X9.  No request is sent without a token: when the credentials are not
    found, or the secret does not decode, the process ends with exit
    status 1 and has made no HTTP call. *)
Theorem X9_no_token_no_request :
  forall (rt : Py.runtime) (h : Api.host) (a : Api.args),
    xorb (Api.is_set (Api.arg_hash a)) (Api.is_set (Api.arg_address a)) = true ->
    (forall token, ~ Api.ready rt h token) ->
    snd (Api.run rt h a) = 1
    /\ Py.requests (fst (Api.run rt h a)) = []
    /\ Py.printed (firstn 1 (fst (Api.run rt h a))) = ["🔐 Autenticazione..."].
Proof.
  intros rt h a Hx Hno. unfold Api.run. cbn [fst snd].
  destruct (CredentialFacts.credentials_cases h) as [(i & s & Hc & _)|[Hc|Hc]].
  - destruct (Py.b64decode rt s) as [key|] eqn:Ek.
    + exfalso.
      apply (Hno (Py.jwt_encode rt i (Clock.token_expiry rt (Api.clock_us h)) key)).
      exists (i, s), key. auto.
    + rewrite (RunFacts.main_bad_secret rt h a (i, s) Hx Hc Ek).
      repeat split; reflexivity.
  - rewrite (RunFacts.main_no_credentials rt h a _ Hx Hc). repeat split; reflexivity.
  - rewrite (RunFacts.main_no_credentials rt h a _ Hx Hc). repeat split; reflexivity.
Qed.

Lemma X9_no_token_no_request_witness :
  snd (Api.run (Py.sample_runtime (Clock.fixed_zone 0))
         (Api.mk_host (fun _ => None) (fun _ => None) "/opt/tool/.env" 0
            (Api.always Api.not_found))
         (Api.hash_args "ab12")) = 1
  /\ Py.requests
       (fst (Api.run (Py.sample_runtime (Clock.fixed_zone 0))
               (Api.mk_host (fun _ => None) (fun _ => None) "/opt/tool/.env" 0
                  (Api.always Api.not_found))
               (Api.hash_args "ab12"))) = []
  /\ Py.printed
       (firstn 1
          (fst (Api.run (Py.sample_runtime (Clock.fixed_zone 0))
                  (Api.mk_host (fun _ => None) (fun _ => None) "/opt/tool/.env" 0
                     (Api.always Api.not_found))
                  (Api.hash_args "ab12")))) = ["🔐 Autenticazione..."].
Proof.
  apply X9_no_token_no_request.
  - reflexivity.
  - intros token (cred & key & Hc & _). vm_compute in Hc. discriminate Hc.
Defined.

(** X10.  Every request the process sends carries the token made from the
    credentials as bearer, goes to the base URL of the API with a time-out
    of 30 seconds, and is either a [GET] without body or the [POST] of the
    paging parameters. *)
Theorem X10_requests_carry_the_token :
  forall (rt : Py.runtime) (h : Api.host) (a : Api.args) (r : Py.request),
    In r (Py.requests (fst (Api.run rt h a))) ->
    exists token,
      Api.ready rt h token
      /\ Py.req_headers r
         = ("Authorization", "Bearer " ++ token) :: ("Accept", "application/json")
           :: match Py.req_method r with
              | Py.POST => [("Content-Type", "application/json")]
              | _ => []
              end
      /\ Text.startswith Api.API_BASE_URL (Py.req_url r) = true
      /\ Py.req_timeout r = 30
      /\ ((Py.req_method r = Py.GET /\ Py.req_json r = None)
          \/ (Py.req_method r = Py.POST /\ Py.req_json r = Some Api.tx_data)).
Proof.
  intros rt h a r.
  change (fst (Api.run rt h a)) with (Py.trace (Api.main rt h a)).
  destruct (Api.is_set (Api.arg_hash a)) eqn:Eh;
    destruct (Api.is_set (Api.arg_address a)) eqn:Ea.
  - destruct (RunFacts.main_usage rt h a) as [msg ->]; [congruence|].
    intros [].
  - assert (Hx : xorb (Api.is_set (Api.arg_hash a))
                   (Api.is_set (Api.arg_address a)) = true)
      by (rewrite Eh, Ea; reflexivity).
    destruct (RunFacts.main_token_or_exit rt h a Hx) as [[token Hr]|[_ Hq]];
      [|rewrite Hq; intros []].
    rewrite (RunFacts.main_ready rt h a token Hx Hr). cbv zeta. rewrite Eh.
    cbn [Py.trace fst]. rewrite PyFacts.requests_app. cbn [Api.preamble Py.requests flat_map app].
    change (flat_map _ ?t) with (Py.requests t).
    rewrite RunFacts.hash_lookup_requests.
    intros [<-|[]]. exists token. split; [exact Hr|].
    repeat split. left. split; reflexivity.
  - assert (Hx : xorb (Api.is_set (Api.arg_hash a))
                   (Api.is_set (Api.arg_address a)) = true)
      by (rewrite Eh, Ea; reflexivity).
    destruct (RunFacts.main_token_or_exit rt h a Hx) as [[token Hr]|[_ Hq]];
      [|rewrite Hq; intros []].
    rewrite (RunFacts.main_ready rt h a token Hx Hr). cbv zeta. rewrite Eh.
    cbn [Py.trace fst]. rewrite PyFacts.requests_app. cbn [Api.preamble Py.requests flat_map app].
    change (flat_map _ ?t) with (Py.requests t).
    destruct (AddressFacts.address_calls_prefix rt (Api.remote h)
                (Api.currency_name (Api.arg_currency a))
                (Api.text_of (Api.arg_address a)) token) as [-> | ->].
    + intros [<-|[]]. exists token. split; [exact Hr|].
      repeat split. left. split; reflexivity.
    + intros [<-|[<-|[]]]; exists token; (split; [exact Hr|]); repeat split.
      * left. split; reflexivity.
      * right. split; reflexivity.
  - destruct (RunFacts.main_usage rt h a) as [msg ->]; [congruence|].
    intros [].
Qed.

Lemma X10_requests_carry_the_token_witness :
  exists token,
    Api.ready (Py.sample_runtime (Clock.fixed_zone 0))
      (Api.sample_host (Api.always Api.not_found)) token
    /\ Py.req_headers
         (Api.request_of Py.GET (Api.stats_endpoint "btc" "bc1qa") "key-1" Json.VNone)
       = [("Authorization", "Bearer " ++ token); ("Accept", "application/json")]
    /\ Text.startswith Api.API_BASE_URL
         (Py.req_url
            (Api.request_of Py.GET (Api.stats_endpoint "btc" "bc1qa") "key-1"
               Json.VNone)) = true
    /\ Py.req_timeout
         (Api.request_of Py.GET (Api.stats_endpoint "btc" "bc1qa") "key-1" Json.VNone)
       = 30
    /\ ((Py.req_method
           (Api.request_of Py.GET (Api.stats_endpoint "btc" "bc1qa") "key-1"
              Json.VNone) = Py.GET
         /\ Py.req_json
              (Api.request_of Py.GET (Api.stats_endpoint "btc" "bc1qa") "key-1"
                 Json.VNone) = None)
        \/ (Py.req_method
              (Api.request_of Py.GET (Api.stats_endpoint "btc" "bc1qa") "key-1"
                 Json.VNone) = Py.POST
            /\ Py.req_json
                 (Api.request_of Py.GET (Api.stats_endpoint "btc" "bc1qa") "key-1"
                    Json.VNone) = Some Api.tx_data)).
Proof.
  apply (X10_requests_carry_the_token (Py.sample_runtime (Clock.fixed_zone 0))
           (Api.sample_host (Api.always Api.not_found))
           (Api.address_args "bc1qa")).
  vm_compute. left. reflexivity.
Defined.

(** X11.  A lookup by hash never fails the process: once a token is made,
    the process sends exactly one request, the [GET] of the transaction,
    and ends with exit status 0 whatever the remote end answers. *)
Theorem X11_hash_mode_exits_zero :
  forall (rt : Py.runtime) (h : Api.host) (a : Api.args) token,
    Api.ready rt h token ->
    Api.is_set (Api.arg_hash a) = true ->
    Api.is_set (Api.arg_address a) = false ->
    snd (Api.run rt h a) = 0
    /\ Py.requests (fst (Api.run rt h a))
       = [Api.request_of Py.GET
            (Api.transaction_endpoint (Api.currency_name (Api.arg_currency a))
               (Api.text_of (Api.arg_hash a)))
            token Json.VNone].
Proof.
  intros rt h a token Hr Hh Ha.
  assert (Hx : xorb (Api.is_set (Api.arg_hash a))
                 (Api.is_set (Api.arg_address a)) = true)
    by (rewrite Hh, Ha; reflexivity).
  unfold Api.run. rewrite (RunFacts.main_ready rt h a token Hx Hr).
  cbv zeta. rewrite Hh. cbn [fst snd Py.trace Py.result]. split.
  - change (snd ?c) with (Py.result c).
    rewrite ApiFacts.hash_lookup_returns. reflexivity.
  - rewrite PyFacts.requests_app. cbn [Api.preamble Py.requests flat_map app].
    change (flat_map _ ?t) with (Py.requests t).
    apply RunFacts.hash_lookup_requests.
Qed.

Lemma X11_hash_mode_exits_zero_witness :
  snd (Api.run (Py.sample_runtime (Clock.fixed_zone 0))
         (Api.sample_host (Api.always (Py.TransportError "timed out")))
         (Api.hash_args "ab12")) = 0
  /\ Py.requests
       (fst (Api.run (Py.sample_runtime (Clock.fixed_zone 0))
               (Api.sample_host (Api.always (Py.TransportError "timed out")))
               (Api.hash_args "ab12")))
     = [Api.request_of Py.GET (Api.transaction_endpoint "btc" "ab12") "key-1"
          Json.VNone].
Proof.
  apply (X11_hash_mode_exits_zero (Py.sample_runtime (Clock.fixed_zone 0))
           (Api.sample_host (Api.always (Py.TransportError "timed out")))
           (Api.hash_args "ab12") "key-1").
  - exists ("key-1", "c2VjcmV0"), "c2VjcmV0". repeat split; reflexivity.
  - reflexivity.
  - reflexivity.
Defined.

(** ** The client and the lookup by hash *)

Module ClientFacts.
Import Json Py Fmt Clock Report Api PyFacts QuietFacts ApiFacts.

Lemma make_api_request_transport rt srv method endpoint token data msg :
  method = GET \/ method = POST ->
  srv (request_of method endpoint token data) = TransportError msg ->
  make_api_request rt srv method endpoint token data
  = ([Http (request_of method endpoint token data);
      Print ("❌ Errore nella richiesta: " ++ msg)],
     Exit 1).
Proof.
  intros Hm Hr. rewrite make_api_request_unfold by exact Hm.
  rewrite Hr. reflexivity.
Qed.

Lemma make_api_request_ok rt srv method endpoint token data body text :
  method = GET \/ method = POST ->
  srv (request_of method endpoint token data) = Response 200 (Some body) text ->
  make_api_request rt srv method endpoint token data
  = ([Http (request_of method endpoint token data)], Done body).
Proof.
  intros Hm Hr. rewrite make_api_request_unfold by exact Hm.
  rewrite Hr. reflexivity.
Qed.

Lemma hash_lookup_not_found rt srv currency tx_hash token kv text :
  srv (request_of GET (transaction_endpoint currency tx_hash) token VNone)
  = Response 200 (Some (VDict kv)) text ->
  truthy (lookup_or "status" VNone kv) = false ->
  check_transaction_by_hash rt srv currency tx_hash token
  = ([Print (nl ++ "🔍 Verifica transazione: " ++ tx_hash);
      Print ("   Currency: " ++ upper_string currency ++ nl);
      Http (request_of GET (transaction_endpoint currency tx_hash) token VNone);
      Print "❌ Transazione non trovata o errore nella risposta";
      Print ("   Risposta: " ++ py_str rt (VDict kv))],
     Done tt).
Proof.
  intros Hr Hs. unfold check_transaction_by_hash. cbv zeta.
  rewrite (make_api_request_ok _ _ _ _ _ _ _ _ (or_introl eq_refl) Hr).
  rewrite bind_done_pair. cbn [get]. rewrite bind_ret, Hs. reflexivity.
Qed.

Lemma hash_lookup_no_data rt srv currency tx_hash token kv text :
  srv (request_of GET (transaction_endpoint currency tx_hash) token VNone)
  = Response 200 (Some (VDict kv)) text ->
  truthy (lookup_or "status" VNone kv) = true ->
  truthy (lookup_or "data" (VDict []) kv) = false ->
  check_transaction_by_hash rt srv currency tx_hash token
  = ([Print (nl ++ "🔍 Verifica transazione: " ++ tx_hash);
      Print ("   Currency: " ++ upper_string currency ++ nl);
      Http (request_of GET (transaction_endpoint currency tx_hash) token VNone);
      Print "❌ Nessun dato nella risposta";
      Print ("   Risposta completa: " ++ py_str rt (VDict kv))],
     Done tt).
Proof.
  intros Hr Hs Hd. unfold check_transaction_by_hash. cbv zeta.
  rewrite (make_api_request_ok _ _ _ _ _ _ _ _ (or_introl eq_refl) Hr).
  rewrite bind_done_pair. cbn [get]. rewrite bind_ret, Hs, bind_ret, Hd.
  reflexivity.
Qed.

End ClientFacts.

(** X12.  [make_api_request] with [GET] or [POST] sends exactly one
    request, and returns normally only the parsed body of an answer with
    status 200, having printed nothing.  In every other case it prints one
    line and asks for exit status 1, except that on an answer with status
    200 whose body is not JSON it lets the [ValueError] pass when the HTTP
    library raises a plain one. *)
Theorem X12_api_request_outcomes :
  forall (rt : Py.runtime) (srv : Api.server) method endpoint token data,
    method = Py.GET \/ method = Py.POST ->
    let req := Api.request_of method endpoint token data in
    let c := Api.make_api_request rt srv method endpoint token data in
    Py.requests (Py.trace c) = [req]
    /\ (forall j, Py.result c = Py.Done j
                  <-> exists text, srv req = Py.Response 200 (Some j) text)
    /\ (forall j, Py.result c = Py.Done j -> Py.trace c = [Py.Http req])
    /\ ((forall j, Py.result c <> Py.Done j) ->
        (Py.result c = Py.Exit 1 /\ exists line, Py.printed (Py.trace c) = [line])
        \/ (Py.result c = Py.Raise Py.ValueError
            /\ Py.printed (Py.trace c) = []
            /\ Py.json_error_is_request_exception rt = false
            /\ exists text, srv req = Py.Response 200 None text)).
Proof.
  intros rt srv method endpoint token data Hm req c. unfold c.
  rewrite ApiFacts.make_api_request_unfold by exact Hm. fold req.
  cbn [Py.trace Py.result fst snd].
  destruct (srv req) as [status body text|msg]; cbn [Api.handle_reply].
  - destruct (status =? 200) eqn:Es; cbn [negb].
    + apply Z.eqb_eq in Es. subst status.
      destruct body as [j0|].
      * repeat split.
        -- intros [= <-]. eauto.
        -- intros [text' [= <-]]. reflexivity.
        -- intros H. exfalso. apply (H j0). reflexivity.
      * destruct (Py.json_error_is_request_exception rt); repeat split;
          try discriminate.
        -- intros [text' H]. discriminate H.
        -- intros _. left. split; [reflexivity|eauto].
        -- intros [text' H]. discriminate H.
        -- intros _. right. repeat split. eauto.
    + repeat split; try discriminate.
      * intros [text' [= -> _]]. discriminate Es.
      * intros _. left. split; [reflexivity|eauto].
  - repeat split; try discriminate.
    + intros [text' H]. discriminate H.
    + intros _. left. split; [reflexivity|eauto].
Qed.

Lemma X12_api_request_outcomes_witness :
  Py.requests
    (Py.trace
       (Api.make_api_request (Py.sample_runtime (Clock.fixed_zone 0))
          (Api.always (Api.ok (Json.VDict [("status", Json.VBool true)])))
          Py.POST "/v2/btc/address/transactions/bc1qa" "key-1" Api.tx_data))
  = [Api.request_of Py.POST "/v2/btc/address/transactions/bc1qa" "key-1"
       Api.tx_data].
Proof.
  apply (X12_api_request_outcomes (Py.sample_runtime (Clock.fixed_zone 0))
           (Api.always (Api.ok (Json.VDict [("status", Json.VBool true)])))
           Py.POST "/v2/btc/address/transactions/bc1qa" "key-1" Api.tx_data).
  right. reflexivity.
Defined.



(** X14.  In a lookup by hash, an answer with status 200 and a JSON object
    whose [status] is false or absent prints a not-found message and the
    answer itself; an answer whose [status] is true but whose [data] is
    empty or absent prints that no data came, and the answer.  In both
    cases no transaction detail is rendered and the lookup returns
    normally. *)
Theorem X14_hash_lookup_without_data :
  forall (rt : Py.runtime) (srv : Api.server) currency tx_hash token kv text,
    let req :=
      Api.request_of Py.GET (Api.transaction_endpoint currency tx_hash) token
        Json.VNone in
    let head :=
      [Py.Print (Report.nl ++ "🔍 Verifica transazione: " ++ tx_hash);
       Py.Print ("   Currency: " ++ Fmt.upper_string currency ++ Report.nl);
       Py.Http req] in
    srv req = Py.Response 200 (Some (Json.VDict kv)) text ->
    (Json.truthy (Json.lookup_or "status" Json.VNone kv) = false ->
     Api.check_transaction_by_hash rt srv currency tx_hash token
     = ((head
         ++ [Py.Print "❌ Transazione non trovata o errore nella risposta";
             Py.Print ("   Risposta: " ++ Fmt.py_str rt (Json.VDict kv))])%list,
        Py.Done tt))
    /\ (Json.truthy (Json.lookup_or "status" Json.VNone kv) = true ->
        Json.truthy (Json.lookup_or "data" (Json.VDict []) kv) = false ->
        Api.check_transaction_by_hash rt srv currency tx_hash token
        = ((head
            ++ [Py.Print "❌ Nessun dato nella risposta";
                Py.Print ("   Risposta completa: " ++ Fmt.py_str rt (Json.VDict kv))])%list,
           Py.Done tt)).
Proof.
  intros rt srv currency tx_hash token kv text req head Hr. split.
  - intros Hs. apply (ClientFacts.hash_lookup_not_found _ _ _ _ _ _ _ Hr Hs).
  - intros Hs Hd. apply (ClientFacts.hash_lookup_no_data _ _ _ _ _ _ _ Hr Hs Hd).
Qed.

Lemma X14_hash_lookup_without_data_witness :
  Api.check_transaction_by_hash (Py.sample_runtime (Clock.fixed_zone 0))
    (Api.always (Api.ok (Json.VDict [("status", Json.VBool false)])))
    "btc" "ab12" "key-1"
  = (([Py.Print (Report.nl ++ "🔍 Verifica transazione: ab12");
       Py.Print ("   Currency: BTC" ++ Report.nl);
       Py.Http
         (Api.request_of Py.GET (Api.transaction_endpoint "btc" "ab12") "key-1"
            Json.VNone)]
      ++ [Py.Print "❌ Transazione non trovata o errore nella risposta";
          Py.Print ("   Risposta: {...}")])%list,
     Py.Done tt).
Proof.
  refine (proj1 (X14_hash_lookup_without_data
                   (Py.sample_runtime (Clock.fixed_zone 0))
                   (Api.always (Api.ok (Json.VDict [("status", Json.VBool false)])))
                   "btc" "ab12" "key-1" [("status", Json.VBool false)] "{...}"
                   eq_refl) eq_refl).
Defined.

(** ** The printers on payloads that follow the data model *)

Module ModelFacts.
Import Json Py Fmt Clock Report PyFacts ReportFacts ScanFacts ApiFacts.

Lemma scan_side_entries rt key side found kv :
  scan_ok key kv = true ->
  scan_side rt key side found (VDict kv)
  = (map Print (warnings rt side (entries_of key kv)),
     Done (found || existsb suspicious (entries_of key kv))).
Proof.
  unfold scan_ok, entries_of, scan_side, present.
  destruct (assoc key kv) as [v|] eqn:E.
  - destruct (truthy v) eqn:Ht; cbn [negb orb].
    + destruct v; try discriminate. intros Hl.
      rewrite bind_ret. cbn [items]. rewrite bind_ret.
      apply scan_entries_all. exact Hl.
    + intros _. rewrite bind_ret.
      destruct v; try (cbn; rewrite orb_false_r; reflexivity).
      destruct l; [cbn; rewrite orb_false_r; reflexivity|discriminate Ht].
  - intros _. rewrite bind_ret. cbn. rewrite orb_false_r. reflexivity.
Qed.

Lemma contract_analysis_entries rt kv :
  scan_ok "inputs" kv = true -> scan_ok "outputs" kv = true ->
  print_contract_analysis rt (VDict kv)
  = (map Print
       (analysis_header
          :: warnings rt "Input" (entries_of "inputs" kv)
          ++ warnings rt "Output" (entries_of "outputs" kv)
          ++ (if existsb suspicious (entries_of "inputs" kv)
                 || existsb suspicious (entries_of "outputs" kv)
              then [] else [no_contract_line]))%list,
     Done tt).
Proof.
  intros Hi Ho. unfold print_contract_analysis.
  rewrite bind_print. cbv beta.
  rewrite (scan_side_entries _ _ _ _ _ Hi), bind_done_pair.
  cbn [trace result fst snd orb].
  rewrite (scan_side_entries _ _ _ _ _ Ho), bind_done_pair.
  cbn [trace result fst snd].
  destruct (existsb suspicious (entries_of "inputs" kv)
            || existsb suspicious (entries_of "outputs" kv));
    cbn [negb print ret trace result fst snd map];
    rewrite !map_app; reflexivity.
Qed.

Lemma warnings_length rt side l :
  List.length (warnings rt side l) = (2 * List.length (filter suspicious l))%nat.
Proof.
  unfold warnings. induction l as [|x l IH]; [reflexivity|].
  cbn [flat_map filter]. rewrite length_app, IH.
  destruct (suspicious x) eqn:E; [|reflexivity].
  destruct x; try discriminate E. cbn [warning_of contract_warning List.length].
  lia.
Qed.

End ModelFacts.

(** X15.  The contract analysis looks at every entry of the inputs and of
    the outputs, not only at the three that are listed.  When each entry is
    an object whose score, if the entry is flagged as a contract and the
    score is truthy, is a number, the analysis prints its header, then two
    lines for each entry that is flagged as a contract and has a truthy
    score below 4, inputs first and in order, and, exactly when there is no
    such entry, the line saying that no suspicious contract was found. *)
Theorem X15_contract_analysis_scans_every_entry :
  forall (rt : Py.runtime) kv,
    Report.scan_ok "inputs" kv = true ->
    Report.scan_ok "outputs" kv = true ->
    let ins := Report.entries_of "inputs" kv in
    let outs := Report.entries_of "outputs" kv in
    Report.print_contract_analysis rt (Json.VDict kv)
    = (map Py.Print
         (Report.analysis_header
            :: Report.warnings rt "Input" ins ++ Report.warnings rt "Output" outs
            ++ (if existsb Report.suspicious ins || existsb Report.suspicious outs
                then [] else [Report.no_contract_line]))%list,
       Py.Done tt)
    /\ List.length (Report.warnings rt "Input" ins)
       = (2 * List.length (filter Report.suspicious ins))%nat
    /\ List.length (Report.warnings rt "Output" outs)
       = (2 * List.length (filter Report.suspicious outs))%nat.
Proof.
  intros rt kv Hi Ho ins outs. split.
  - apply ModelFacts.contract_analysis_entries; assumption.
  - split; apply ModelFacts.warnings_length.
Qed.

Lemma X15_contract_analysis_scans_every_entry_witness :
  Py.printed
    (Py.trace
       (Report.print_contract_analysis (Py.sample_runtime (Clock.fixed_zone 0))
          (Json.VDict
             [("inputs",
               Json.VList
                 [Json.VDict [("address", Json.VStr "a1")];
                  Json.VDict [("address", Json.VStr "a2")];
                  Json.VDict [("address", Json.VStr "a3")];
                  Json.VDict [("address", Json.VStr "0xdead");
                              ("contract", Json.VBool true);
                              ("score", Json.VInt 2)]])])))
  = [Report.analysis_header;
     "   ⚠️  CONTRACT SOSPETTO (Input): 0xdead";
     "      Score: 2/10 | Entity: Unidentified"].
Proof.
  rewrite (proj1 (X15_contract_analysis_scans_every_entry
                    (Py.sample_runtime (Clock.fixed_zone 0))
                    [("inputs",
                      Json.VList
                        [Json.VDict [("address", Json.VStr "a1")];
                         Json.VDict [("address", Json.VStr "a2")];
                         Json.VDict [("address", Json.VStr "a3")];
                         Json.VDict [("address", Json.VStr "0xdead");
                                     ("contract", Json.VBool true);
                                     ("score", Json.VInt 2)]])]
                    eq_refl eq_refl)).
  reflexivity.
Defined.

(** ** Token transfers and whole details *)

Module TokenFacts.
Import Json Py Fmt Clock Report PyFacts ReportFacts ScanFacts ApiFacts.

Ltac party_case :=
  first [ left; reflexivity
        | right; left; eexists; reflexivity
        | right; right; eexists; reflexivity ].

Lemma print_party_cases rt label party :
  print_party rt label party = ret tt
  \/ (exists s, print_party rt label party = ([Print s], Done tt))
  \/ (exists e, print_party rt label party = raise e).
Proof.
  unfold print_party, party_entity.
  destruct party; repeat (progress pure_step); try party_case.
  destruct (truthy (lookup_or "address" VNone kv)); [|party_case].
  repeat (progress pure_step).
  destruct (truthy (lookup_or "entity" VNone kv)).
  - repeat (progress pure_step).
    destruct (lookup_or "entity" (VDict []) kv); repeat (progress pure_step);
      try party_case;
      destruct (lookup_or "address" (VStr "N/A") kv); repeat (progress pure_step);
      party_case.
  - repeat (progress pure_step).
    destruct (lookup_or "address" (VStr "N/A") kv); repeat (progress pure_step);
      party_case.
Qed.

Lemma print_party_renderable rt label party :
  renderable_party party = true -> result (print_party rt label party) = Done tt.
Proof.
  unfold print_party, party_entity, renderable_party.
  destruct party; try discriminate. repeat (progress pure_step).
  destruct (truthy (lookup_or "address" VNone kv)); [|reflexivity].
  cbn [negb orb]. intros H. apply andb_true_iff in H as [Ha He].
  repeat (progress pure_step).
  destruct (truthy (lookup_or "entity" VNone kv)); cbn [negb orb] in He.
  - repeat (progress pure_step).
    destruct (lookup_or "entity" (VDict []) kv); try discriminate.
    repeat (progress pure_step).
    destruct (slice_str_sliceable rt 20 _ Ha) as [s ->]. rewrite bind_ret.
    reflexivity.
  - repeat (progress pure_step).
    destruct (slice_str_sliceable rt 20 _ Ha) as [s ->]. rewrite bind_ret.
    reflexivity.
Qed.

Lemma print_party_length rt label party :
  (List.length (trace (print_party rt label party)) <= 1)%nat.
Proof.
  destruct (print_party_cases rt label party) as [-> | [[s ->] | [e ->]]];
    cbn; lia.
Qed.

(** A token transfer that is printed takes one line, and one more for
    each party that has an address. *)
Lemma print_token_done rt token :
  result (print_token rt token) = Done tt ->
  exists kv s,
    token = VDict kv
    /\ trace (print_token rt token)
       = (Print s
            :: trace (print_party rt "From" (lookup_or "sender" (VDict []) kv))
            ++ trace (print_party rt "To" (lookup_or "receiver" (VDict []) kv)))%list.
Proof.
  unfold print_token. destruct token; try discriminate.
  repeat (progress pure_step).
  destruct (lookup_or "token" (VDict []) kv) as [| | | | | |ti];
    try discriminate.
  repeat (progress pure_step).
  destruct (lookup_or "value" (VInt 0) kv); repeat (progress pure_step);
    try discriminate;
    destruct (lookup_or "usd" (VInt 0) kv); repeat (progress pure_step);
    try discriminate;
    rewrite bind_print; cbv beta; repeat (progress pure_step);
    cbn [result trace fst snd]; rewrite result_bind, trace_bind;
    (destruct (result (print_party rt "From" _)) as [[]| |];
     try discriminate; intros _; eexists; eexists; split; reflexivity).
Qed.

Lemma print_token_lines rt token :
  result (print_token rt token) = Done tt ->
  (1 <= List.length (trace (print_token rt token)) <= 3)%nat.
Proof.
  intros H. destruct (print_token_done rt token H) as (kv & s & -> & ->).
  cbn [List.length]. rewrite length_app.
  pose proof (print_party_length rt "From" (lookup_or "sender" (VDict []) kv)).
  pose proof (print_party_length rt "To" (lookup_or "receiver" (VDict []) kv)).
  lia.
Qed.

Lemma print_token_renderable rt token :
  renderable_token token = true -> result (print_token rt token) = Done tt.
Proof.
  unfold print_token, renderable_token. destruct token; try discriminate.
  intros H. repeat (apply andb_true_iff in H as [H ?]).
  repeat (progress pure_step).
  destruct (lookup_or "token" (VDict []) kv) as [| | | | | |ti];
    try discriminate.
  repeat (progress pure_step). run_model.
  rewrite !result_bind.
  rewrite !print_party_renderable by assumption. reflexivity.
Qed.

Lemma print_tokens_cons rt kv x l :
  assoc "tokens" kv = Some (VList (x :: l)) ->
  let loop := for_each (firstn 5 (x :: l)) (print_token rt) in
  print_tokens rt (VDict kv)
  = (Print (nl ++ "🪙 Token Transfers ("
            ++ dec (Z.of_nat (List.length (x :: l))) ++ "):")
       :: trace loop,
     result loop).
Proof.
  intros H. unfold print_tokens, present. rewrite H.
  cbn [truthy List.length Nat.eqb negb]. repeat (progress pure_step).
  rewrite bind_print. cbv beta. repeat (progress pure_step).
  destruct (for_each _ _). reflexivity.
Qed.

Lemma print_tokens_nil rt kv :
  assoc "tokens" kv = Some (VList []) -> print_tokens rt (VDict kv) = ret tt.
Proof. intros H. unfold print_tokens, present. rewrite H. reflexivity. Qed.

Lemma tokens_ok_done rt kv :
  tokens_ok kv = true -> result (print_tokens rt (VDict kv)) = Done tt.
Proof.
  unfold tokens_ok. destruct (assoc "tokens" kv) as [v|] eqn:E.
  - destruct (truthy v) eqn:Ht; cbn [negb orb].
    + destruct v; try discriminate. intros Hl.
      destruct l as [|x l]; [discriminate Ht|].
      rewrite (print_tokens_cons _ _ _ _ E). cbv zeta. cbn [result snd].
      apply for_each_all_done. apply Forall_forall. intros t Hin.
      apply print_token_renderable. rewrite forallb_forall in Hl. apply Hl, Hin.
    + intros _. unfold print_tokens, present. rewrite E, Ht. reflexivity.
  - intros _. unfold print_tokens, present. rewrite E. reflexivity.
Qed.

Lemma listing_ok_done rt key title noun kv :
  listing_ok key kv = true ->
  result (print_listing rt key title noun (VDict kv)) = Done tt.
Proof.
  unfold listing_ok. destruct (assoc key kv) as [v|] eqn:E.
  - destruct (truthy v) eqn:Ht; cbn [negb orb].
    + destruct v; try discriminate. intros Hl.
      apply andb_true_iff in Hl as [Hl _].
      apply (proj1 (listing_first_three rt key title noun kv l E) Hl).
    + intros _. unfold print_listing, present. rewrite E, Ht. reflexivity.
  - intros _. unfold print_listing, present. rewrite E. reflexivity.
Qed.

Lemma listing_ok_scan_ok key kv : listing_ok key kv = true -> scan_ok key kv = true.
Proof.
  unfold listing_ok, scan_ok. destruct (assoc key kv) as [v|]; [|reflexivity].
  destruct (truthy v); cbn [negb orb]; [|reflexivity].
  destruct v; try discriminate. intros H.
  apply andb_true_iff in H as [_ H]. exact H.
Qed.

Lemma head_renderable rt data :
  renderable_head data = true ->
  result (print_transaction_head rt data) = Done tt.
Proof.
  unfold renderable_head, print_transaction_head.
  destruct data; try discriminate. intros H.
  repeat (apply andb_true_iff in H as [H ?]).
  cbn [get]. run_model.
  destruct (lookup_or "currency" (VStr "N/A") kv); try discriminate.
  cbn [upper]. run_model.
  destruct (truthy (lookup_or "gas" VNone kv)); run_model; reflexivity.
Qed.

Lemma head_starts rt data :
  exists rest,
    trace (print_transaction_head rt data)
    = Print rule :: Print "📄 DETTAGLI TRANSAZIONE" :: Print rule :: rest.
Proof.
  unfold print_transaction_head. rewrite !bind_print. cbv beta.
  eexists. reflexivity.
Qed.

Lemma details_renderable rt data :
  renderable_details data = true ->
  result (print_transaction_details rt data) = Done tt.
Proof.
  unfold renderable_details. destruct data; try discriminate. intros H.
  apply andb_true_iff in H as [H Ht].
  apply andb_true_iff in H as [H Ho].
  apply andb_true_iff in H as [Hh Hi].
  unfold print_transaction_details.
  rewrite result_bind, (head_renderable _ _ Hh).
  rewrite result_bind, (listing_ok_done _ _ _ _ _ Hi).
  rewrite result_bind, (listing_ok_done _ _ _ _ _ Ho).
  rewrite result_bind, (tokens_ok_done _ _ Ht).
  rewrite result_bind.
  rewrite (ModelFacts.contract_analysis_entries rt kv)
    by (apply listing_ok_scan_ok; assumption).
  reflexivity.
Qed.

End TokenFacts.






(** ** Summaries and address statistics *)

Module SummaryFacts.
Import Json Py Fmt Clock Report PyFacts ReportFacts ApiFacts.

Ltac print_model :=
  repeat
    (first
       [ rewrite bind_ret
       | rewrite bind_print
       | match goal with
         | Hn : numeric ?v = true |- context [bind (fmt_grouped ?rt ?v) _] =>
             let s := fresh "s" in
             destruct (fmt_grouped_numeric rt v Hn) as [s ->]
         | Hn : numeric ?v = true |- context [bind (fmt_fixed ?rt ?p ?v) _] =>
             let s := fresh "s" in
             destruct (fmt_fixed_numeric rt p v Hn) as [s ->]
         | Hn : sliceable ?v = true |- context [bind (slice_str ?rt ?n ?v) _] =>
             let s := fresh "s" in
             destruct (slice_str_sliceable rt n v Hn) as [s ->]
         end ];
     cbv beta).

Lemma summary_lines rt kv :
  summarizable (VDict kv) = true ->
  let out := eq_str (lookup_or "direction" VNone kv) "out" in
  exists h20 amount usd fee fee_usd conf,
    slice_str rt 20 (lookup_or "hash" (VStr "N/A") kv) = ret h20
    /\ fmt_grouped rt
         (lookup_or (if out then "total_out" else "total_in") (VInt 0) kv)
       = ret amount
    /\ fmt_fixed rt 2
         (lookup_or (if out then "total_out_usd" else "total_in_usd") (VInt 0) kv)
       = ret usd
    /\ fmt_grouped rt (lookup_or "fee" (VInt 0) kv) = ret fee
    /\ fmt_fixed rt 2 (lookup_or "fee_usd" (VInt 0) kv) = ret fee_usd
    /\ fmt_grouped rt (lookup_or "confirmations" (VInt 0) kv) = ret conf
    /\ print_transaction_summary rt (VDict kv)
       = ([Print ("Hash: " ++ h20 ++ "...");
           Print ("Time: " ++ format_timestamp rt (lookup_or "time" (VInt 0) kv));
           Print ("Direction: "
                  ++ py_str rt (lookup_or "direction" (VStr "N/A") kv));
           Print ("Amount: " ++ amount);
           Print ("Amount USD: $" ++ usd);
           Print ("Fee: " ++ fee ++ " ($" ++ fee_usd ++ ")");
           Print ("Confirmations: " ++ conf)],
          Done tt).
Proof.
  unfold summarizable, print_transaction_summary. cbv zeta. intros H.
  repeat (apply andb_true_iff in H as [H ?]).
  cbn [get]. print_model. cbn [trace result fst snd].
  do 6 eexists. repeat split; reflexivity.
Qed.

Lemma summary_bad_hash rt kv :
  sliceable (lookup_or "hash" (VStr "N/A") kv) = false ->
  print_transaction_summary rt (VDict kv) = ([], Raise TypeError).
Proof.
  unfold print_transaction_summary. cbn [get]. rewrite bind_ret.
  destruct (lookup_or "hash" (VStr "N/A") kv); try discriminate; reflexivity.
Qed.

Lemma amounts_fixed rt p v :
  amounts_ok v = true ->
  exists kv b i o,
    v = VDict kv
    /\ fmt_fixed rt p (lookup_or "balance" (VInt 0) kv) = ret b
    /\ fmt_fixed rt p (lookup_or "total_in" (VInt 0) kv) = ret i
    /\ fmt_fixed rt p (lookup_or "total_out" (VInt 0) kv) = ret o.
Proof.
  unfold amounts_ok. destruct v; try discriminate. intros H.
  repeat (apply andb_true_iff in H as [H ?]).
  destruct (fmt_fixed_numeric rt p _ H) as [b Hb].
  destruct (fmt_fixed_numeric rt p _ H1) as [i Hi].
  destruct (fmt_fixed_numeric rt p _ H0) as [o Ho].
  exists kv, b, i, o. auto.
Qed.

Lemma counts_grouped rt v :
  counts_ok v = true ->
  exists kv i o,
    v = VDict kv
    /\ fmt_grouped rt (lookup_or "in" (VInt 0) kv) = ret i
    /\ fmt_grouped rt (lookup_or "out" (VInt 0) kv) = ret o.
Proof.
  unfold counts_ok. destruct v; try discriminate. intros H.
  apply andb_true_iff in H as [H H0].
  destruct (fmt_grouped_numeric rt _ H) as [i Hi].
  destruct (fmt_grouped_numeric rt _ H0) as [o Ho].
  exists kv, i, o. auto.
Qed.

(** The statistics of an address that follows the data model are printed
    to the end, on 18 lines, or 21 when the address has an entity. *)
Lemma stats_lines rt kv :
  renderable_stats (VDict kv) = true ->
  exists lines,
    print_address_stats rt (VDict kv)
    = (Print rule :: Print "📊 STATISTICHE INDIRIZZO" :: Print rule
         :: map Print lines,
       Done tt)
    /\ List.length lines
       = if truthy (lookup_or "entity" VNone kv) then 18%nat else 15%nat.
Proof.
  unfold renderable_stats. intros H.
  apply andb_true_iff in H as [H He].
  apply andb_true_iff in H as [H Hc].
  apply andb_true_iff in H as [H Hu].
  apply andb_true_iff in H as [Hb Ht].
  destruct (amounts_fixed rt 8 _ Hb) as (bk & b1 & b2 & b3 & Eb & Eb1 & Eb2 & Eb3).
  destruct (amounts_fixed rt 2 _ Hu) as (uk & u1 & u2 & u3 & Eu & Eu1 & Eu2 & Eu3).
  destruct (counts_grouped rt _ Hc) as (ck & c1 & c2 & Ec & Ec1 & Ec2).
  destruct (lookup_or "blockchain" (VStr "") kv) as [| | | |chain| |] eqn:Ech;
    try discriminate Ht.
  destruct (truthy (lookup_or "entity" VNone kv)) eqn:Et; cbn [negb orb] in He.
  - destruct (lookup_or "entity" VNone kv) as [| | | | | |ek] eqn:Ee;
      try discriminate He.
    eexists (_ :: _ :: _ :: _ :: _ :: _ :: _ :: _ :: _ :: _ :: _ :: _ :: _ :: _
               :: _ :: _ :: _ :: [_]).
    split; [|reflexivity].
    unfold print_address_stats. cbn [get].
    rewrite Eb, Eu, Ec, Ech, Ee. cbn [get upper].
    repeat (first [rewrite bind_ret | rewrite bind_print | rewrite Eb1 | rewrite Eb2
                  | rewrite Eb3 | rewrite Eu1 | rewrite Eu2 | rewrite Eu3
                  | rewrite Ec1 | rewrite Ec2 | rewrite Et | rewrite bind_assoc];
            cbv beta; cbn [trace result fst snd get upper]).
    reflexivity.
  - eexists (_ :: _ :: _ :: _ :: _ :: _ :: _ :: _ :: _ :: _ :: _ :: _ :: _ :: _
               :: [_]).
    split; [|reflexivity].
    unfold print_address_stats. cbn [get].
    rewrite Eb, Eu, Ec, Ech. cbn [get upper].
    repeat (first [rewrite bind_ret | rewrite bind_print | rewrite Eb1 | rewrite Eb2
                  | rewrite Eb3 | rewrite Eu1 | rewrite Eu2 | rewrite Eu3
                  | rewrite Ec1 | rewrite Ec2 | rewrite Et | rewrite bind_assoc];
            cbv beta; cbn [trace result fst snd get upper]).
    reflexivity.
Qed.

End SummaryFacts.





(** ** Times *)

Module TimeFacts.
Import Json Py Fmt Clock EnvFacts.

Lemma strftime_suffix dt :
  strftime dt
  = (dec (year dt) ++ "-" ++ pad2 (month dt) ++ "-" ++ pad2 (day dt) ++ " "
     ++ pad2 (hour dt) ++ ":" ++ pad2 (minute dt) ++ ":" ++ pad2 (second dt))
    ++ " UTC".
Proof. unfold strftime. rewrite !append_assoc. reflexivity. Qed.

Lemma format_timestamp_local rt n dt :
  n <> 0 -> of_local_seconds (n + utcoffset rt n) = Some dt ->
  format_timestamp rt (VInt n) = strftime dt.
Proof.
  intros Hn Hdt. unfold format_timestamp, fromtimestamp, local.
  cbn [truthy]. replace (n =? 0) with false by (symmetry; apply Z.eqb_neq; exact Hn).
  cbn [negb]. rewrite Hdt. reflexivity.
Qed.

End TimeFacts.





(** ** What the lookup by hash does with the details *)

Module CatchFacts.
Import Json Py Fmt Clock Report Api PyFacts ApiFacts.

Lemma hash_lookup_details rt srv currency tx_hash token kv text :
  srv (request_of GET (transaction_endpoint currency tx_hash) token VNone)
  = Response 200 (Some (VDict kv)) text ->
  truthy (lookup_or "status" VNone kv) = true ->
  truthy (lookup_or "data" (VDict []) kv) = true ->
  let details := print_transaction_details rt (lookup_or "data" (VDict []) kv) in
  check_transaction_by_hash rt srv currency tx_hash token
  = (([Print (nl ++ "🔍 Verifica transazione: " ++ tx_hash);
       Print ("   Currency: " ++ upper_string currency ++ nl);
       Http (request_of GET (transaction_endpoint currency tx_hash) token VNone)]
      ++ trace details
      ++ match result details with
         | Raise e => [Print ("❌ Errore imprevisto: " ++ exn_str rt e)]
         | _ => []
         end)%list,
     Done tt).
Proof.
  intros Hr Hs Hd. cbv zeta. unfold check_transaction_by_hash. cbv zeta.
  rewrite (ClientFacts.make_api_request_ok _ _ _ _ _ _ _ _ (or_introl eq_refl) Hr).
  rewrite bind_done_pair. cbn [get]. rewrite bind_ret, Hs, bind_ret, Hd.
  destruct (print_transaction_details rt (lookup_or "data" (VDict []) kv))
    as [t [[]|code|e]]; cbn [trace result fst snd]; cbn;
    rewrite ?app_nil_r; reflexivity.
Qed.

End CatchFacts.


